(** * Request parameter validation of obs-websocket

    A shallow embedding of [src/requesthandler/rpc/Request.cpp]: the
    request constructor, the presence and type checks on the JSON request
    data, and the checks that resolve names into libobs sources, scenes,
    inputs and scene items.

    The checks report through two caller-supplied slots ([statusCode] and
    [comment]) and talk to libobs, whose only mutable part relevant here
    is reference counting.  Both are threaded through a small state monad
    with an undefined outcome for behaviour the C++ code leaves undefined
    (a const [operator[]] on a missing key, a float to integer cast out
    of range). *)

From Stdlib Require Import ZArith Floats.SpecFloat.
From stdpp Require Import base option list gmap strings pretty.

#[local] Open Scope Z_scope.
Set Warnings "-register-all".

(** ** JSON values (nlohmann::json)

    One constructor per [value_t] tag.  An object is kept as the list of
    its members; [std::map] holds one member per key, and the lookups
    below take the first member with a given key. *)

Definition double : Type := spec_float.

Inductive json : Type :=
| Jnull
| Jobject (members : list (string * json))
| Jarray (elements : list json)
| Jstring (s : string)
| Jboolean (b : bool)
| Jnumber_integer (z : Z)
| Jnumber_unsigned (z : Z)
| Jnumber_float (f : double)
| Jbinary (bytes : list Z)
| Jdiscarded.

Definition is_null (j : json) : bool :=
  match j with Jnull => true | _ => false end.

Definition is_object (j : json) : bool :=
  match j with Jobject _ => true | _ => false end.

Definition is_array (j : json) : bool :=
  match j with Jarray _ => true | _ => false end.

Definition is_string (j : json) : bool :=
  match j with Jstring _ => true | _ => false end.

Definition is_boolean (j : json) : bool :=
  match j with Jboolean _ => true | _ => false end.

Definition is_number (j : json) : bool :=
  match j with
  | Jnumber_integer _ | Jnumber_unsigned _ | Jnumber_float _ => true
  | _ => false
  end.

(** [find] on the members of an object. *)
Fixpoint members_find (l : list (string * json)) (k : string) : option json :=
  match l with
  | [] => None
  | (k', v) :: l' => if String.eqb k' k then Some v else members_find l' k
  end.

(** [j.contains(key)]: false on every value that is not an object. *)
Definition contains (j : json) (k : string) : bool :=
  match j with
  | Jobject l => bool_decide (is_Some (members_find l k))
  | _ => false
  end.

(** [j[key]] on a const value: defined on an object that has the key,
    [None] stands for the assertion failure or the [type_error]. *)
Definition json_at (j : json) (k : string) : option json :=
  match j with
  | Jobject l => members_find l k
  | _ => None
  end.

(** [j.empty()] *)
Definition json_empty (j : json) : bool :=
  match j with
  | Jnull => true
  | Jobject l => bool_decide (l = [])
  | Jarray l => bool_decide (l = [])
  | _ => false
  end.

(** [j.get<std::string>()], a [type_error] on anything but a string. *)
Definition get_string (j : json) : option string :=
  match j with Jstring s => Some s | _ => None end.

(** ** Binary64 numbers

    [double] is [spec_float] read at precision 53 and maximal exponent
    1024.  The comparison operators are those of IEEE 754: every
    comparison with a NaN is false. *)

Definition prec : Z := 53.
Definition emax : Z := 1024.

Definition double_valid (x : double) : bool := valid_binary prec emax x.

Definition double_of_Z (z : Z) : double := binary_normalize prec emax z 0 false.

Definition double_lt (x y : double) : bool := SFltb x y.

Definition double_gt (x y : double) : bool :=
  match SFcompare x y with Some Gt => true | _ => false end.

Definition double_le (x y : double) : bool := SFleb x y.

Definition double_eq (x y : double) : bool := SFeqb x y.

Definition is_nan (x : double) : bool :=
  match x with S754_nan => true | _ => false end.

Definition INFINITY : double := S754_infinity false.
Definition NAN : double := S754_nan.
Definition double_zero : double := S754_zero false.

(** [static_cast<double>] of a number value; [type_error] otherwise. *)
Definition get_double (j : json) : option double :=
  match j with
  | Jnumber_integer z => Some (double_of_Z z)
  | Jnumber_unsigned z => Some (double_of_Z z)
  | Jnumber_float f => Some f
  | _ => None
  end.

Definition INT64_MIN : Z := - 2 ^ 63.
Definition INT64_MAX : Z := 2 ^ 63 - 1.

(** Conversion of a 64-bit unsigned value to [int64_t]: modulo 2^64. *)
Definition int64_of_uint64 (z : Z) : Z :=
  if z <? 2 ^ 63 then z else z - 2 ^ 64.

(** The integer a finite double truncates to, rounding toward zero. *)
Definition double_trunc (x : double) : option Z :=
  match x with
  | S754_zero _ => Some 0
  | S754_finite s m e =>
      let a := if 0 <=? e then Z.pos m * 2 ^ e else Z.pos m / 2 ^ (- e) in
      Some (if s then - a else a)
  | S754_infinity _ | S754_nan => None
  end.

(** [static_cast<int64_t>] of a double: the truncated value when it is
    representable, undefined behaviour otherwise. *)
Definition int64_of_double (x : double) : option Z :=
  t ← double_trunc x;
  if (INT64_MIN <=? t) && (t <=? INT64_MAX) then Some t else None.

(** [static_cast<int64_t>] of a number value; [type_error] otherwise. *)
Definition get_int64 (j : json) : option Z :=
  match j with
  | Jnumber_integer z => Some z
  | Jnumber_unsigned z => Some (int64_of_uint64 z)
  | Jnumber_float f => int64_of_double f
  | _ => None
  end.

(** ** std::to_string

    [std::to_string(int64_t)] prints the decimal digits, which is what
    [pretty] does on [Z].  [std::to_string(double)] is [printf("%f")];
    the validators take it as a parameter, and [to_string_f] below is the
    instance used to run them: six decimals, the exact binary value
    rounded to nearest, ties to even. *)

Definition to_string_int64 (z : Z) : string := pretty z.

Fixpoint zeros (n : nat) : string :=
  match n with
  | O => ""
  | S n' => "0" +:+ zeros n'
  end.

Definition pad_zeros (width : nat) (s : string) : string :=
  zeros (width - String.length s) +:+ s.

Definition round_half_even (num den : Z) : Z :=
  let q := num / den in
  let r := num mod den in
  if 2 * r <? den then q
  else if den <? 2 * r then q + 1
  else if Z.even q then q else q + 1.

Definition to_string_f (x : double) : string :=
  match x with
  | S754_nan => "nan"
  | S754_infinity s => if s then "-inf" else "inf"
  | S754_zero s => if s then "-0.000000" else "0.000000"
  | S754_finite s m e =>
      let n := if 0 <=? e then Z.pos m * 2 ^ e * 1000000
               else round_half_even (Z.pos m * 1000000) (2 ^ (- e)) in
      (if s then "-" else "") +:+ pretty (n / 1000000) +:+ "." +:+
      pad_zeros 6 (pretty (n mod 1000000))
  end.

(** [s.c_str()] read as a C string: the characters before the first
    null character. *)
Fixpoint c_str (s : string) : string :=
  match s with
  | EmptyString => EmptyString
  | String c s' => if Ascii.eqb c Ascii.zero then EmptyString else String c (c_str s')
  end.

(** ** Status codes, sessions and requests *)

(** The enumerators of [RequestStatus] that this file assigns. *)
Inductive RequestStatus : Type :=
| MissingRequestData
| MissingRequestParameter
| InvalidRequestParameterType
| RequestParameterOutOfRange
| RequestParameterEmpty
| ResourceNotFound
| InvalidResourceType.

Record Session : Type := {
  session_RpcVersion : Z;
  session_IgnoreNonFatalRequestChecks : bool
}.

Record Request : Type := {
  request_Session : Session;
  RpcVersion : Z;
  IgnoreNonFatalRequestChecks : bool;
  RequestType : string;
  RequestData : json
}.

Definition GetDefaultJsonObject (requestData : json) : json :=
  if negb (is_object requestData) then Jobject [] else requestData.

(** The constructor [Request::Request]. *)
Definition Request_new (session : Session) (requestType : string)
    (requestData : json) : Request :=
  {| request_Session := session;
     RpcVersion := session_RpcVersion session;
     IgnoreNonFatalRequestChecks := session_IgnoreNonFatalRequestChecks session;
     RequestType := requestType;
     RequestData := GetDefaultJsonObject requestData |}.

(** Modelled from the spec: [Request::HasRequestData] is declared in
    Request.h, which is missing from the sources.  The spec has
    the check fail when "the request data is itself invalid/absent", the
    data being valid when it is a key-value mapping. *)
Definition HasRequestData (r : Request) : bool := is_object (RequestData r).

(** Modelled from the spec: the default arguments of the validators are
    declared in Request.h.  The range of ValidateNumber "defaults
    effectively unbounded", and [allowEmpty] is "default false for
    string". *)
Definition default_minValue : double := S754_infinity true.
Definition default_maxValue : double := INFINITY.
Definition default_allowEmpty : bool := false.

(** The scene filter of ValidateScene, with the enumerators the source
    compares against and the one left for "no filter". *)
Inductive ObsWebSocketSceneFilter : Type :=
| OBS_WEBSOCKET_SCENE_FILTER_SCENE_ONLY
| OBS_WEBSOCKET_SCENE_FILTER_GROUP_ONLY
| OBS_WEBSOCKET_SCENE_FILTER_SCENE_OR_GROUP.

#[global] Instance RequestStatus_eq_dec : EqDecision RequestStatus.
Proof. solve_decision. Defined.

#[global] Instance ObsWebSocketSceneFilter_eq_dec : EqDecision ObsWebSocketSceneFilter.
Proof. solve_decision. Defined.

(** ** libobs

    The part of libobs the validators call.  A source pointer is the
    position of the source in the list of sources, a scene pointer is the
    pointer of the source that carries the scene, and a scene item
    pointer is a scene pointer with the position of the item in that
    scene; a null pointer is [None].  Reference counts live beside the
    sources and are the only thing the validators change. *)

Inductive obs_source_type : Type :=
| OBS_SOURCE_TYPE_INPUT
| OBS_SOURCE_TYPE_FILTER
| OBS_SOURCE_TYPE_TRANSITION
| OBS_SOURCE_TYPE_SCENE.

#[global] Instance obs_source_type_eq_dec : EqDecision obs_source_type.
Proof. solve_decision. Defined.

Record obs_source_t : Type := {
  source_name : string;
  source_type : obs_source_type;
  source_is_group : bool;
  (** the scene [obs_scene_from_source] gives, as the ids of its items in
      order; [None] when it gives a null pointer *)
  source_scene : option (list Z)
}.

Abbreviation source_ptr := nat.
Abbreviation scene_ptr := nat.
Abbreviation sceneitem_ptr := (nat * nat)%type.

Record obs_core : Type := {
  sources : list obs_source_t;
  source_refs : gmap nat Z;
  sceneitem_refs : gmap (nat * nat) Z
}.

Definition source_refcount (o : obs_core) (p : source_ptr) : Z :=
  default 0 (source_refs o !! p).

Definition sceneitem_refcount (o : obs_core) (i : sceneitem_ptr) : Z :=
  default 0 (sceneitem_refs o !! i).

Definition source_refs_add (d : Z) (p : source_ptr) (o : obs_core) : obs_core :=
  {| sources := sources o;
     source_refs := <[p := source_refcount o p + d]> (source_refs o);
     sceneitem_refs := sceneitem_refs o |}.

Definition sceneitem_refs_add (d : Z) (i : sceneitem_ptr) (o : obs_core) : obs_core :=
  {| sources := sources o;
     source_refs := source_refs o;
     sceneitem_refs := <[i := sceneitem_refcount o i + d]> (sceneitem_refs o) |}.

(** Position of the first source with the given name. *)
Fixpoint find_source (l : list obs_source_t) (name : string) : option nat :=
  match l with
  | [] => None
  | x :: l' => if String.eqb (source_name x) name then Some O
               else S <$> find_source l' name
  end.

(** Position of the first item with the given id. *)
Fixpoint find_item (l : list Z) (id : Z) : option nat :=
  match l with
  | [] => None
  | x :: l' => if x =? id then Some O else S <$> find_item l' id
  end.

(** ** The monad of a validator call

    The state holds the two output slots of the caller and libobs.  A
    computation gives a result and a new state, or [None] where the C++
    code has no defined behaviour. *)

Record call_state : Type := CallState {
  statusCode : RequestStatus;
  comment : string;
  obs : obs_core
}.

Definition exec (A : Type) : Type := call_state → option (A * call_state).

#[global] Instance exec_ret : MRet exec := λ A a s, Some (a, s).

#[global] Instance exec_bind : MBind exec := λ A B f m s,
  match m s with
  | Some (a, s') => f a s'
  | None => None
  end.

Definition set_statusCode (c : RequestStatus) : exec unit :=
  λ s, Some (tt, CallState c (comment s) (obs s)).

Definition set_comment (c : string) : exec unit :=
  λ s, Some (tt, CallState (statusCode s) c (obs s)).

(** A value whose absence is undefined behaviour or an exception. *)
Definition defined {A : Type} (o : option A) : exec A :=
  λ s, match o with Some a => Some (a, s) | None => None end.

Definition read_obs {A : Type} (f : obs_core → A) : exec A :=
  λ s, Some (f (obs s), s).

Definition update_obs (f : obs_core → obs_core) : exec unit :=
  λ s, Some (tt, CallState (statusCode s) (comment s) (f (obs s))).

(** [obs_get_source_by_name]: the first source of that name, with a new
    reference for the caller. *)
Definition obs_get_source_by_name (name : string) : exec (option source_ptr) :=
  found ← read_obs (λ o, find_source (sources o) name);
  match found with
  | Some p => update_obs (source_refs_add 1 p) ;; mret (Some p)
  | None => mret None
  end.

(** [obs_source_addref] and [obs_source_release] ignore a null pointer. *)
Definition obs_source_addref (source : option source_ptr) : exec unit :=
  match source with
  | Some p => update_obs (source_refs_add 1 p)
  | None => mret tt
  end.

Definition obs_source_release (source : option source_ptr) : exec unit :=
  match source with
  | Some p => update_obs (source_refs_add (-1) p)
  | None => mret tt
  end.

Definition obs_source_get_type (source : source_ptr) : exec obs_source_type :=
  x ← read_obs (λ o, sources o !! source);
  src ← defined x;
  mret (source_type src).

Definition obs_source_is_group (source : source_ptr) : exec bool :=
  x ← read_obs (λ o, sources o !! source);
  src ← defined x;
  mret (source_is_group src).

(** [obs_scene_from_source]: null for a null source. *)
Definition obs_scene_from_source (source : option source_ptr) : exec (option scene_ptr) :=
  match source with
  | None => mret None
  | Some p =>
      x ← read_obs (λ o, sources o !! p);
      src ← defined x;
      mret (match source_scene src with Some _ => Some p | None => None end)
  end.

(** [obs_scene_addref] and [obs_scene_release] count on the source that
    carries the scene. *)
Definition obs_scene_addref (scene : option scene_ptr) : exec unit :=
  obs_source_addref scene.

Definition obs_scene_release (scene : option scene_ptr) : exec unit :=
  obs_source_release scene.

(** [obs_scene_find_sceneitem_by_id]: null for a null scene; the item is
    returned without a new reference. *)
Definition obs_scene_find_sceneitem_by_id (scene : option scene_ptr) (id : Z)
    : exec (option sceneitem_ptr) :=
  match scene with
  | None => mret None
  | Some p =>
      x ← read_obs (λ o, sources o !! p);
      src ← defined x;
      items ← defined (source_scene src);
      mret (pair p <$> find_item items id)
  end.

Definition obs_sceneitem_addref (item : option sceneitem_ptr) : exec unit :=
  match item with
  | Some i => update_obs (sceneitem_refs_add 1 i)
  | None => mret tt
  end.

Definition obs_sceneitem_release (item : option sceneitem_ptr) : exec unit :=
  match item with
  | Some i => update_obs (sceneitem_refs_add (-1) i)
  | None => mret tt
  end.

(** The wrappers [OBSSource], [OBSScene] and [OBSSceneItem] of obs.hpp:
    constructing one from a pointer adds a reference, and the destructor
    releases it when the enclosing function returns, after the returned
    value has been computed. *)
Definition OBSSource {A : Type} (val : option source_ptr) (body : exec A) : exec A :=
  obs_source_addref val ;; a ← body; obs_source_release val ;; mret a.

Definition OBSScene {A : Type} (val : option scene_ptr) (body : exec A) : exec A :=
  obs_scene_addref val ;; a ← body; obs_scene_release val ;; mret a.

Definition OBSSceneItem {A : Type} (val : option sceneitem_ptr) (body : exec A) : exec A :=
  obs_sceneitem_addref val ;; a ← body; obs_sceneitem_release val ;; mret a.

(** ** Sample requests and libobs states *)

Definition ex_session : Session :=
  {| session_RpcVersion := 1; session_IgnoreNonFatalRequestChecks := false |}.

Definition ex_data : json :=
  Jobject [("sceneName", Jstring "Scene 1"); ("sceneItemId", Jnumber_unsigned 5)].

Definition ex_core : obs_core :=
  {| sources := [ {| source_name := "Mic"; source_type := OBS_SOURCE_TYPE_INPUT;
                     source_is_group := false; source_scene := None |};
                  {| source_name := "Scene 1"; source_type := OBS_SOURCE_TYPE_SCENE;
                     source_is_group := false; source_scene := Some [1; 5; 7] |} ];
     source_refs := {[ 0%nat := 1; 1%nat := 1 ]};
     sceneitem_refs := ∅ |}.

Definition ex_state : call_state :=
  CallState MissingRequestData "" ex_core.

Abbreviation scene_only := OBS_WEBSOCKET_SCENE_FILTER_SCENE_ONLY.

(** The same request with the item id -1, and with the item id 5.5. *)
Definition ex_data_negative : json :=
  Jobject [("sceneName", Jstring "Scene 1"); ("sceneItemId", Jnumber_integer (-1))].

Definition five_and_a_half : double := S754_finite false 6192449487634432 (-50).

Definition ex_data_fractional : json :=
  Jobject [("sceneName", Jstring "Scene 1");
           ("sceneItemId", Jnumber_float five_and_a_half)].

(** libobs without a source named "Scene 1". *)
Definition ex_core_no_scene : obs_core :=
  {| sources := [ {| source_name := "Mic"; source_type := OBS_SOURCE_TYPE_INPUT;
                     source_is_group := false; source_scene := None |} ];
     source_refs := {[ 0%nat := 1 ]};
     sceneitem_refs := ∅ |}.

Definition ex_request : Request :=
  Request_new ex_session "GetSceneItemTransform" ex_data.

Definition ex_request_negative : Request :=
  Request_new ex_session "GetSceneItemTransform" ex_data_negative.

Definition ex_request_fractional : Request :=
  Request_new ex_session "GetSceneItemTransform" ex_data_fractional.

(** A request sent without data. *)
Definition ex_request_null : Request :=
  Request_new ex_session "GetSceneItemTransform" Jnull.

(** [ex_state] once the scene has been resolved. *)
Definition ex_state_resolved : call_state :=
  CallState MissingRequestData "" (source_refs_add 1 1%nat ex_core).

(** libobs where "Scene 1" is a group. *)
Definition ex_core_group : obs_core :=
  {| sources := [ {| source_name := "Mic"; source_type := OBS_SOURCE_TYPE_INPUT;
                     source_is_group := false; source_scene := None |};
                  {| source_name := "Scene 1"; source_type := OBS_SOURCE_TYPE_SCENE;
                     source_is_group := true; source_scene := None |} ];
     source_refs := {[ 0%nat := 1; 1%nat := 1 ]};
     sceneitem_refs := ∅ |}.

Definition ex_state_no_scene : call_state :=
  CallState MissingRequestData "" ex_core_no_scene.

Definition ex_state_group : call_state :=
  CallState MissingRequestData "" ex_core_group.

(** A request with one parameter of each type. *)
Definition ex_data_typed : json :=
  Jobject [("sceneName", Jstring "Scene 1"); ("inputName", Jstring "Mic");
           ("filterName", Jstring ""); ("overlay", Jboolean true);
           ("inputSettings", Jobject [("volume", Jnumber_unsigned 3)]);
           ("keyModifiers", Jobject []);
           ("requests", Jarray [Jstring "Sleep"]); ("frames", Jarray [])].

Definition ex_request_typed : Request :=
  Request_new ex_session "SetInputSettings" ex_data_typed.

(** Requests for an item the scene does not hold, for the item id 2^100
    sent as a float, and for the largest unsigned item id. *)
Definition ex_request_absent_item : Request :=
  Request_new ex_session "GetSceneItemTransform"
    (Jobject [("sceneName", Jstring "Scene 1"); ("sceneItemId", Jnumber_unsigned 9)]).

Definition two_to_the_100 : double := S754_finite false 4503599627370496 48.

Definition ex_request_huge : Request :=
  Request_new ex_session "GetSceneItemTransform"
    (Jobject [("sceneName", Jstring "Scene 1");
              ("sceneItemId", Jnumber_float two_to_the_100)]).

Definition ex_request_wrap : Request :=
  Request_new ex_session "GetSceneItemTransform"
    (Jobject [("sceneName", Jstring "Scene 1");
              ("sceneItemId", Jnumber_unsigned (2 ^ 64 - 1))]).

(** [ex_state] once the item with id 5 has been handed to the caller. *)
Definition ex_state_item_held : call_state :=
  CallState MissingRequestData "" (sceneitem_refs_add 1 (1%nat, 1%nat) ex_core).

(** ** Vocabulary of the statements *)

Definition with_slots (c : RequestStatus) (msg : string) (s : call_state) : call_state :=
  CallState c msg (obs s).

(** The outcome of a check that either passes, leaving the slots alone,
    or fails with a report written to them. *)
Definition settle_bool (rep : option (RequestStatus * string)) (s : call_state)
    : bool * call_state :=
  match rep with
  | None => (true, s)
  | Some (c, msg) => (false, with_slots c msg s)
  end.

(** The same for a check that resolves a handle and may change libobs. *)
Inductive verdict (P : Type) : Type :=
| Resolved (p : P)
| Rejected (c : RequestStatus) (msg : string).

Arguments Resolved {P} p.
Arguments Rejected {P} c msg.

Definition settle {P : Type} (v : verdict P) (o' : obs_core) (s : call_state)
    : option P * call_state :=
  match v with
  | Resolved p => (Some p, CallState (statusCode s) (comment s) o')
  | Rejected c msg => (None, CallState c msg o')
  end.

Definition missing_parameter (keyName : string) : string :=
  "Your request is missing the `" +:+ keyName +:+ "` parameter.".

Definition below_minimum (keyName bound : string) : string :=
  "The parameter `" +:+ keyName +:+ "` is below the minimum of `" +:+ bound +:+ "`".

Definition above_maximum (keyName bound : string) : string :=
  "The parameter `" +:+ keyName +:+ "` is above the maximum of `" +:+ bound +:+ "`".

Definition not_found (name : string) : string :=
  "No source was found by the name of `" +:+ name +:+ "`.".

Definition no_scene_item (sceneName : string) (id : Z) : string :=
  "No scene items were found in scene `" +:+ sceneName +:+ "` with the ID `"
  +:+ to_string_int64 id +:+ "`.".

(** [sub] occurs in [s]. *)
Definition mentions (s sub : string) : Prop :=
  ∃ pre post, s = pre +:+ sub +:+ post.

(** The sign of a rounded number is the sign it was given, and it is not
    rounded to zero. *)
Definition has_sign (s : bool) (x : double) : Prop :=
  match x with
  | S754_finite s' _ _ | S754_infinity s' => s' = s
  | _ => False
  end.

(** The range of the specification: [minValue <= value <= maxValue] in
    the floating-point order. *)
Definition in_range_inclusive (value minValue maxValue : double) : bool :=
  double_le minValue value && double_le value maxValue.

(** The state in which a function that was given one reference to the
    source [p] returns: that reference is gone, and the scene item [r] it
    hands to its caller, if any, has one more. *)
Definition handed_over (p : source_ptr) (r : option sceneitem_ptr)
    (o o' : obs_core) : Prop :=
  sources o' = sources o ∧
  (∀ q, source_refcount o' q = source_refcount o q - (if decide (p = q) then 1 else 0)) ∧
  (∀ j, sceneitem_refcount o' j
        = sceneitem_refcount o j + (if decide (r = Some j) then 1 else 0)).

(** The request holds a number under [keyName] that lies in the range. *)
Definition number_in_range (r : Request) (keyName : string)
    (minValue maxValue : double) : Prop :=
  ∃ v x, json_at (RequestData r) keyName = Some v ∧ is_number v = true ∧
         get_double v = Some x ∧ in_range_inclusive x minValue maxValue = true.

(** A number value below zero. *)
Definition json_negative (j : json) : Prop :=
  match j with
  | Jnumber_integer z | Jnumber_unsigned z => z < 0
  | Jnumber_float f => double_lt f double_zero = true
  | _ => False
  end.

(** The integer [t] is the double [x] with its fraction dropped.  A finite
    double [S754_finite s m e] has the value [m * 2^e], negated when [s]
    is set; [t] has the sign of [x] and [|t| <= m * 2^e < |t| + 1], written
    here with the power of two moved to the side where its exponent is not
    negative.  An infinity and a NaN have no such integer. *)
Definition truncated_toward_zero (x : double) (t : Z) : Prop :=
  match x with
  | S754_zero _ => t = 0
  | S754_finite s m e =>
      (if s then t ≤ 0 else 0 ≤ t) ∧
      Z.abs t * 2 ^ Z.max 0 (- e) ≤ Z.pos m * 2 ^ Z.max 0 e
        < (Z.abs t + 1) * 2 ^ Z.max 0 (- e)
  | S754_infinity _ | S754_nan => False
  end.

(** The filter lets a scene through, given whether it is a group. *)
Definition filter_admits (filter : ObsWebSocketSceneFilter) (isGroup : bool) : Prop :=
  (filter = OBS_WEBSOCKET_SCENE_FILTER_SCENE_ONLY → isGroup = false) ∧
  (filter = OBS_WEBSOCKET_SCENE_FILTER_GROUP_ONLY → isGroup = true).

(** A check has the same outcome in two states: it passes in both and
    leaves them as they are, or fails in both with the same report and
    changes nothing but the slots. *)
Definition same_outcome (m : exec bool) (s t : call_state) : Prop :=
  (m s = Some (true, s) ∧ m t = Some (true, t)) ∨
  (∃ c msg, m s = Some (false, with_slots c msg s) ∧
            m t = Some (false, with_slots c msg t)).

(** Two libobs states with the same sources and the same reference
    counts everywhere. *)
Definition same_refs (o o' : obs_core) : Prop :=
  sources o' = sources o ∧
  (∀ p, source_refcount o' p = source_refcount o p) ∧
  (∀ i, sceneitem_refcount o' i = sceneitem_refcount o i).

(** ** The validators of Request.cpp *)

Section Validators.

Variable to_string_double : double → string.
Variable this : Request.

(** [RequestData[keyName]] *)
Definition RequestData_at (keyName : string) : exec json :=
  defined (json_at (RequestData this) keyName).

Definition ValidateBasic (keyName : string) : exec bool :=
  if negb (HasRequestData this) then
    set_statusCode MissingRequestData ;;
    set_comment "Your request data is missing or invalid (non-object)" ;;
    mret false
  else if negb (contains (RequestData this) keyName) then
    set_statusCode MissingRequestParameter ;;
    set_comment ("Your request is missing the `" +:+ keyName +:+ "` parameter.") ;;
    mret false
  else
    v ← RequestData_at keyName;
    if is_null v then
      set_statusCode MissingRequestParameter ;;
      set_comment ("Your request is missing the `" +:+ keyName +:+ "` parameter.") ;;
      mret false
    else mret true.

Definition ValidateNumber (keyName : string) (minValue maxValue : double) : exec bool :=
  ok ← ValidateBasic keyName;
  if negb ok then mret false else
  v ← RequestData_at keyName;
  if negb (is_number v) then
    set_statusCode InvalidRequestParameterType ;;
    set_comment ("The parameter `" +:+ keyName +:+ "` must be a number.") ;;
    mret false
  else
    value ← defined (get_double v);
    if double_lt value minValue then
      set_statusCode RequestParameterOutOfRange ;;
      set_comment ("The parameter `" +:+ keyName +:+ "` is below the minimum of `"
                   +:+ to_string_double minValue +:+ "`") ;;
      mret false
    else if double_gt value maxValue then
      set_statusCode RequestParameterOutOfRange ;;
      set_comment ("The parameter `" +:+ keyName +:+ "` is above the maximum of `"
                   +:+ to_string_double maxValue +:+ "`") ;;
      mret false
    else mret true.

Definition ValidateString (keyName : string) (allowEmpty : bool) : exec bool :=
  ok ← ValidateBasic keyName;
  if negb ok then mret false else
  v ← RequestData_at keyName;
  if negb (is_string v) then
    set_statusCode InvalidRequestParameterType ;;
    set_comment ("The parameter `" +:+ keyName +:+ "` must be a string.") ;;
    mret false
  else
    str ← defined (get_string v);
    if bool_decide (str = "") && negb allowEmpty then
      set_statusCode RequestParameterEmpty ;;
      set_comment ("The parameter `" +:+ keyName +:+ "` must not be empty.") ;;
      mret false
    else mret true.

Definition ValidateBoolean (keyName : string) : exec bool :=
  ok ← ValidateBasic keyName;
  if negb ok then mret false else
  v ← RequestData_at keyName;
  if negb (is_boolean v) then
    set_statusCode InvalidRequestParameterType ;;
    set_comment ("The parameter `" +:+ keyName +:+ "` must be boolean.") ;;
    mret false
  else mret true.

Definition ValidateObject (keyName : string) (allowEmpty : bool) : exec bool :=
  ok ← ValidateBasic keyName;
  if negb ok then mret false else
  v ← RequestData_at keyName;
  if negb (is_object v) then
    set_statusCode InvalidRequestParameterType ;;
    set_comment ("The parameter `" +:+ keyName +:+ "` must be an object.") ;;
    mret false
  else if json_empty v && negb allowEmpty then
    set_statusCode RequestParameterEmpty ;;
    set_comment ("The parameter `" +:+ keyName +:+ "` must not be empty.") ;;
    mret false
  else mret true.

Definition ValidateArray (keyName : string) (allowEmpty : bool) : exec bool :=
  ok ← ValidateBasic keyName;
  if negb ok then mret false else
  v ← RequestData_at keyName;
  if negb (is_array v) then
    set_statusCode InvalidRequestParameterType ;;
    set_comment ("The parameter `" +:+ keyName +:+ "` must be an array.") ;;
    mret false
  else if json_empty v && negb allowEmpty then
    set_statusCode RequestParameterEmpty ;;
    set_comment ("The parameter `" +:+ keyName +:+ "` must not be empty.") ;;
    mret false
  else mret true.

Definition ValidateSource (keyName : string) : exec (option source_ptr) :=
  ok ← ValidateString keyName default_allowEmpty;
  if negb ok then mret None else
  v ← RequestData_at keyName;
  sourceName ← defined (get_string v);
  ret ← obs_get_source_by_name (c_str sourceName);
  match ret with
  | None =>
      set_statusCode ResourceNotFound ;;
      set_comment ("No source was found by the name of `" +:+ sourceName +:+ "`.") ;;
      mret None
  | Some p => mret (Some p)
  end.

Definition ValidateScene (keyName : string) (filter : ObsWebSocketSceneFilter)
    : exec (option source_ptr) :=
  ret ← ValidateSource keyName;
  match ret with
  | None => mret None
  | Some p =>
      ty ← obs_source_get_type p;
      if negb (bool_decide (ty = OBS_SOURCE_TYPE_SCENE)) then
        obs_source_release ret ;;
        set_statusCode InvalidResourceType ;;
        set_comment "The specified source is not a scene." ;;
        mret None
      else
        isGroup ← obs_source_is_group p;
        if bool_decide (filter = OBS_WEBSOCKET_SCENE_FILTER_SCENE_ONLY) && isGroup then
          obs_source_release ret ;;
          set_statusCode InvalidResourceType ;;
          set_comment "The specified source is not a scene." ;;
          mret None
        else if bool_decide (filter = OBS_WEBSOCKET_SCENE_FILTER_GROUP_ONLY)
                && negb isGroup then
          obs_source_release ret ;;
          set_statusCode InvalidResourceType ;;
          set_comment "The specified source is not a group." ;;
          mret None
        else mret ret
  end.

Definition ValidateInput (keyName : string) : exec (option source_ptr) :=
  ret ← ValidateSource keyName;
  match ret with
  | None => mret None
  | Some p =>
      ty ← obs_source_get_type p;
      if negb (bool_decide (ty = OBS_SOURCE_TYPE_INPUT)) then
        obs_source_release ret ;;
        set_statusCode InvalidResourceType ;;
        set_comment "The specified source is not an input." ;;
        mret None
      else mret ret
  end.

Definition ValidateSceneItem (sceneKeyName sceneItemIdKeyName : string)
    (filter : ObsWebSocketSceneFilter) : exec (option sceneitem_ptr) :=
  ret ← ValidateScene sceneKeyName filter;
  OBSSource ret (
    let sceneSource := ret in
    obs_source_release sceneSource ;;
    match sceneSource with
    | None => mret None
    | Some _ =>
        ok ← ValidateNumber sceneItemIdKeyName double_zero default_maxValue;
        if negb ok then mret None else
        found ← obs_scene_from_source sceneSource;
        OBSScene found (
          let scene := found in
          idv ← RequestData_at sceneItemIdKeyName;
          sceneItemId ← defined (get_int64 idv);
          item ← obs_scene_find_sceneitem_by_id scene sceneItemId;
          OBSSceneItem item (
            let sceneItem := item in
            match sceneItem with
            | None =>
                set_statusCode ResourceNotFound ;;
                namev ← RequestData_at sceneKeyName;
                sceneName ← defined (get_string namev);
                set_comment ("No scene items were found in scene `" +:+ sceneName
                             +:+ "` with the ID `" +:+ to_string_int64 sceneItemId
                             +:+ "`.") ;;
                mret None
            | Some _ =>
                obs_sceneitem_addref sceneItem ;;
                mret sceneItem
            end))
    end).


(** * Properties *)

(** ** Binary64 order *)

Lemma double_gt_INFINITY x : double_gt x INFINITY = false.
Proof. by destruct x as [[]|[]| |[] ? ?]. Qed.

Lemma SFcompare_antisym x y c :
  SFcompare x y = Some c → SFcompare y x = Some (CompOpp c).
Proof.
  destruct x as [[]|[]| |[] m1 e1], y as [[]|[]| |[] m2 e2]; simpl;
    intros [= <-]; try done.
  all: pose proof (Pos.compare_cont_antisym m1 m2 Eq) as Hp; simpl in Hp.
  all: rewrite (Z.compare_antisym e1 e2), <- Hp.
  all: by destruct (e1 ?= e2), (Pos.compare_cont Eq m1 m2).
Qed.

Lemma SFcompare_defined x y :
  is_nan x = false → is_nan y = false → ∃ c, SFcompare x y = Some c.
Proof. destruct x, y; simpl; try done; eauto. Qed.

Lemma double_ge_not_lt x y :
  is_nan x = false → is_nan y = false →
  double_le y x = negb (double_lt x y).
Proof.
  intros Hx Hy. destruct (SFcompare_defined x y Hx Hy) as [c Hc].
  unfold double_le, double_lt, SFleb, SFltb.
  rewrite Hc, (SFcompare_antisym _ _ _ Hc). by destruct c.
Qed.

Lemma double_le_not_gt x y :
  is_nan x = false → is_nan y = false →
  double_le x y = negb (double_gt x y).
Proof.
  intros Hx Hy. destruct (SFcompare_defined x y Hx Hy) as [c Hc].
  unfold double_le, double_gt, SFleb. rewrite Hc. by destruct c.
Qed.

Lemma double_eq_not_lt x y : double_eq x y = true → double_lt x y = false.
Proof.
  unfold double_eq, double_lt, SFeqb, SFltb.
  by destruct (SFcompare x y) as [[]|].
Qed.

Lemma double_eq_not_gt x y : double_eq x y = true → double_gt x y = false.
Proof.
  unfold double_eq, double_gt, SFeqb.
  by destruct (SFcompare x y) as [[]|].
Qed.

(** ** Conversion of integers to binary64 *)

Lemma digits2_pos_bounds p :
  2 ^ (Z.pos (digits2_pos p) - 1) ≤ Z.pos p < 2 ^ Z.pos (digits2_pos p).
Proof.
  induction p as [p IH|p IH|]; simpl digits2_pos.
  - rewrite Pos2Z.inj_succ, Z.pow_succ_r by lia.
    replace (Z.succ (Z.pos (digits2_pos p)) - 1)
      with (Z.succ (Z.pos (digits2_pos p) - 1)) by lia.
    rewrite Z.pow_succ_r by lia. lia.
  - rewrite Pos2Z.inj_succ, Z.pow_succ_r by lia.
    replace (Z.succ (Z.pos (digits2_pos p)) - 1)
      with (Z.succ (Z.pos (digits2_pos p) - 1)) by lia.
    rewrite Z.pow_succ_r by lia. lia.
  - simpl. lia.
Qed.

Lemma Zdigits2_bounds m :
  0 < m → 0 < Zdigits2 m ∧ 2 ^ (Zdigits2 m - 1) ≤ m < 2 ^ Zdigits2 m.
Proof.
  destruct m as [|p|p]; try lia. intros _. simpl. split; [lia|].
  apply digits2_pos_bounds.
Qed.

Lemma shr_1_m r : 0 ≤ shr_m r → shr_m (shr_1 r) = shr_m r / 2.
Proof.
  destruct r as [[|[p|p|]|p] ? ?]; simpl shr_m; intros H; try lia; try done.
  - apply Z.div_unique with 1; lia.
  - apply Z.div_unique with 0; lia.
Qed.

Lemma iter_pos_shr_m n r :
  0 ≤ shr_m r →
  0 ≤ shr_m (SpecFloat.iter_pos shr_1 n r) ∧
  shr_m (SpecFloat.iter_pos shr_1 n r) = shr_m r / 2 ^ Z.pos n.
Proof.
  revert r. induction n as [n IH|n IH|]; intros r Hr; cbn [SpecFloat.iter_pos].
  - assert (0 ≤ shr_m (shr_1 r)) as H1
      by (rewrite shr_1_m by done; apply Z.div_pos; lia).
    destruct (IH _ H1) as [H2 E2]. destruct (IH _ H2) as [H3 E3].
    split; [done|]. rewrite E3, E2, shr_1_m by done.
    assert (0 < 2 ^ Z.pos n) as Hp by (apply Z.pow_pos_nonneg; lia).
    replace (Z.pos n~1) with (1 + Z.pos n + Z.pos n) by lia.
    rewrite !Z.pow_add_r by lia. change (2 ^ 1) with 2.
    rewrite !Z.div_div by lia. f_equal. lia.
  - destruct (IH _ Hr) as [H2 E2]. destruct (IH _ H2) as [H3 E3].
    split; [done|]. rewrite E3, E2.
    assert (0 < 2 ^ Z.pos n) as Hp by (apply Z.pow_pos_nonneg; lia).
    replace (Z.pos n~0) with (Z.pos n + Z.pos n) by lia.
    rewrite !Z.pow_add_r by lia.
    by rewrite !Z.div_div by lia.
  - rewrite shr_1_m by done. split; [apply Z.div_pos; lia|done].
Qed.

Lemma shr_record_of_loc_m m l : shr_m (shr_record_of_loc m l) = m.
Proof. by destruct l as [|[]]. Qed.

(** Shifting to the exponent of the format keeps a positive mantissa
    positive, and does not lower the magnitude. *)
Lemma shr_fexp_positive m e l r e' :
  0 < m → -1074 < e + Zdigits2 m →
  shr_fexp prec emax m e l = (r, e') →
  0 < shr_m r ∧ e + Zdigits2 m ≤ e' + Zdigits2 (shr_m r).
Proof.
  intros Hm Hw. destruct (Zdigits2_bounds m Hm) as (Hd & Hlo & Hhi).
  unfold shr_fexp, shr.
  destruct (fexp prec emax (Zdigits2 m + e) - e) as [|n|n] eqn:Hn;
    intros [= <- <-]; rewrite ?shr_record_of_loc_m; try lia.
  destruct (iter_pos_shr_m n (shr_record_of_loc m l)) as [_ E];
    [rewrite shr_record_of_loc_m; lia|].
  rewrite E, shr_record_of_loc_m. clear E.
  assert (Z.pos n ≤ Zdigits2 m - 1) as Hk
    by (unfold fexp, SpecFloat.emin, prec, emax in Hn; lia).
  assert (2 ^ (Zdigits2 m - 1 - Z.pos n) ≤ m / 2 ^ Z.pos n) as Hq.
  { rewrite Z.pow_sub_r by lia. apply Z.div_le_mono; [|done].
    apply Z.pow_pos_nonneg; lia. }
  assert (0 < 2 ^ (Zdigits2 m - 1 - Z.pos n)) by (apply Z.pow_pos_nonneg; lia).
  split; [lia|].
  destruct (Zdigits2_bounds (m / 2 ^ Z.pos n)) as (_ & _ & Hhi'); [lia|].
  assert (Zdigits2 m - 1 - Z.pos n < Zdigits2 (m / 2 ^ Z.pos n)); [|lia].
  apply (Z.pow_lt_mono_r_iff 2); [lia| |lia].
  destruct (Zdigits2_bounds (m / 2 ^ Z.pos n)); lia.
Qed.

Lemma Zdigits2_mono m n : 0 < m → m ≤ n → Zdigits2 m ≤ Zdigits2 n.
Proof.
  intros Hm Hmn.
  destruct (Zdigits2_bounds m Hm) as (Hd & Hlo & _).
  destruct (Zdigits2_bounds n) as (Hd' & _ & Hhi); [lia|].
  assert (Zdigits2 m - 1 < Zdigits2 n); [|lia].
  apply (Z.pow_lt_mono_r_iff 2); lia.
Qed.

Lemma round_nearest_even_bounds m l :
  m ≤ round_nearest_even m l ≤ m + 1.
Proof.
  destruct l as [|[]]; simpl; try lia. destruct (Z.even m); lia.
Qed.

Lemma binary_round_aux_sign s m e l :
  0 < m → -1074 < e + Zdigits2 m →
  has_sign s (binary_round_aux prec emax s m e l).
Proof.
  intros Hm Hw. unfold binary_round_aux.
  destruct (shr_fexp prec emax m e l) as [r1 e1] eqn:E1.
  destruct (shr_fexp_positive _ _ _ _ _ Hm Hw E1) as [Hr1 Hw1].
  pose proof (round_nearest_even_bounds (shr_m r1) (loc_of_shr_record r1)) as Hb.
  set (m2 := round_nearest_even (shr_m r1) (loc_of_shr_record r1)) in *.
  destruct (shr_fexp prec emax m2 e1 loc_Exact) as [r2 e2] eqn:E2.
  assert (Zdigits2 (shr_m r1) ≤ Zdigits2 m2) by (apply Zdigits2_mono; lia).
  destruct (shr_fexp_positive m2 e1 loc_Exact r2 e2) as [Hr2 _]; [lia|lia|done|].
  destruct (shr_m r2) as [|q|q]; try lia.
  by destruct (e2 <=? emax - prec).
Qed.

Lemma double_of_Z_sign z : z ≠ 0 → has_sign (bool_decide (z < 0)) (double_of_Z z).
Proof.
  intros Hz. unfold double_of_Z, binary_normalize, binary_round.
  destruct z as [|p|p]; [done| |].
  all: destruct (shl_align p 0 (fexp prec emax (Z.pos (digits2_pos p) + 0)))
         as [mz ez] eqn:E.
  all: apply binary_round_aux_sign; [lia|].
  all: unfold shl_align in E.
  all: destruct (fexp prec emax (Z.pos (digits2_pos p) + 0) - 0) as [|d|d] eqn:Hd;
         injection E as <- <-.
  all: pose proof (Pos2Z.is_pos (digits2_pos p)).
  all: try (simpl Zdigits2; lia).
  all: unfold fexp, SpecFloat.emin, prec, emax in *.
  all: pose proof (Zdigits2_bounds (Z.pos (Pos.iter xO p d))); simpl Zdigits2 in *; lia.
Qed.

Lemma double_of_Z_negative z : z < 0 → double_lt (double_of_Z z) double_zero = true.
Proof.
  intros Hz. pose proof (double_of_Z_sign z) as H.
  rewrite bool_decide_eq_true_2 in H by done.
  destruct (double_of_Z z) as [|[]| |[] ? ?]; simpl in H; try (by destruct H; lia);
    try done; specialize (H ltac:(lia)); done.
Qed.

Lemma double_of_Z_nonnegative z : 0 ≤ z → double_lt (double_of_Z z) double_zero = false.
Proof.
  intros Hz. destruct (decide (z = 0)) as [->|Hne]; [done|].
  pose proof (double_of_Z_sign z Hne) as H.
  rewrite bool_decide_eq_false_2 in H by lia.
  destruct (double_of_Z z) as [|[]| |[] ? ?]; simpl in H; done.
Qed.

(** ** Running the monad *)

Lemma call_state_eta s : CallState (statusCode s) (comment s) (obs s) = s.
Proof. by destruct s. Qed.

Lemma exec_bind_run {A B} (m : exec A) (f : A → exec B) s :
  (m ≫= f) s = match m s with Some (a, s') => f a s' | None => None end.
Proof. reflexivity. Qed.

Ltac exec_unfold :=
  unfold mbind, exec_bind, mret, exec_ret, set_statusCode, set_comment,
    defined, read_obs, update_obs, with_slots in *; simpl in *.

Lemma contains_json_at j k : contains j k = bool_decide (is_Some (json_at j k)).
Proof. destruct j; simpl; try done. Qed.

Lemma json_at_HasRequestData k v :
  json_at (RequestData this) k = Some v → HasRequestData this = true.
Proof. unfold HasRequestData. by destruct (RequestData this). Qed.

Lemma ValidateBasic_no_data k s :
  HasRequestData this = false →
  ValidateBasic k s = Some (false, with_slots MissingRequestData
    "Your request data is missing or invalid (non-object)" s).
Proof. intros H. unfold ValidateBasic. rewrite H. reflexivity. Qed.

Lemma ValidateBasic_absent k s :
  HasRequestData this = true → json_at (RequestData this) k = None →
  ValidateBasic k s = Some (false, with_slots MissingRequestParameter (missing_parameter k) s).
Proof.
  intros H1 H2. unfold ValidateBasic. rewrite H1, contains_json_at, H2.
  reflexivity.
Qed.

Lemma ValidateBasic_null k s :
  json_at (RequestData this) k = Some Jnull →
  ValidateBasic k s = Some (false, with_slots MissingRequestParameter (missing_parameter k) s).
Proof.
  intros H2. unfold ValidateBasic, RequestData_at.
  rewrite (json_at_HasRequestData _ _ H2), contains_json_at, H2.
  reflexivity.
Qed.

Lemma ValidateBasic_present k v s :
  json_at (RequestData this) k = Some v → is_null v = false →
  ValidateBasic k s = Some (true, s).
Proof.
  intros H2 H3. unfold ValidateBasic, RequestData_at.
  rewrite (json_at_HasRequestData _ _ H2), contains_json_at, H2.
  exec_unfold. by rewrite H3.
Qed.

(** ValidateBasic always returns; what it reports depends on the request
    and the key only. *)
Lemma ValidateBasic_settles k :
  ∃ rep, ∀ s, ValidateBasic k s = Some (settle_bool rep s).
Proof.
  destruct (HasRequestData this) eqn:Hd.
  - destruct (json_at (RequestData this) k) as [v|] eqn:Hv.
    + destruct (is_null v) eqn:Hn.
      * exists (Some (MissingRequestParameter, missing_parameter k)). intros s.
        destruct v; try discriminate. by apply ValidateBasic_null.
      * exists None. intros s. by eapply ValidateBasic_present.
    + exists (Some (MissingRequestParameter, missing_parameter k)). intros s.
      by apply ValidateBasic_absent.
  - eexists (Some (_, _)). intros s. by apply ValidateBasic_no_data.
Qed.

Lemma ValidateBasic_true k s s' :
  ValidateBasic k s = Some (true, s') →
  s' = s ∧ ∃ v, json_at (RequestData this) k = Some v ∧ is_null v = false.
Proof.
  intros H.
  destruct (HasRequestData this) eqn:Hd.
  - destruct (json_at (RequestData this) k) as [v|] eqn:Hv.
    + destruct (is_null v) eqn:Hn.
      * destruct v; try discriminate.
        rewrite (ValidateBasic_null _ _ Hv) in H. discriminate.
      * rewrite (ValidateBasic_present _ _ _ Hv Hn) in H. naive_solver.
    + rewrite (ValidateBasic_absent _ _ Hd Hv) in H. discriminate.
  - rewrite (ValidateBasic_no_data _ _ Hd) in H. discriminate.
Qed.

Lemma ValidateBasic_false k s s' :
  ValidateBasic k s = Some (false, s') →
  ∃ c msg, s' = with_slots c msg s.
Proof.
  intros H. destruct (ValidateBasic_settles k) as [[[c msg]|] Hr];
    rewrite Hr in H; simpl in H; simplify_eq; eauto.
Qed.

(** ** The typed checks *)

(** A typed check is ValidateBasic followed by a test of the value. *)
Lemma after_basic_settles k (cont : exec bool) :
  (∀ v, json_at (RequestData this) k = Some v → is_null v = false →
        ∃ rep, ∀ s, cont s = Some (settle_bool rep s)) →
  ∃ rep, ∀ s,
    (ok ← ValidateBasic k; if negb ok then mret false else cont) s
    = Some (settle_bool rep s).
Proof.
  intros Hc. destruct (ValidateBasic_settles k) as [[[c msg]|] Hr].
  - exists (Some (c, msg)). intros s. rewrite exec_bind_run, Hr. reflexivity.
  - destruct (ValidateBasic_true k ex_state ex_state) as [_ (v & Hv & Hn)];
      [by rewrite Hr|].
    destruct (Hc v Hv Hn) as [rep Hrep]. exists rep. intros s.
    rewrite exec_bind_run, Hr. simpl. apply Hrep.
Qed.

Lemma after_basic_fail k (cont : exec bool) s s' :
  ValidateBasic k s = Some (false, s') →
  (ok ← ValidateBasic k; if negb ok then mret false else cont) s = Some (false, s').
Proof. intros H. rewrite exec_bind_run, H. reflexivity. Qed.

Lemma after_basic_pass k (cont : exec bool) s :
  ValidateBasic k s = Some (true, s) →
  (ok ← ValidateBasic k; if negb ok then mret false else cont) s = cont s.
Proof. intros H. rewrite exec_bind_run, H. reflexivity. Qed.

Lemma RequestData_at_run k v s :
  json_at (RequestData this) k = Some v → RequestData_at k s = Some (v, s).
Proof. intros H. unfold RequestData_at, defined. by rewrite H. Qed.

Lemma ValidateNumber_run k minValue maxValue v s :
  json_at (RequestData this) k = Some v → is_null v = false →
  ValidateNumber k minValue maxValue s =
    match get_double v with
    | None =>
        Some (false, with_slots InvalidRequestParameterType
                       ("The parameter `" +:+ k +:+ "` must be a number.") s)
    | Some value =>
        if double_lt value minValue then
          Some (false, with_slots RequestParameterOutOfRange
                         (below_minimum k (to_string_double minValue)) s)
        else if double_gt value maxValue then
          Some (false, with_slots RequestParameterOutOfRange
                         (above_maximum k (to_string_double maxValue)) s)
        else Some (true, s)
    end.
Proof.
  intros Hv Hn. unfold ValidateNumber.
  rewrite after_basic_pass by (by eapply ValidateBasic_present).
  rewrite exec_bind_run, (RequestData_at_run _ _ _ Hv).
  destruct v; simpl; try done; exec_unfold;
    repeat case_match; simplify_eq; done.
Qed.

Lemma ValidateNumber_settles k minValue maxValue :
  ∃ rep, ∀ s, ValidateNumber k minValue maxValue s = Some (settle_bool rep s).
Proof.
  destruct (ValidateBasic_settles k) as [[[c msg]|] Hr].
  - exists (Some (c, msg)). intros s. unfold ValidateNumber.
    by rewrite (after_basic_fail _ _ _ _ (Hr s)).
  - destruct (ValidateBasic_true k ex_state ex_state) as [_ (v & Hv & Hn)];
      [by rewrite Hr|].
    destruct (get_double v) as [x|] eqn:Hx;
      [destruct (double_lt x minValue) eqn:Hlt;
       [|destruct (double_gt x maxValue) eqn:Hgt]|].
    all: eexists; intros s; rewrite (ValidateNumber_run _ _ _ _ _ Hv Hn), Hx.
    all: rewrite ?Hlt, ?Hgt.
    1, 2, 4: by instantiate (1 := Some (_, _)).
    by instantiate (1 := None).
Qed.

Lemma ValidateString_run k allowEmpty v s :
  json_at (RequestData this) k = Some v → is_null v = false →
  ValidateString k allowEmpty s =
    match get_string v with
    | None =>
        Some (false, with_slots InvalidRequestParameterType
                       ("The parameter `" +:+ k +:+ "` must be a string.") s)
    | Some str =>
        if bool_decide (str = "") && negb allowEmpty then
          Some (false, with_slots RequestParameterEmpty
                         ("The parameter `" +:+ k +:+ "` must not be empty.") s)
        else Some (true, s)
    end.
Proof.
  intros Hv Hn. unfold ValidateString.
  rewrite after_basic_pass by (by eapply ValidateBasic_present).
  rewrite exec_bind_run, (RequestData_at_run _ _ _ Hv).
  destruct v; simpl; try done; exec_unfold;
    repeat case_match; simplify_eq; done.
Qed.

Lemma ValidateBoolean_run k v s :
  json_at (RequestData this) k = Some v → is_null v = false →
  ValidateBoolean k s =
    if is_boolean v then Some (true, s)
    else Some (false, with_slots InvalidRequestParameterType
                        ("The parameter `" +:+ k +:+ "` must be boolean.") s).
Proof.
  intros Hv Hn. unfold ValidateBoolean.
  rewrite after_basic_pass by (by eapply ValidateBasic_present).
  rewrite exec_bind_run, (RequestData_at_run _ _ _ Hv).
  by destruct (is_boolean v).
Qed.

Lemma ValidateObject_run k allowEmpty v s :
  json_at (RequestData this) k = Some v → is_null v = false →
  ValidateObject k allowEmpty s =
    if negb (is_object v) then
      Some (false, with_slots InvalidRequestParameterType
                     ("The parameter `" +:+ k +:+ "` must be an object.") s)
    else if json_empty v && negb allowEmpty then
      Some (false, with_slots RequestParameterEmpty
                     ("The parameter `" +:+ k +:+ "` must not be empty.") s)
    else Some (true, s).
Proof.
  intros Hv Hn. unfold ValidateObject.
  rewrite after_basic_pass by (by eapply ValidateBasic_present).
  rewrite exec_bind_run, (RequestData_at_run _ _ _ Hv).
  destruct (is_object v); simpl; [|done].
  by destruct (json_empty v && negb allowEmpty).
Qed.

Lemma ValidateArray_run k allowEmpty v s :
  json_at (RequestData this) k = Some v → is_null v = false →
  ValidateArray k allowEmpty s =
    if negb (is_array v) then
      Some (false, with_slots InvalidRequestParameterType
                     ("The parameter `" +:+ k +:+ "` must be an array.") s)
    else if json_empty v && negb allowEmpty then
      Some (false, with_slots RequestParameterEmpty
                     ("The parameter `" +:+ k +:+ "` must not be empty.") s)
    else Some (true, s).
Proof.
  intros Hv Hn. unfold ValidateArray.
  rewrite after_basic_pass by (by eapply ValidateBasic_present).
  rewrite exec_bind_run, (RequestData_at_run _ _ _ Hv).
  destruct (is_array v); simpl; [|done].
  by destruct (json_empty v && negb allowEmpty).
Qed.

(** Finishes a goal [∃ rep, ∀ s, m s = Some (settle_bool rep s)] once [m s]
    has been computed. *)
Ltac settled :=
  first [ by (exists None) | by (eexists (Some (_, _))) ].

Lemma ValidateString_settles k allowEmpty :
  ∃ rep, ∀ s, ValidateString k allowEmpty s = Some (settle_bool rep s).
Proof.
  apply after_basic_settles. intros v Hv Hn.
  destruct v; try done; simpl.
  all: unfold RequestData_at; rewrite Hv; exec_unfold.
  all: repeat case_match; settled.
Qed.

Lemma ValidateBoolean_settles k :
  ∃ rep, ∀ s, ValidateBoolean k s = Some (settle_bool rep s).
Proof.
  apply after_basic_settles. intros v Hv Hn.
  unfold RequestData_at; rewrite Hv; exec_unfold.
  destruct (is_boolean v); settled.
Qed.

Lemma ValidateObject_settles k allowEmpty :
  ∃ rep, ∀ s, ValidateObject k allowEmpty s = Some (settle_bool rep s).
Proof.
  apply after_basic_settles. intros v Hv Hn.
  unfold RequestData_at; rewrite Hv; exec_unfold.
  destruct (is_object v); simpl; [|settled].
  destruct (json_empty v && negb allowEmpty); settled.
Qed.

Lemma ValidateArray_settles k allowEmpty :
  ∃ rep, ∀ s, ValidateArray k allowEmpty s = Some (settle_bool rep s).
Proof.
  apply after_basic_settles. intros v Hv Hn.
  unfold RequestData_at; rewrite Hv; exec_unfold.
  destruct (is_array v); simpl; [|settled].
  destruct (json_empty v && negb allowEmpty); settled.
Qed.

Lemma ValidateString_true k allowEmpty s s' :
  ValidateString k allowEmpty s = Some (true, s') →
  s' = s ∧ ∃ str, json_at (RequestData this) k = Some (Jstring str) ∧
                  (str = "" → allowEmpty = true).
Proof.
  intros H.
  destruct (ValidateBasic_settles k) as [[[c msg]|] Hr].
  - unfold ValidateString in H.
    rewrite (after_basic_fail _ _ _ _ (Hr s)) in H. discriminate.
  - destruct (ValidateBasic_true k s s) as [_ (v & Hv & Hn)]; [by rewrite Hr|].
    rewrite (ValidateString_run _ _ _ _ Hv Hn) in H.
    destruct v; simpl in H; try discriminate.
    destruct (bool_decide (s0 = "")) eqn:He, allowEmpty; simpl in H;
      simplify_eq; split; try done; exists s0; split; try done.
    intros ->. by rewrite bool_decide_eq_false in He.
Qed.

(** ** libobs: lookups and reference counts *)

Lemma find_source_lookup l name p :
  find_source l name = Some p →
  ∃ x, l !! p = Some x ∧ source_name x = name.
Proof.
  revert p. induction l as [|x l IH]; intros p; simpl; [done|].
  destruct (String.eqb (source_name x) name) eqn:E.
  - intros [= <-]. exists x. split; [done|]. by apply String.eqb_eq.
  - destruct (find_source l name) as [q|]; simpl; [|done].
    intros [= <-]. by apply IH.
Qed.

Lemma find_item_lookup l id i :
  find_item l id = Some i → l !! i = Some id.
Proof.
  revert i. induction l as [|x l IH]; intros i; simpl; [done|].
  destruct (x =? id) eqn:E.
  - intros [= <-]. simpl. f_equal. by apply Z.eqb_eq.
  - destruct (find_item l id) as [q|]; simpl; [|done].
    intros [= <-]. by apply IH.
Qed.

Lemma source_refcount_add d p o q :
  source_refcount (source_refs_add d p o) q
  = source_refcount o q + (if decide (p = q) then d else 0).
Proof.
  unfold source_refs_add, source_refcount at 1; simpl. unfold source_refcount.
  rewrite lookup_insert. case_decide; simpl; [subst|]; lia.
Qed.

Lemma sceneitem_refcount_add d i o j :
  sceneitem_refcount (sceneitem_refs_add d i o) j
  = sceneitem_refcount o j + (if decide (i = j) then d else 0).
Proof.
  unfold sceneitem_refs_add, sceneitem_refcount at 1; simpl.
  unfold sceneitem_refcount. rewrite lookup_insert. case_decide; simpl; [subst|]; lia.
Qed.

Lemma sceneitem_refcount_source_add d p o j :
  sceneitem_refcount (source_refs_add d p o) j = sceneitem_refcount o j.
Proof. reflexivity. Qed.

Lemma source_refcount_sceneitem_add d i o q :
  source_refcount (sceneitem_refs_add d i o) q = source_refcount o q.
Proof. reflexivity. Qed.

Lemma same_refs_refl o : same_refs o o.
Proof. done. Qed.

Lemma same_refs_trans o1 o2 o3 : same_refs o1 o2 → same_refs o2 o3 → same_refs o1 o3.
Proof.
  intros (H1 & H2 & H3) (H4 & H5 & H6). repeat split.
  - congruence.
  - intros p. by rewrite H5.
  - intros i. by rewrite H6.
Qed.

(** Taking a reference and giving it back leaves every count as it was. *)
Lemma same_refs_source_add_release p o :
  same_refs o (source_refs_add (-1) p (source_refs_add 1 p o)).
Proof.
  repeat split. intros q. rewrite !source_refcount_add. case_decide; lia.
Qed.

(** ** The resource checks *)

Lemma ValidateSource_string_fail k s s' :
  ValidateString k default_allowEmpty s = Some (false, s') →
  ValidateSource k s = Some (None, s').
Proof. intros H. unfold ValidateSource. rewrite exec_bind_run, H. reflexivity. Qed.

Lemma ValidateSource_run k name s :
  json_at (RequestData this) k = Some (Jstring name) → name ≠ "" →
  ValidateSource k s =
    Some match find_source (sources (obs s)) (c_str name) with
         | Some p => (Some p, CallState (statusCode s) (comment s)
                                (source_refs_add 1 p (obs s)))
         | None => (None, with_slots ResourceNotFound (not_found name) s)
         end.
Proof.
  intros Hv Hne. unfold ValidateSource.
  rewrite exec_bind_run, (ValidateString_run _ _ _ _ Hv) by done. simpl.
  rewrite bool_decide_eq_false_2 by done. simpl.
  rewrite exec_bind_run, (RequestData_at_run _ _ _ Hv). simpl.
  unfold obs_get_source_by_name. exec_unfold.
  by destruct (find_source (sources (obs s)) (c_str name)).
Qed.

Lemma ValidateSource_inv k s r s' :
  ValidateSource k s = Some (r, s') →
  (r = None ∧ ValidateString k default_allowEmpty s = Some (false, s')) ∨
  (∃ name, json_at (RequestData this) k = Some (Jstring name) ∧ name ≠ "" ∧
     match find_source (sources (obs s)) (c_str name) with
     | Some p => r = Some p ∧
                 s' = CallState (statusCode s) (comment s) (source_refs_add 1 p (obs s))
     | None => r = None ∧ s' = with_slots ResourceNotFound (not_found name) s
     end).
Proof.
  intros H.
  destruct (ValidateString_settles k default_allowEmpty) as [[[c msg]|] Hr].
  - left. rewrite (ValidateSource_string_fail _ _ _ (Hr s)) in H.
    simplify_eq. by rewrite Hr.
  - right. destruct (ValidateString_true k default_allowEmpty s s)
      as [_ (name & Hv & Hne)]; [by rewrite Hr|].
    assert (name ≠ "") as Hne' by (intros E; by specialize (Hne E)).
    exists name. rewrite (ValidateSource_run _ _ _ Hv Hne') in H.
    destruct (find_source (sources (obs s)) (c_str name)); naive_solver.
Qed.

Lemma ValidateSource_some k s p s' :
  ValidateSource k s = Some (Some p, s') →
  s' = CallState (statusCode s) (comment s) (source_refs_add 1 p (obs s)) ∧
  ∃ src, sources (obs s) !! p = Some src ∧
         (∃ name, json_at (RequestData this) k = Some (Jstring name) ∧
                  c_str name = source_name src) ∧
         find_source (sources (obs s)) (source_name src) = Some p.
Proof.
  intros H.
  pose proof (ValidateSource_inv _ _ _ _ H) as Hi.
  destruct Hi as [[? _]|(name & Hv & Hne & Hm)]; [done|].
  destruct (find_source (sources (obs s)) (c_str name)) as [q|] eqn:Hf; [|by destruct Hm].
  destruct Hm as [Hr Hs']. injection Hr as Hr. subst q s'. split; [done|].
  destruct (find_source_lookup _ _ _ Hf) as (src & Hl & Hsrc).
  exists src. rewrite Hsrc. eauto.
Qed.

Lemma ValidateSource_settles k o :
  ∃ v o', ∀ s, obs s = o → ValidateSource k s = Some (settle v o' s).
Proof.
  destruct (ValidateString_settles k default_allowEmpty) as [[[c msg]|] Hr].
  - exists (Rejected c msg), o. intros s <-.
    by rewrite (ValidateSource_string_fail _ _ _ (Hr s)).
  - destruct (ValidateString_true k default_allowEmpty ex_state ex_state)
      as [_ (name & Hv & Hne)]; [by rewrite Hr|].
    assert (name ≠ "") as Hne' by (intros E; by specialize (Hne E)).
    destruct (find_source (sources o) (c_str name)) as [p|] eqn:Hf.
    + exists (Resolved p), (source_refs_add 1 p o). intros s <-.
      by rewrite (ValidateSource_run _ _ _ Hv Hne'), Hf.
    + exists (Rejected ResourceNotFound (not_found name)), o. intros s <-.
      by rewrite (ValidateSource_run _ _ _ Hv Hne'), Hf.
Qed.

Lemma ValidateScene_source_fail k filter s s' :
  ValidateSource k s = Some (None, s') →
  ValidateScene k filter s = Some (None, s').
Proof. intros H. unfold ValidateScene. rewrite exec_bind_run, H. reflexivity. Qed.

Lemma ValidateScene_run k filter s p s1 src :
  ValidateSource k s = Some (Some p, s1) →
  sources (obs s1) !! p = Some src →
  ValidateScene k filter s =
    Some (if negb (bool_decide (source_type src = OBS_SOURCE_TYPE_SCENE)) then
            (None, CallState InvalidResourceType "The specified source is not a scene."
                     (source_refs_add (-1) p (obs s1)))
          else if bool_decide (filter = OBS_WEBSOCKET_SCENE_FILTER_SCENE_ONLY)
                  && source_is_group src then
            (None, CallState InvalidResourceType "The specified source is not a scene."
                     (source_refs_add (-1) p (obs s1)))
          else if bool_decide (filter = OBS_WEBSOCKET_SCENE_FILTER_GROUP_ONLY)
                  && negb (source_is_group src) then
            (None, CallState InvalidResourceType "The specified source is not a group."
                     (source_refs_add (-1) p (obs s1)))
          else (Some p, s1)).
Proof.
  intros H Hl. unfold ValidateScene. rewrite exec_bind_run, H.
  unfold obs_source_get_type, obs_source_is_group, obs_source_release.
  exec_unfold. rewrite Hl.
  destruct (bool_decide (source_type src = OBS_SOURCE_TYPE_SCENE)); simpl; [|done].
  rewrite Hl.
  destruct (bool_decide (filter = OBS_WEBSOCKET_SCENE_FILTER_SCENE_ONLY)
            && source_is_group src); simpl; [done|].
  by destruct (bool_decide (filter = OBS_WEBSOCKET_SCENE_FILTER_GROUP_ONLY)
               && negb (source_is_group src)).
Qed.

Lemma ValidateInput_source_fail k s s' :
  ValidateSource k s = Some (None, s') →
  ValidateInput k s = Some (None, s').
Proof. intros H. unfold ValidateInput. rewrite exec_bind_run, H. reflexivity. Qed.

Lemma ValidateInput_run k s p s1 src :
  ValidateSource k s = Some (Some p, s1) →
  sources (obs s1) !! p = Some src →
  ValidateInput k s =
    Some (if negb (bool_decide (source_type src = OBS_SOURCE_TYPE_INPUT)) then
            (None, CallState InvalidResourceType "The specified source is not an input."
                     (source_refs_add (-1) p (obs s1)))
          else (Some p, s1)).
Proof.
  intros H Hl. unfold ValidateInput. rewrite exec_bind_run, H.
  unfold obs_source_get_type, obs_source_release.
  exec_unfold. rewrite Hl.
  by destruct (bool_decide (source_type src = OBS_SOURCE_TYPE_INPUT)).
Qed.

Lemma ValidateSource_total k s : ∃ r s', ValidateSource k s = Some (r, s').
Proof.
  destruct (ValidateSource_settles k (obs s)) as (v & o' & H).
  rewrite (H s eq_refl). destruct v; simpl; eauto.
Qed.

Lemma ValidateScene_inv k filter s r s' :
  ValidateScene k filter s = Some (r, s') →
  (r = None ∧ ValidateSource k s = Some (None, s')) ∨
  (∃ p s1 src,
     ValidateSource k s = Some (Some p, s1) ∧
     sources (obs s1) !! p = Some src ∧
     (r, s') =
       if negb (bool_decide (source_type src = OBS_SOURCE_TYPE_SCENE)) then
         (None, CallState InvalidResourceType "The specified source is not a scene."
                  (source_refs_add (-1) p (obs s1)))
       else if bool_decide (filter = OBS_WEBSOCKET_SCENE_FILTER_SCENE_ONLY)
               && source_is_group src then
         (None, CallState InvalidResourceType "The specified source is not a scene."
                  (source_refs_add (-1) p (obs s1)))
       else if bool_decide (filter = OBS_WEBSOCKET_SCENE_FILTER_GROUP_ONLY)
               && negb (source_is_group src) then
         (None, CallState InvalidResourceType "The specified source is not a group."
                  (source_refs_add (-1) p (obs s1)))
       else (Some p, s1)).
Proof.
  intros H. destruct (ValidateSource_total k s) as ([p|] & s1 & Hs).
  - right. destruct (ValidateSource_some _ _ _ _ Hs) as (E & src & Hl & _).
    assert (sources (obs s1) !! p = Some src) as Hl1 by (by rewrite E).
    exists p, s1, src. split; [done|]. split; [done|].
    rewrite (ValidateScene_run _ filter _ _ _ src Hs Hl1) in H.
    by injection H.
  - left. rewrite (ValidateScene_source_fail _ _ _ _ Hs) in H. by simplify_eq.
Qed.

Lemma ValidateInput_inv k s r s' :
  ValidateInput k s = Some (r, s') →
  (r = None ∧ ValidateSource k s = Some (None, s')) ∨
  (∃ p s1 src,
     ValidateSource k s = Some (Some p, s1) ∧
     sources (obs s1) !! p = Some src ∧
     (r, s') =
       if negb (bool_decide (source_type src = OBS_SOURCE_TYPE_INPUT)) then
         (None, CallState InvalidResourceType "The specified source is not an input."
                  (source_refs_add (-1) p (obs s1)))
       else (Some p, s1)).
Proof.
  intros H. destruct (ValidateSource_total k s) as ([p|] & s1 & Hs).
  - right. destruct (ValidateSource_some _ _ _ _ Hs) as (E & src & Hl & _).
    assert (sources (obs s1) !! p = Some src) as Hl1 by (by rewrite E).
    exists p, s1, src. split; [done|]. split; [done|].
    rewrite (ValidateInput_run _ _ _ _ src Hs Hl1) in H.
    by injection H.
  - left. rewrite (ValidateInput_source_fail _ _ _ Hs) in H. by simplify_eq.
Qed.

(** Finishes a goal [∃ v o', ∀ s, obs s = o → m s = Some (settle v o' s)]
    once [m s] has been computed. *)
Ltac settled_ptr :=
  first [ by (eexists (Resolved _), _; intros ? _)
        | by (eexists (Rejected _ _), _; intros ? _) ].

Lemma ValidateScene_settles k filter o :
  ∃ v o', ∀ s, obs s = o → ValidateScene k filter s = Some (settle v o' s).
Proof.
  destruct (ValidateSource_settles k o) as ([p|c msg] & o1 & H).
  - pose proof (H (CallState MissingRequestData "" o) eq_refl) as H0.
    destruct (ValidateSource_some _ _ _ _ H0) as (_ & src & Hl & _).
    simpl in Hl.
    assert (∃ v o', ∀ s, obs s = o →
      (if negb (bool_decide (source_type src = OBS_SOURCE_TYPE_SCENE)) then
         (None, CallState InvalidResourceType "The specified source is not a scene."
                  (source_refs_add (-1) p (source_refs_add 1 p o)))
       else if bool_decide (filter = OBS_WEBSOCKET_SCENE_FILTER_SCENE_ONLY)
               && source_is_group src then
         (None, CallState InvalidResourceType "The specified source is not a scene."
                  (source_refs_add (-1) p (source_refs_add 1 p o)))
       else if bool_decide (filter = OBS_WEBSOCKET_SCENE_FILTER_GROUP_ONLY)
               && negb (source_is_group src) then
         (None, CallState InvalidResourceType "The specified source is not a group."
                  (source_refs_add (-1) p (source_refs_add 1 p o)))
       else (Some p, CallState (statusCode s) (comment s) (source_refs_add 1 p o)))
      = settle v o' s) as (v & o' & Hv).
    { repeat case_match; settled_ptr. }
    exists v, o'. intros s Ho. rewrite <- (Hv s Ho).
    pose proof (H s Ho) as Hs.
    destruct (ValidateSource_some _ _ _ _ Hs) as (E & _).
    rewrite (ValidateScene_run _ filter _ _ _ src Hs) by (rewrite E; simpl; by rewrite Ho).
    rewrite E; simpl. by rewrite Ho.
  - exists (Rejected c msg), o1. intros s Ho.
    by rewrite (ValidateScene_source_fail _ _ _ _ (H s Ho)).
Qed.

Lemma ValidateInput_settles k o :
  ∃ v o', ∀ s, obs s = o → ValidateInput k s = Some (settle v o' s).
Proof.
  destruct (ValidateSource_settles k o) as ([p|c msg] & o1 & H).
  - pose proof (H (CallState MissingRequestData "" o) eq_refl) as H0.
    destruct (ValidateSource_some _ _ _ _ H0) as (_ & src & Hl & _).
    simpl in Hl.
    assert (∃ v o', ∀ s, obs s = o →
      (if negb (bool_decide (source_type src = OBS_SOURCE_TYPE_INPUT)) then
         (None, CallState InvalidResourceType "The specified source is not an input."
                  (source_refs_add (-1) p (source_refs_add 1 p o)))
       else (Some p, CallState (statusCode s) (comment s) (source_refs_add 1 p o)))
      = settle v o' s) as (v & o' & Hv).
    { repeat case_match; settled_ptr. }
    exists v, o'. intros s Ho. rewrite <- (Hv s Ho).
    pose proof (H s Ho) as Hs.
    destruct (ValidateSource_some _ _ _ _ Hs) as (E & _).
    rewrite (ValidateInput_run _ _ _ _ src Hs) by (rewrite E; simpl; by rewrite Ho).
    rewrite E; simpl. by rewrite Ho.
  - exists (Rejected c msg), o1. intros s Ho.
    by rewrite (ValidateInput_source_fail _ _ _ (H s Ho)).
Qed.

Lemma ValidateNumber_pass_any k a b s s' t :
  ValidateNumber k a b s = Some (true, s') →
  ValidateNumber k a b t = Some (true, t).
Proof.
  destruct (ValidateNumber_settles k a b) as [[[c msg]|] Hr]; rewrite !Hr; by simpl.
Qed.

Lemma ValidateNumber_fail_any k a b s s' t :
  ValidateNumber k a b s = Some (false, s') →
  ValidateNumber k a b t = Some (false, with_slots (statusCode s') (comment s') t).
Proof.
  destruct (ValidateNumber_settles k a b) as [[[c msg]|] Hr]; rewrite !Hr; simpl;
    intros [= <-]; done.
Qed.

Lemma ValidateSceneItem_scene_fail k k2 filter s s' :
  ValidateScene k filter s = Some (None, s') →
  ValidateSceneItem k k2 filter s = Some (None, s').
Proof.
  intros H. unfold ValidateSceneItem. rewrite exec_bind_run, H. reflexivity.
Qed.

Ltac refcounts :=
  repeat split; intros;
  rewrite ?sceneitem_refcount_add, ?sceneitem_refcount_source_add,
    ?source_refcount_add, ?source_refcount_sceneitem_add,
    ?sceneitem_refcount_add, ?sceneitem_refcount_source_add,
    ?source_refcount_add, ?source_refcount_sceneitem_add;
  repeat case_decide; simplify_eq; try lia.

Lemma ValidateSceneItem_number_fail k k2 filter s p s1 s3 :
  ValidateScene k filter s = Some (Some p, s1) →
  ValidateNumber k2 double_zero default_maxValue s1 = Some (false, s3) →
  ∃ s', ValidateSceneItem k k2 filter s = Some (None, s') ∧
        statusCode s' = statusCode s3 ∧ comment s' = comment s3 ∧
        handed_over p None (obs s1) (obs s').
Proof.
  intros H Hn. unfold ValidateSceneItem. rewrite exec_bind_run, H.
  unfold OBSSource, obs_source_addref, obs_source_release.
  rewrite !exec_bind_run. exec_unfold.
  erewrite ValidateNumber_fail_any by exact Hn. simpl.
  eexists. split; [reflexivity|]. simpl. split; [done|]. split; [done|].
  unfold handed_over. refcounts.
Qed.

Lemma ValidateSceneItem_lookup k k2 filter s p s1 src idv id name :
  ValidateScene k filter s = Some (Some p, s1) →
  ValidateNumber k2 double_zero default_maxValue s1 = Some (true, s1) →
  sources (obs s1) !! p = Some src →
  json_at (RequestData this) k2 = Some idv →
  get_int64 idv = Some id →
  json_at (RequestData this) k = Some (Jstring name) →
  ∃ s',
    ValidateSceneItem k k2 filter s
    = Some (pair p <$> (source_scene src ≫= λ items, find_item items id), s') ∧
    handed_over p (pair p <$> (source_scene src ≫= λ items, find_item items id))
      (obs s1) (obs s') ∧
    match source_scene src ≫= (λ items, find_item items id) with
    | Some _ => statusCode s' = statusCode s1 ∧ comment s' = comment s1
    | None => statusCode s' = ResourceNotFound ∧ comment s' = no_scene_item name id
    end.
Proof.
  intros H Hn Hl Hid Hget Hname. unfold ValidateSceneItem. rewrite exec_bind_run, H.
  unfold OBSSource, OBSScene, OBSSceneItem, obs_scene_addref, obs_scene_release,
    obs_source_addref, obs_source_release, obs_scene_from_source,
    obs_scene_find_sceneitem_by_id, obs_sceneitem_addref, obs_sceneitem_release,
    RequestData_at.
  rewrite !exec_bind_run. exec_unfold.
  erewrite ValidateNumber_pass_any by exact Hn. simpl.
  rewrite Hl. simpl.
  destruct (source_scene src) as [items|] eqn:Hsc; simpl.
  - rewrite Hid. simpl. rewrite Hget. simpl. rewrite Hl. simpl. rewrite Hsc.
    destruct (find_item items id) as [i|] eqn:Hfi; simpl.
    + eexists. split; [reflexivity|]. simpl. split; [|done].
      unfold handed_over. refcounts.
    + rewrite Hname. simpl.
      eexists. split; [reflexivity|]. simpl. split; [|done].
      unfold handed_over. refcounts.
  - rewrite Hid, Hget. simpl. rewrite Hname. simpl.
    eexists. split; [reflexivity|]. simpl. split; [|done].
    unfold handed_over. refcounts.
Qed.

Lemma ValidateSceneItem_undefined k k2 filter s p s1 idv :
  ValidateScene k filter s = Some (Some p, s1) →
  ValidateNumber k2 double_zero default_maxValue s1 = Some (true, s1) →
  json_at (RequestData this) k2 = Some idv →
  get_int64 idv = None →
  ValidateSceneItem k k2 filter s = None.
Proof.
  intros H Hn Hid Hget. unfold ValidateSceneItem. rewrite exec_bind_run, H.
  unfold OBSSource, OBSScene, OBSSceneItem, obs_scene_addref, obs_scene_release,
    obs_source_addref, obs_source_release, obs_scene_from_source,
    obs_scene_find_sceneitem_by_id, obs_sceneitem_addref, obs_sceneitem_release,
    RequestData_at.
  rewrite !exec_bind_run. exec_unfold.
  erewrite ValidateNumber_pass_any by exact Hn. simpl.
  destruct (sources (obs s1) !! p) as [src|]; simpl; [|done].
  rewrite Hid, Hget. simpl. by destruct (source_scene src).
Qed.

Lemma ValidateNumber_true k a b s s' :
  ValidateNumber k a b s = Some (true, s') →
  s' = s ∧ ∃ v x, json_at (RequestData this) k = Some v ∧ is_null v = false ∧
                  get_double v = Some x ∧
                  double_lt x a = false ∧ double_gt x b = false.
Proof.
  intros H.
  destruct (ValidateBasic_settles k) as [[[c msg]|] Hr].
  - unfold ValidateNumber in H.
    rewrite (after_basic_fail _ _ _ _ (Hr s)) in H. discriminate.
  - destruct (ValidateBasic_true k s s) as [_ (v & Hv & Hn)]; [by rewrite Hr|].
    rewrite (ValidateNumber_run _ _ _ _ _ Hv Hn) in H.
    destruct (get_double v) as [x|] eqn:Hx; [|discriminate].
    destruct (double_lt x a) eqn:Hlt; [discriminate|].
    destruct (double_gt x b) eqn:Hgt; [discriminate|].
    simplify_eq. split; [done|]. by exists v, x.
Qed.

Lemma ValidateScene_some k filter s p s' :
  ValidateScene k filter s = Some (Some p, s') →
  s' = CallState (statusCode s) (comment s) (source_refs_add 1 p (obs s)) ∧
  ∃ src, sources (obs s) !! p = Some src ∧
         (∃ name, json_at (RequestData this) k = Some (Jstring name) ∧
                  c_str name = source_name src) ∧
         find_source (sources (obs s)) (source_name src) = Some p ∧
         source_type src = OBS_SOURCE_TYPE_SCENE ∧
         (filter = OBS_WEBSOCKET_SCENE_FILTER_SCENE_ONLY → source_is_group src = false) ∧
         (filter = OBS_WEBSOCKET_SCENE_FILTER_GROUP_ONLY → source_is_group src = true).
Proof.
  intros H. pose proof (ValidateScene_inv _ _ _ _ _ H) as Hi.
  destruct Hi as [[? _]|(q & s1 & src & Hs & Hl & Hm)]; [done|].
  destruct (ValidateSource_some _ _ _ _ Hs) as (E & src' & Hl' & Hv & Hf).
  assert (src' = src) as -> by (rewrite E in Hl; simpl in Hl; congruence).
  destruct (bool_decide (source_type src = OBS_SOURCE_TYPE_SCENE)) eqn:Ht;
    simpl in Hm; [|discriminate].
  apply bool_decide_eq_true in Ht.
  destruct filter, (source_is_group src) eqn:Hg; simpl in Hm; simplify_eq.
  all: split; [done|]; exists src; repeat split; done.
Qed.

Lemma ValidateInput_some k s p s' :
  ValidateInput k s = Some (Some p, s') →
  s' = CallState (statusCode s) (comment s) (source_refs_add 1 p (obs s)) ∧
  ∃ src, sources (obs s) !! p = Some src ∧
         (∃ name, json_at (RequestData this) k = Some (Jstring name) ∧
                  c_str name = source_name src) ∧
         find_source (sources (obs s)) (source_name src) = Some p ∧
         source_type src = OBS_SOURCE_TYPE_INPUT.
Proof.
  intros H. pose proof (ValidateInput_inv _ _ _ _ H) as Hi.
  destruct Hi as [[? _]|(q & s1 & src & Hs & Hl & Hm)]; [done|].
  destruct (ValidateSource_some _ _ _ _ Hs) as (E & src' & Hl' & Hv & Hf).
  assert (src' = src) as -> by (rewrite E in Hl; simpl in Hl; congruence).
  destruct (bool_decide (source_type src = OBS_SOURCE_TYPE_INPUT)) eqn:Ht;
    simpl in Hm; [|discriminate].
  apply bool_decide_eq_true in Ht. simplify_eq.
  split; [done|]; exists src; repeat split; done.
Qed.

Lemma ValidateString_false_obs k allowEmpty s s' :
  ValidateString k allowEmpty s = Some (false, s') → obs s' = obs s.
Proof.
  destruct (ValidateString_settles k allowEmpty) as [[[c msg]|] Hr]; rewrite Hr;
    simpl; intros [= <-]; done.
Qed.

Lemma ValidateSource_none_refs k s s' :
  ValidateSource k s = Some (None, s') → obs s' = obs s.
Proof.
  intros H. pose proof (ValidateSource_inv _ _ _ _ H) as Hi.
  destruct Hi as [[_ Hs]|(name & _ & _ & Hm)].
  - by eapply ValidateString_false_obs.
  - destruct (find_source (sources (obs s)) (c_str name)); destruct Hm as [? ->]; done.
Qed.

Lemma ValidateScene_none_refs k filter s s' :
  ValidateScene k filter s = Some (None, s') → same_refs (obs s) (obs s').
Proof.
  intros H. pose proof (ValidateScene_inv _ _ _ _ _ H) as Hi.
  destruct Hi as [[_ Hs]|(q & s1 & src & Hs & Hl & Hm)].
  - rewrite (ValidateSource_none_refs _ _ _ Hs). apply same_refs_refl.
  - destruct (ValidateSource_some _ _ _ _ Hs) as (-> & _).
    repeat case_match; simplify_eq; simpl; apply same_refs_source_add_release.
Qed.


Lemma ValidateScene_total k filter s : ∃ r s', ValidateScene k filter s = Some (r, s').
Proof.
  destruct (ValidateScene_settles k filter (obs s)) as (v & o' & H).
  rewrite (H s eq_refl). destruct v; simpl; eauto.
Qed.

Lemma ValidateInput_total k s : ∃ r s', ValidateInput k s = Some (r, s').
Proof.
  destruct (ValidateInput_settles k (obs s)) as (v & o' & H).
  rewrite (H s eq_refl). destruct v; simpl; eauto.
Qed.

Lemma ValidateNumber_total k a b s : ∃ r s', ValidateNumber k a b s = Some (r, s').
Proof.
  destruct (ValidateNumber_settles k a b) as (rep & H).
  rewrite H. destruct rep as [[? ?]|]; simpl; eauto.
Qed.

(** Every way ValidateSceneItem returns. *)
Lemma ValidateSceneItem_inv k k2 filter s r s' :
  ValidateSceneItem k k2 filter s = Some (r, s') →
  (r = None ∧ ValidateScene k filter s = Some (None, s')) ∨
  (∃ p s1,
     ValidateScene k filter s = Some (Some p, s1) ∧
     handed_over p r (obs s1) (obs s') ∧
     ((r = None ∧
       ∃ s3, ValidateNumber k2 double_zero default_maxValue s1 = Some (false, s3) ∧
             statusCode s' = statusCode s3 ∧ comment s' = comment s3) ∨
      (ValidateNumber k2 double_zero default_maxValue s1 = Some (true, s1) ∧
       ∃ src idv id name,
         sources (obs s1) !! p = Some src ∧
         json_at (RequestData this) k2 = Some idv ∧
         get_int64 idv = Some id ∧
         json_at (RequestData this) k = Some (Jstring name) ∧
         r = pair p <$> (source_scene src ≫= λ items, find_item items id) ∧
         match r with
         | Some _ => statusCode s' = statusCode s1 ∧ comment s' = comment s1
         | None => statusCode s' = ResourceNotFound ∧
                   comment s' = no_scene_item name id
         end))).
Proof.
  intros H. destruct (ValidateScene_total k filter s) as ([p|] & s1 & Hs).
  - right. exists p, s1. split; [done|].
    destruct (ValidateNumber_total k2 double_zero default_maxValue s1)
      as ([|] & s3 & Hn).
    + destruct (ValidateNumber_true _ _ _ _ _ Hn) as (-> & idv & x & Hid & _).
      destruct (ValidateScene_some _ _ _ _ _ Hs)
        as (E & src & Hl & (name & Hname & _) & _).
      assert (sources (obs s1) !! p = Some src) as Hl1 by (by rewrite E).
      destruct (get_int64 idv) as [id|] eqn:Hget.
      * destruct (ValidateSceneItem_lookup _ _ _ _ _ _ _ _ _ _
                    Hs Hn Hl1 Hid Hget Hname) as (s'' & Hrun & Hh & Hslots).
        rewrite Hrun in H. simplify_eq. split; [done|]. right. split; [done|].
        exists src, idv, id, name. repeat split; try done.
        by destruct (source_scene src ≫= λ items, find_item items id).
      * by rewrite (ValidateSceneItem_undefined _ _ _ _ _ _ _ Hs Hn Hid Hget) in H.
    + destruct (ValidateSceneItem_number_fail _ _ _ _ _ _ _ Hs Hn)
        as (s'' & Hrun & Hc & Hm & Hh).
      rewrite Hrun in H. simplify_eq. split; [done|]. left. split; [done|].
      by exists s3.
  - left. rewrite (ValidateSceneItem_scene_fail _ _ _ _ _ Hs) in H. by simplify_eq.
Qed.

Lemma mentions_middle (a b c : string) : mentions (a +:+ b +:+ c) b.
Proof. by exists a, c. Qed.

(** * The claims *)

(** C2. On a request whose data is a valid mapping, ValidateBasic fails
    exactly when the key is absent or holds an explicit null; it then
    reports MissingRequestParameter with a comment that names the key.
    On a key that is present with a value other than null it succeeds. *)
Theorem ValidateBasic_missing_parameter k s :
  HasRequestData this = true →
  ((∃ s', ValidateBasic k s = Some (false, s')) ↔
     contains (RequestData this) k = false ∨
     json_at (RequestData this) k = Some Jnull) ∧
  (∀ s', ValidateBasic k s = Some (false, s') →
         s' = with_slots MissingRequestParameter (missing_parameter k) s) ∧
  (∀ v, json_at (RequestData this) k = Some v → v ≠ Jnull →
        ValidateBasic k s = Some (true, s)) ∧
  mentions (missing_parameter k) k.
Proof.
  intros Hd. rewrite contains_json_at.
  destruct (json_at (RequestData this) k) as [v|] eqn:Hv.
  - destruct (is_null v) eqn:Hn.
    + destruct v; try discriminate.
      rewrite (ValidateBasic_null _ s Hv). repeat split.
      * by right.
      * eauto.
      * by intros s' [= <-].
      * by intros v [= <-].
      * apply mentions_middle.
    + rewrite (ValidateBasic_present _ _ s Hv Hn). repeat split.
      * by intros [s' ?].
      * intros [H|[= ->]]; [|done].
        rewrite bool_decide_eq_false in H. destruct H. eauto.
      * by intros s' ?.
      * apply mentions_middle.
  - rewrite (ValidateBasic_absent _ s Hd Hv). repeat split.
    + intros _. left. rewrite bool_decide_eq_false. by intros [? ?].
    + eauto.
    + by intros s' [= <-].
    + by intros v ?.
    + apply mentions_middle.
Qed.

(** C7. When the key resolves to a source, ValidateScene rejects it with
    InvalidResourceType if it is not of the scene type, whatever the
    filter.  A source of the scene type is rejected with
    InvalidResourceType by the scene-only filter when it is a group and
    by the group-only filter when it is not, and is returned by the
    filter that admits both. *)
Theorem ValidateScene_filter k filter s p s1 src :
  ValidateSource k s = Some (Some p, s1) →
  sources (obs s1) !! p = Some src →
  (source_type src ≠ OBS_SOURCE_TYPE_SCENE →
     ∃ s', ValidateScene k filter s = Some (None, s') ∧
           statusCode s' = InvalidResourceType ∧
           comment s' = "The specified source is not a scene.") ∧
  (source_type src = OBS_SOURCE_TYPE_SCENE →
     (filter = OBS_WEBSOCKET_SCENE_FILTER_SCENE_ONLY → source_is_group src = true →
        ∃ s', ValidateScene k filter s = Some (None, s') ∧
              statusCode s' = InvalidResourceType ∧
              comment s' = "The specified source is not a scene.") ∧
     (filter = OBS_WEBSOCKET_SCENE_FILTER_GROUP_ONLY → source_is_group src = false →
        ∃ s', ValidateScene k filter s = Some (None, s') ∧
              statusCode s' = InvalidResourceType ∧
              comment s' = "The specified source is not a group.") ∧
     (filter = OBS_WEBSOCKET_SCENE_FILTER_SCENE_OR_GROUP →
        ValidateScene k filter s = Some (Some p, s1))).
Proof.
  intros Hs Hl. rewrite (ValidateScene_run _ filter _ _ _ _ Hs Hl). split.
  - intros Ht. rewrite bool_decide_eq_false_2 by done. simpl. eauto.
  - intros Ht. rewrite bool_decide_eq_true_2 by done. simpl.
    split; [|split].
    + intros -> ->. simpl. eauto.
    + intros -> ->. simpl. eauto.
    + intros ->. simpl. done.
Qed.

Lemma settle_bool_true rep s s' : settle_bool rep s = (true, s') → s' = s.
Proof. destruct rep as [[? ?]|]; simpl; by intros [= <-]. Qed.

Lemma settle_some {P} (v : verdict P) o' s h s' :
  settle v o' s = (Some h, s') →
  v = Resolved h ∧ s' = CallState (statusCode s) (comment s) o'.
Proof. destruct v; simpl; by intros [= <- <-]. Qed.

Lemma settle_none {P} (v : verdict P) o' s s' :
  settle v o' s = (None, s') →
  ∃ c msg, v = Rejected c msg ∧ s' = CallState c msg o'.
Proof. destruct v; simpl; intros [= <-]; eauto. Qed.

(** A check that settles leaves the slots alone when it resolves a
    handle, and when it does not, writes a report that does not depend
    on what the slots held. *)
Lemma settles_slots {P} (m : exec (option P)) :
  (∀ o, ∃ v o', ∀ s, obs s = o → m s = Some (settle v o' s)) →
  ∀ s s',
    (∀ h, m s = Some (Some h, s') →
          statusCode s' = statusCode s ∧ comment s' = comment s) ∧
    (m s = Some (None, s') →
     ∀ c0 msg0, m (with_slots c0 msg0 s) = Some (None, s')).
Proof.
  intros Hm s s'. destruct (Hm (obs s)) as (v & o' & H). split.
  - intros h. rewrite (H s eq_refl). intros [= E].
    by destruct (settle_some _ _ _ _ _ E) as [_ ->].
  - rewrite (H s eq_refl). intros [= E] c0 msg0.
    destruct (settle_none _ _ _ _ E) as (c & msg & -> & ->).
    by rewrite (H (with_slots c0 msg0 s) eq_refl).
Qed.

(** C8. A check that delegates returns the failure of its delegate as
    the delegate wrote it: the typed checks that of ValidateBasic,
    ValidateSource that of ValidateString, ValidateScene and
    ValidateInput that of ValidateSource, ValidateSceneItem that of
    ValidateScene and of ValidateNumber. *)
Theorem failure_propagation k k2 minValue maxValue allowEmpty filter s s' :
  (ValidateBasic k s = Some (false, s') →
     ValidateNumber k minValue maxValue s = Some (false, s') ∧
     ValidateString k allowEmpty s = Some (false, s') ∧
     ValidateBoolean k s = Some (false, s') ∧
     ValidateObject k allowEmpty s = Some (false, s') ∧
     ValidateArray k allowEmpty s = Some (false, s')) ∧
  (ValidateString k default_allowEmpty s = Some (false, s') →
     ValidateSource k s = Some (None, s')) ∧
  (ValidateSource k s = Some (None, s') →
     ValidateScene k filter s = Some (None, s') ∧
     ValidateInput k s = Some (None, s')) ∧
  (ValidateScene k filter s = Some (None, s') →
     ValidateSceneItem k k2 filter s = Some (None, s')) ∧
  (∀ p s1 t,
     ValidateScene k filter s = Some (Some p, s1) →
     ValidateNumber k2 double_zero default_maxValue t = Some (false, s') →
     ∃ s'', ValidateSceneItem k k2 filter s = Some (None, s'') ∧
            statusCode s'' = statusCode s' ∧ comment s'' = comment s').
Proof.
  split_and!.
  - intros H. split_and!.
    + unfold ValidateNumber. by apply after_basic_fail.
    + unfold ValidateString. by apply after_basic_fail.
    + unfold ValidateBoolean. by apply after_basic_fail.
    + unfold ValidateObject. by apply after_basic_fail.
    + unfold ValidateArray. by apply after_basic_fail.
  - apply ValidateSource_string_fail.
  - intros H. split.
    + by apply ValidateScene_source_fail.
    + by apply ValidateInput_source_fail.
  - apply ValidateSceneItem_scene_fail.
  - intros p s1 t Hs Hn.
    pose proof (ValidateNumber_fail_any _ _ _ _ _ s1 Hn) as Hn1.
    destruct (ValidateSceneItem_number_fail _ _ _ _ _ _ _ Hs Hn1)
      as (s'' & Hrun & Hc & Hm & _).
    exists s''. by repeat split.
Qed.

(** C9. Whenever a validator succeeds, the status code and the comment
    of the caller are what they were before the call. *)
Theorem success_leaves_slots k k2 minValue maxValue allowEmpty filter s s' :
  (ValidateBasic k s = Some (true, s') → s' = s) ∧
  (ValidateNumber k minValue maxValue s = Some (true, s') → s' = s) ∧
  (ValidateString k allowEmpty s = Some (true, s') → s' = s) ∧
  (ValidateBoolean k s = Some (true, s') → s' = s) ∧
  (ValidateObject k allowEmpty s = Some (true, s') → s' = s) ∧
  (ValidateArray k allowEmpty s = Some (true, s') → s' = s) ∧
  (∀ p, ValidateSource k s = Some (Some p, s') →
        statusCode s' = statusCode s ∧ comment s' = comment s) ∧
  (∀ p, ValidateScene k filter s = Some (Some p, s') →
        statusCode s' = statusCode s ∧ comment s' = comment s) ∧
  (∀ p, ValidateInput k s = Some (Some p, s') →
        statusCode s' = statusCode s ∧ comment s' = comment s) ∧
  (∀ i, ValidateSceneItem k k2 filter s = Some (Some i, s') →
        statusCode s' = statusCode s ∧ comment s' = comment s).
Proof.
  split_and!.
  - destruct (ValidateBasic_settles k) as [rep ->].
    intros [= E]. by eapply settle_bool_true.
  - destruct (ValidateNumber_settles k minValue maxValue) as [rep ->].
    intros [= E]. by eapply settle_bool_true.
  - destruct (ValidateString_settles k allowEmpty) as [rep ->].
    intros [= E]. by eapply settle_bool_true.
  - destruct (ValidateBoolean_settles k) as [rep ->].
    intros [= E]. by eapply settle_bool_true.
  - destruct (ValidateObject_settles k allowEmpty) as [rep ->].
    intros [= E]. by eapply settle_bool_true.
  - destruct (ValidateArray_settles k allowEmpty) as [rep ->].
    intros [= E]. by eapply settle_bool_true.
  - intros p H. by destruct (ValidateSource_some _ _ _ _ H) as [-> _].
  - intros p H. by destruct (ValidateScene_some _ _ _ _ _ H) as [-> _].
  - intros p H. by destruct (ValidateInput_some _ _ _ _ H) as [-> _].
  - intros i H. pose proof (ValidateSceneItem_inv _ _ _ _ _ _ H) as Hi.
    destruct Hi as [[? _]|(p & s1 & Hs & _ & [[? _]|(_ & src & idv & id & name & _ & _ & _ & _ & _ & Hc)])];
      try done.
    destruct (ValidateScene_some _ _ _ _ _ Hs) as [-> _].
    by destruct Hc as [-> ->].
Qed.

Lemma ValidateSceneItem_refs k k2 filter s r s' :
  ValidateSceneItem k k2 filter s = Some (r, s') →
  sources (obs s') = sources (obs s) ∧
  (∀ q, source_refcount (obs s') q = source_refcount (obs s) q) ∧
  (∀ j, sceneitem_refcount (obs s') j
        = sceneitem_refcount (obs s) j + (if decide (r = Some j) then 1 else 0)).
Proof.
  intros H. pose proof (ValidateSceneItem_inv _ _ _ _ _ _ H) as Hi.
  destruct Hi as [[-> Hs]|(p & s1 & Hs & (Hh1 & Hh2 & Hh3) & _)].
  - destruct (ValidateScene_none_refs _ _ _ _ Hs) as (H1 & H2 & H3).
    split_and!; [done|done|]. intros j. rewrite H3. case_decide; [done|lia].
  - destruct (ValidateScene_some _ _ _ _ _ Hs) as [-> _]. simpl in *.
    split_and!; [done| |done].
    intros q. rewrite Hh2, source_refcount_add. case_decide; lia.
Qed.


Lemma ValidateSceneItem_null_report k k2 filter s s' c0 msg0 :
  ValidateSceneItem k k2 filter s = Some (None, s') →
  ∃ s0', ValidateSceneItem k k2 filter (with_slots c0 msg0 s) = Some (None, s0') ∧
         statusCode s0' = statusCode s' ∧ comment s0' = comment s'.
Proof.
  intros H. pose proof (ValidateSceneItem_inv _ _ _ _ _ _ H) as Hi.
  destruct (settles_slots _ (ValidateScene_settles k filter) s s') as [_ Hnone].
  destruct Hi as [[_ Hs]|(p & s1 & Hs & _ & Hcase)].
  - exists s'. split; [|done].
    apply ValidateSceneItem_scene_fail. by apply Hnone.
  - destruct (ValidateScene_settles k filter (obs s)) as (v & o' & Hv).
    pose proof (Hv s eq_refl) as E. rewrite Hs in E. injection E as E.
    symmetry in E. destruct (settle_some _ _ _ _ _ E) as [-> ->].
    pose proof (Hv (with_slots c0 msg0 s) eq_refl) as Hs0. simpl in Hs0.
    destruct Hcase as [[_ (s3 & Hn & Hc & Hm)]
                      |(Hn & src & idv & id & name & Hl & Hid & Hget & Hname & Hr & Hslots)].
    + pose proof (ValidateNumber_fail_any _ _ _ _ _
                    (CallState c0 msg0 o') Hn) as Hn0.
      destruct (ValidateSceneItem_number_fail _ _ _ _ _ _ _ Hs0 Hn0)
        as (s0' & Hrun & Hc0 & Hm0 & _).
      exists s0'. split; [done|]. simpl in *. by rewrite Hc, Hm.
    + pose proof (ValidateNumber_pass_any _ _ _ _ _
                    (CallState c0 msg0 o') Hn) as Hn0.
      destruct (ValidateSceneItem_lookup _ _ _ _ _ _ _ _ _ _
                  Hs0 Hn0 Hl Hid Hget Hname) as (s0' & Hrun & _ & Hslots0).
      destruct (source_scene src ≫= λ items, find_item items id); [done|].
      exists s0'. split; [done|]. simpl in *.
      destruct Hslots as [-> ->]. by destruct Hslots0 as [-> ->].
Qed.

(** C10. Each resource validator returns a handle exactly when it has
    written nothing: with a handle the status code and the comment are
    those of the caller, and with a null pointer both hold a report that
    is the same whatever they held before the call.  ValidateSource,
    ValidateScene and ValidateInput always return. *)
Theorem handle_is_success k k2 filter s s' :
  ((∃ r s1, ValidateSource k s = Some (r, s1)) ∧
   (∃ r s1, ValidateScene k filter s = Some (r, s1)) ∧
   (∃ r s1, ValidateInput k s = Some (r, s1))) ∧
  ((∀ h, ValidateSource k s = Some (Some h, s') →
         statusCode s' = statusCode s ∧ comment s' = comment s) ∧
   (ValidateSource k s = Some (None, s') →
    ∀ c0 msg0, ValidateSource k (with_slots c0 msg0 s) = Some (None, s'))) ∧
  ((∀ h, ValidateScene k filter s = Some (Some h, s') →
         statusCode s' = statusCode s ∧ comment s' = comment s) ∧
   (ValidateScene k filter s = Some (None, s') →
    ∀ c0 msg0, ValidateScene k filter (with_slots c0 msg0 s) = Some (None, s'))) ∧
  ((∀ h, ValidateInput k s = Some (Some h, s') →
         statusCode s' = statusCode s ∧ comment s' = comment s) ∧
   (ValidateInput k s = Some (None, s') →
    ∀ c0 msg0, ValidateInput k (with_slots c0 msg0 s) = Some (None, s'))) ∧
  ((∀ h, ValidateSceneItem k k2 filter s = Some (Some h, s') →
         statusCode s' = statusCode s ∧ comment s' = comment s) ∧
   (ValidateSceneItem k k2 filter s = Some (None, s') →
    ∀ c0 msg0, ∃ s0',
      ValidateSceneItem k k2 filter (with_slots c0 msg0 s) = Some (None, s0') ∧
      statusCode s0' = statusCode s' ∧ comment s0' = comment s')).
Proof.
  split_and!.
  - apply ValidateSource_total.
  - apply ValidateScene_total.
  - apply ValidateInput_total.
  - apply (settles_slots _ (ValidateSource_settles k)).
  - apply (settles_slots _ (ValidateSource_settles k)).
  - apply (settles_slots _ (ValidateScene_settles k filter)).
  - apply (settles_slots _ (ValidateScene_settles k filter)).
  - apply (settles_slots _ (ValidateInput_settles k)).
  - apply (settles_slots _ (ValidateInput_settles k)).
  - intros i H. pose proof (ValidateSceneItem_inv _ _ _ _ _ _ H) as Hi.
    destruct Hi as [[? _]|(p & s1 & Hs & _ & [[? _]|(_ & src & idv & id & name & _ & _ & _ & _ & _ & Hc)])];
      try done.
    destruct (ValidateScene_some _ _ _ _ _ Hs) as [-> _].
    by destruct Hc as [-> ->].
  - intros H c0 msg0. by apply ValidateSceneItem_null_report.
Qed.

Lemma double_of_Z_not_nan z : is_nan (double_of_Z z) = false.
Proof.
  destruct (decide (z = 0)) as [->|Hz]; [done|].
  pose proof (double_of_Z_sign z Hz) as H. by destruct (double_of_Z z).
Qed.

Lemma get_double_not_nan v x :
  v ≠ Jnumber_float NAN → get_double v = Some x → is_nan x = false.
Proof.
  destruct v; simpl; intros Hv [= <-]; try apply double_of_Z_not_nan.
  destruct f; try done; by destruct Hv.
Qed.

Lemma get_double_is_number v x : get_double v = Some x → is_number v = true.
Proof. by destruct v. Qed.

Lemma double_le_not_lt x y : double_le y x = true → double_lt x y = false.
Proof.
  unfold double_le, double_lt, SFleb, SFltb.
  destruct (SFcompare y x) as [c|] eqn:Hc; [|done].
  rewrite (SFcompare_antisym _ _ _ Hc). by destruct c.
Qed.

Lemma double_le_gt_false x y : double_le x y = true → double_gt x y = false.
Proof.
  unfold double_le, double_gt, SFleb. by destruct (SFcompare x y) as [[]|].
Qed.

Lemma append_inv_head (a u v : string) : a +:+ u = a +:+ v → u = v.
Proof. induction a as [|c a IH]; simpl; [done|]. intros [= H]. by apply IH. Qed.

Lemma append_assoc (a b c : string) : (a +:+ b) +:+ c = a +:+ b +:+ c.
Proof.
  induction a as [|x a IH]; [done|].
  change (String x ((a +:+ b) +:+ c) = String x (a +:+ b +:+ c)). by f_equal.
Qed.

Lemma below_above_distinct k a b : below_minimum k a ≠ above_maximum k b.
Proof.
  unfold below_minimum, above_maximum. intros H.
  apply (append_inv_head "The parameter `"), append_inv_head in H.
  discriminate.
Qed.

(** C1, amended.  When neither the bounds nor the value is a NaN,
    ValidateNumber succeeds exactly when the key passes ValidateBasic and
    holds a number with [minValue <= value <= maxValue].  A value equal
    to a bound and within the other one succeeds; a value below the
    minimum fails with RequestParameterOutOfRange and a comment that
    names the minimum; a value above the maximum that is not below the
    minimum fails with RequestParameterOutOfRange and a different
    comment, which names the maximum. *)
Theorem ValidateNumber_range k minValue maxValue s :
  is_nan minValue = false → is_nan maxValue = false →
  json_at (RequestData this) k ≠ Some (Jnumber_float NAN) →
  ((∃ s', ValidateNumber k minValue maxValue s = Some (true, s')) ↔
     ValidateBasic k s = Some (true, s) ∧
     number_in_range this k minValue maxValue) ∧
  (∀ v x,
     ValidateBasic k s = Some (true, s) →
     json_at (RequestData this) k = Some v → get_double v = Some x →
     (double_eq x minValue = true → double_le x maxValue = true →
        ValidateNumber k minValue maxValue s = Some (true, s)) ∧
     (double_eq x maxValue = true → double_le minValue x = true →
        ValidateNumber k minValue maxValue s = Some (true, s)) ∧
     (double_lt x minValue = true →
        ValidateNumber k minValue maxValue s
        = Some (false, with_slots RequestParameterOutOfRange
                         (below_minimum k (to_string_double minValue)) s)) ∧
     (double_lt x minValue = false → double_gt x maxValue = true →
        ValidateNumber k minValue maxValue s
        = Some (false, with_slots RequestParameterOutOfRange
                         (above_maximum k (to_string_double maxValue)) s))) ∧
  below_minimum k (to_string_double minValue)
    ≠ above_maximum k (to_string_double maxValue) ∧
  mentions (below_minimum k (to_string_double minValue)) (to_string_double minValue) ∧
  mentions (above_maximum k (to_string_double maxValue)) (to_string_double maxValue).
Proof.
  intros Hmin Hmax Hnan. split_and!.
  - split.
    + intros [s' H].
      destruct (ValidateNumber_true _ _ _ _ _ H)
        as (-> & v & x & Hv & Hn & Hx & Hlt & Hgt).
      split; [by eapply ValidateBasic_present|].
      exists v, x. split_and!; [done|by eapply get_double_is_number|done|].
      assert (is_nan x = false) as Hxn
        by (eapply get_double_not_nan; [|done]; congruence).
      unfold in_range_inclusive.
      rewrite double_ge_not_lt, double_le_not_gt, Hlt, Hgt by done. done.
    + intros [Hb (v & x & Hv & _ & Hx & Hr)].
      destruct (ValidateBasic_true _ _ _ Hb) as (_ & v' & Hv' & Hn).
      assert (v' = v) as -> by congruence.
      unfold in_range_inclusive in Hr. apply andb_true_iff in Hr as [H1 H2].
      exists s. rewrite (ValidateNumber_run _ _ _ _ _ Hv Hn), Hx.
      by rewrite (double_le_not_lt _ _ H1), (double_le_gt_false _ _ H2).
  - intros v x Hb Hv Hx.
    destruct (ValidateBasic_true _ _ _ Hb) as (_ & v' & Hv' & Hn).
    assert (v' = v) as -> by congruence.
    rewrite (ValidateNumber_run _ _ _ _ _ Hv Hn), Hx. split_and!.
    + intros H1 H2.
      by rewrite (double_eq_not_lt _ _ H1), (double_le_gt_false _ _ H2).
    + intros H1 H2.
      by rewrite (double_le_not_lt _ _ H2), (double_eq_not_gt _ _ H1).
    + by intros ->.
    + by intros -> ->.
  - apply below_above_distinct.
  - unfold below_minimum.
    exists ("The parameter `" +:+ k +:+ "` is below the minimum of `"), "`".
    by rewrite !append_assoc.
  - unfold above_maximum.
    exists ("The parameter `" +:+ k +:+ "` is above the maximum of `"), "`".
    by rewrite !append_assoc.
Qed.

Lemma ValidateScene_resolves k filter s name p src :
  json_at (RequestData this) k = Some (Jstring name) → name ≠ "" →
  find_source (sources (obs s)) (c_str name) = Some p →
  sources (obs s) !! p = Some src →
  source_type src = OBS_SOURCE_TYPE_SCENE →
  filter_admits filter (source_is_group src) →
  ValidateScene k filter s
  = Some (Some p, CallState (statusCode s) (comment s) (source_refs_add 1 p (obs s))).
Proof.
  intros Hv Hne Hf Hl Ht [Ha1 Ha2].
  pose proof (ValidateSource_run _ _ s Hv Hne) as Hs. rewrite Hf in Hs.
  rewrite (ValidateScene_run _ filter _ _ _ src Hs) by done.
  rewrite bool_decide_eq_true_2 by done. simpl.
  destruct filter, (source_is_group src); simpl; try done.
  - by specialize (Ha1 eq_refl).
  - by specialize (Ha2 eq_refl).
Qed.

Lemma ValidateScene_not_found k filter s name :
  json_at (RequestData this) k = Some (Jstring name) → name ≠ "" →
  find_source (sources (obs s)) (c_str name) = None →
  ValidateScene k filter s
  = Some (None, with_slots ResourceNotFound (not_found name) s).
Proof.
  intros Hv Hne Hf.
  pose proof (ValidateSource_run _ _ s Hv Hne) as Hs. rewrite Hf in Hs.
  by apply ValidateScene_source_fail.
Qed.

Lemma json_negative_lt v x :
  get_double v = Some x → json_negative v → double_lt x double_zero = true.
Proof.
  destruct v; simpl; intros [= <-] H; try done; by apply double_of_Z_negative.
Qed.

Lemma json_not_negative_lt v x :
  get_double v = Some x → ¬ json_negative v → double_lt x double_zero = false.
Proof.
  destruct v; simpl; intros [= <-] H.
  - apply double_of_Z_nonnegative. lia.
  - apply double_of_Z_nonnegative. lia.
  - by destruct (double_lt f double_zero).
Qed.

(** [double_trunc] drops the fraction of a double, and nothing else does. *)
Lemma double_trunc_spec x t :
  double_trunc x = Some t ↔ truncated_toward_zero x t.
Proof.
  destruct x as [?|?| |s m e]; simpl.
  - split; [by intros [= <-] | by intros ->].
  - split; [discriminate | tauto].
  - split; [discriminate | tauto].
  - assert (0 < 2 ^ Z.max 0 (- e)) as Hd by (apply Z.pow_pos_nonneg; lia).
    destruct (Z.leb_spec 0 e) as [He|He].
    + rewrite (Z.max_l 0 (- e)), (Z.max_r 0 e) by lia.
      change (2 ^ 0) with 1.
      assert (0 < 2 ^ e) by (apply Z.pow_pos_nonneg; lia).
      split.
      * intros [= <-]. destruct s; split; nia.
      * intros [Hs Ht]. f_equal. destruct s; lia.
    + rewrite (Z.max_r 0 (- e)) in * by lia.
      rewrite (Z.max_l 0 e) by lia.
      change (2 ^ 0) with 1.
      set (d := 2 ^ (- e)) in *.
      pose proof (Z.div_mod (Z.pos m) d ltac:(lia)) as Hq.
      pose proof (Z.mod_pos_bound (Z.pos m) d Hd) as Hr.
      assert (0 ≤ Z.pos m / d) as Hn by (apply Z.div_pos; lia).
      split.
      * intros [= <-]. destruct s; split; nia.
      * intros [Hs Ht]. f_equal.
        assert (Z.abs t = Z.pos m / d) as Ha.
        { apply (Z.div_unique _ _ _ (Z.pos m - d * Z.abs t)); lia. }
        destruct s; lia.
Qed.

Lemma int64_of_double_some f t :
  int64_of_double f = Some t ↔
  truncated_toward_zero f t ∧ INT64_MIN ≤ t ≤ INT64_MAX.
Proof.
  rewrite <- double_trunc_spec. unfold int64_of_double.
  destruct (double_trunc f) as [u|]; simpl.
  - destruct (Z.leb_spec INT64_MIN u) as [H1|H1],
             (Z.leb_spec u INT64_MAX) as [H2|H2]; simpl; split.
    + intros [= <-]. split; [done|lia].
    + by intros [[= ->] _].
    + discriminate.
    + intros [[= ->] ?]. lia.
    + discriminate.
    + intros [[= ->] ?]. lia.
    + discriminate.
    + intros [[= ->] ?]. lia.
  - split; [discriminate|]. by intros [? _].
Qed.

Lemma int64_of_double_none f :
  int64_of_double f = None ↔
  ∀ t, truncated_toward_zero f t → ¬ (INT64_MIN ≤ t ≤ INT64_MAX).
Proof.
  split.
  - intros Hn t Ht Hr.
    pose proof (proj2 (int64_of_double_some f t) (conj Ht Hr)). congruence.
  - intros H. destruct (int64_of_double f) as [t|] eqn:E; [|done].
    pose proof (proj1 (int64_of_double_some f t) E) as [Ht Hr].
    by destruct (H t Ht).
Qed.

(** C5, amended.  Once the scene is resolved, ValidateSceneItem rejects
    every number below zero under the item-id key with
    RequestParameterOutOfRange; there is no upper bound, so every number
    that is not below zero passes the number check.  The id looked up in
    the scene is the number converted to a 64-bit signed integer.  For an
    integer that is the value itself up to 2^63-1, and the value less 2^64
    from 2^63 on.  For a float it is the value truncated toward zero
    exactly when that integer lies between -2^63 and 2^63-1; for every
    other float that passes the check (2^63 or more, an infinity, a NaN)
    the conversion is undefined in C++, and ValidateSceneItem has no
    defined result. *)
Theorem ValidateSceneItem_item_id k k2 filter s p s1 v :
  ValidateScene k filter s = Some (Some p, s1) →
  json_at (RequestData this) k2 = Some v →
  is_number v = true →
  (json_negative v →
     ∃ s', ValidateSceneItem k k2 filter s = Some (None, s') ∧
           statusCode s' = RequestParameterOutOfRange ∧
           comment s' = below_minimum k2 (to_string_double double_zero)) ∧
  (∀ x, double_gt x default_maxValue = false) ∧
  (¬ json_negative v →
     ValidateNumber k2 double_zero default_maxValue s1 = Some (true, s1)) ∧
  (∀ id, ¬ json_negative v → get_int64 v = Some id →
     ∃ src s', sources (obs s1) !! p = Some src ∧
       ValidateSceneItem k k2 filter s
       = Some (pair p <$> (source_scene src ≫= λ items, find_item items id), s')) ∧
  (¬ json_negative v → get_int64 v = None →
     ValidateSceneItem k k2 filter s = None) ∧
  (∀ z, v = Jnumber_integer z → get_int64 v = Some z) ∧
  (∀ z, v = Jnumber_unsigned z → z < 2 ^ 63 → get_int64 v = Some z) ∧
  (∀ f t, v = Jnumber_float f → double_trunc f = Some t →
          INT64_MIN ≤ t ≤ INT64_MAX → get_int64 v = Some t) ∧
  (∀ z, v = Jnumber_unsigned z → 2 ^ 63 ≤ z → get_int64 v = Some (z - 2 ^ 64)) ∧
  (∀ f t, v = Jnumber_float f →
          (get_int64 v = Some t ↔
           truncated_toward_zero f t ∧ INT64_MIN ≤ t ≤ INT64_MAX)) ∧
  (get_int64 v = None ↔
   ∃ f, v = Jnumber_float f ∧
        ∀ t, truncated_toward_zero f t → ¬ (INT64_MIN ≤ t ≤ INT64_MAX)).
Proof.
  intros Hs Hv Hnum.
  assert (is_null v = false) as Hn by (by destruct v).
  destruct (get_double v) as [x|] eqn:Hx; [|by destruct v].
  assert (¬ json_negative v →
          ValidateNumber k2 double_zero default_maxValue s1 = Some (true, s1)) as Hpass.
  { intros Hneg. rewrite (ValidateNumber_run _ _ _ _ _ Hv Hn), Hx.
    by rewrite (json_not_negative_lt _ _ Hx Hneg), double_gt_INFINITY. }
  split_and!.
  - intros Hneg.
    assert (ValidateNumber k2 double_zero default_maxValue s1
            = Some (false, with_slots RequestParameterOutOfRange
                             (below_minimum k2 (to_string_double double_zero)) s1))
      as Hfail.
    { rewrite (ValidateNumber_run _ _ _ _ _ Hv Hn), Hx.
      by rewrite (json_negative_lt _ _ Hx Hneg). }
    destruct (ValidateSceneItem_number_fail _ _ _ _ _ _ _ Hs Hfail)
      as (s' & Hrun & Hc & Hm & _).
    by exists s'.
  - apply double_gt_INFINITY.
  - done.
  - intros id Hneg Hget.
    destruct (ValidateScene_some _ _ _ _ _ Hs)
      as (E & src & Hl & (name & Hname & _) & _).
    assert (sources (obs s1) !! p = Some src) as Hl1 by (by rewrite E).
    destruct (ValidateSceneItem_lookup _ _ _ _ _ _ _ _ _ _
                Hs (Hpass Hneg) Hl1 Hv Hget Hname) as (s' & Hrun & _).
    by exists src, s'.
  - intros Hneg Hget.
    by apply (ValidateSceneItem_undefined _ _ _ _ _ _ _ Hs (Hpass Hneg) Hv Hget).
  - by intros z ->.
  - intros z -> Hz. simpl. unfold int64_of_uint64.
    by rewrite (proj2 (Z.ltb_lt _ _) Hz).
  - intros f t -> Ht [H1 H2]. simpl. unfold int64_of_double. rewrite Ht. simpl.
    by rewrite (proj2 (Z.leb_le _ _) H1), (proj2 (Z.leb_le _ _) H2).
  - intros z -> Hz. simpl. unfold int64_of_uint64.
    by rewrite (proj2 (Z.ltb_ge _ _) Hz).
  - intros f t ->. apply int64_of_double_some.
  - split.
    + intros Hget. destruct v; try done.
      exists f. split; [done|]. by apply int64_of_double_none.
    + intros (f & -> & H). by apply int64_of_double_none.
Qed.

(** * Further properties of the validators *)

(** ValidateBasic has three outcomes. *)
Lemma ValidateBasic_cases k s :
  ValidateBasic k s
    = Some (false, with_slots MissingRequestData
                     "Your request data is missing or invalid (non-object)" s) ∨
  ValidateBasic k s
    = Some (false, with_slots MissingRequestParameter (missing_parameter k) s) ∨
  (∃ v, json_at (RequestData this) k = Some v ∧ is_null v = false ∧
        ValidateBasic k s = Some (true, s)).
Proof.
  destruct (HasRequestData this) eqn:Hd.
  - destruct (json_at (RequestData this) k) as [v|] eqn:Hv.
    + destruct (is_null v) eqn:Hn.
      * right. left. destruct v; try discriminate. by apply ValidateBasic_null.
      * right. right. exists v. split_and!; [done..|]. by eapply ValidateBasic_present.
    + right. left. by apply ValidateBasic_absent.
  - left. by apply ValidateBasic_no_data.
Qed.

Lemma ValidateBasic_pass_value k s s' v :
  ValidateBasic k s = Some (true, s') →
  json_at (RequestData this) k = Some v → is_null v = false.
Proof.
  intros H Hv. destruct (ValidateBasic_true _ _ _ H) as (_ & v' & Hv' & Hn).
  congruence.
Qed.

(** ValidateString succeeds exactly on a string that is not empty, or is
    empty while [allowEmpty] holds.  A value of another type is reported
    as InvalidRequestParameterType and an empty string that is not
    allowed as RequestParameterEmpty, each with a comment naming the key;
    the state is otherwise unchanged. *)
Theorem ValidateString_accepts k allowEmpty s :
  ((∃ s', ValidateString k allowEmpty s = Some (true, s')) ↔
     ∃ str, json_at (RequestData this) k = Some (Jstring str) ∧
            (str = "" → allowEmpty = true)) ∧
  (∀ v, json_at (RequestData this) k = Some v → is_null v = false →
        is_string v = false →
        ValidateString k allowEmpty s
        = Some (false, with_slots InvalidRequestParameterType
                         ("The parameter `" +:+ k +:+ "` must be a string.") s)) ∧
  (json_at (RequestData this) k = Some (Jstring "") →
     ValidateString k false s
     = Some (false, with_slots RequestParameterEmpty
                      ("The parameter `" +:+ k +:+ "` must not be empty.") s) ∧
     ValidateString k true s = Some (true, s)).
Proof.
  split_and!.
  - split.
    + intros [s' H]. by destruct (ValidateString_true _ _ _ _ H) as [_ ?].
    + intros (str & Hv & He). exists s.
      rewrite (ValidateString_run _ _ _ _ Hv) by done. simpl.
      destruct (bool_decide (str = "")) eqn:E; simpl; [|done].
      apply bool_decide_eq_true in E. by rewrite (He E).
  - intros v Hv Hn Hs. rewrite (ValidateString_run _ _ _ _ Hv Hn).
    by destruct v.
  - intros Hv. by rewrite !(ValidateString_run _ _ _ _ Hv).
Qed.

(** ValidateBoolean succeeds exactly on a boolean; any other value that
    is present and not null is reported as InvalidRequestParameterType. *)
Theorem ValidateBoolean_accepts k s :
  ((∃ s', ValidateBoolean k s = Some (true, s')) ↔
     ∃ b, json_at (RequestData this) k = Some (Jboolean b)) ∧
  (∀ v, json_at (RequestData this) k = Some v → is_null v = false →
        is_boolean v = false →
        ValidateBoolean k s
        = Some (false, with_slots InvalidRequestParameterType
                         ("The parameter `" +:+ k +:+ "` must be boolean.") s)).
Proof.
  split_and!.
  - split.
    + intros [s' H].
      destruct (ValidateBasic_cases k s) as [Hb|[Hb|(v & Hv & Hn & Hb)]].
      1, 2: unfold ValidateBoolean in H;
            rewrite (after_basic_fail _ _ _ _ Hb) in H; discriminate.
      rewrite (ValidateBoolean_run _ _ _ Hv Hn) in H.
      destruct v; try discriminate. eauto.
    + intros (b & Hv). exists s. by rewrite (ValidateBoolean_run _ _ _ Hv).
  - intros v Hv Hn Hb. by rewrite (ValidateBoolean_run _ _ _ Hv Hn), Hb.
Qed.

(** ValidateObject succeeds exactly on an object that has a member, or
    has none while [allowEmpty] holds.  A value of another type is
    reported as InvalidRequestParameterType and the empty object that is
    not allowed as RequestParameterEmpty. *)
Theorem ValidateObject_accepts k allowEmpty s :
  ((∃ s', ValidateObject k allowEmpty s = Some (true, s')) ↔
     ∃ members, json_at (RequestData this) k = Some (Jobject members) ∧
                (members = [] → allowEmpty = true)) ∧
  (∀ v, json_at (RequestData this) k = Some v → is_null v = false →
        is_object v = false →
        ValidateObject k allowEmpty s
        = Some (false, with_slots InvalidRequestParameterType
                         ("The parameter `" +:+ k +:+ "` must be an object.") s)) ∧
  (json_at (RequestData this) k = Some (Jobject []) →
     ValidateObject k false s
     = Some (false, with_slots RequestParameterEmpty
                      ("The parameter `" +:+ k +:+ "` must not be empty.") s) ∧
     ValidateObject k true s = Some (true, s)).
Proof.
  split_and!.
  - split.
    + intros [s' H].
      destruct (ValidateBasic_cases k s) as [Hb|[Hb|(v & Hv & Hn & Hb)]].
      1, 2: unfold ValidateObject in H;
            rewrite (after_basic_fail _ _ _ _ Hb) in H; discriminate.
      rewrite (ValidateObject_run _ _ _ _ Hv Hn) in H.
      destruct v as [|members| | | | | | | |]; try discriminate.
      exists members. split; [done|]. intros ->. by destruct allowEmpty.
    + intros (members & Hv & He). exists s.
      rewrite (ValidateObject_run _ _ _ _ Hv) by done. simpl.
      destruct members; simpl; [|done]. by rewrite He.
  - intros v Hv Hn Ho. by rewrite (ValidateObject_run _ _ _ _ Hv Hn), Ho.
  - intros Hv. by rewrite !(ValidateObject_run _ _ _ _ Hv).
Qed.

(** ValidateArray succeeds exactly on an array that has an element, or
    has none while [allowEmpty] holds.  A value of another type is
    reported as InvalidRequestParameterType and the empty array that is
    not allowed as RequestParameterEmpty. *)
Theorem ValidateArray_accepts k allowEmpty s :
  ((∃ s', ValidateArray k allowEmpty s = Some (true, s')) ↔
     ∃ elements, json_at (RequestData this) k = Some (Jarray elements) ∧
                 (elements = [] → allowEmpty = true)) ∧
  (∀ v, json_at (RequestData this) k = Some v → is_null v = false →
        is_array v = false →
        ValidateArray k allowEmpty s
        = Some (false, with_slots InvalidRequestParameterType
                         ("The parameter `" +:+ k +:+ "` must be an array.") s)) ∧
  (json_at (RequestData this) k = Some (Jarray []) →
     ValidateArray k false s
     = Some (false, with_slots RequestParameterEmpty
                      ("The parameter `" +:+ k +:+ "` must not be empty.") s) ∧
     ValidateArray k true s = Some (true, s)).
Proof.
  split_and!.
  - split.
    + intros [s' H].
      destruct (ValidateBasic_cases k s) as [Hb|[Hb|(v & Hv & Hn & Hb)]].
      1, 2: unfold ValidateArray in H;
            rewrite (after_basic_fail _ _ _ _ Hb) in H; discriminate.
      rewrite (ValidateArray_run _ _ _ _ Hv Hn) in H.
      destruct v as [| |elements| | | | | | |]; try discriminate.
      exists elements. split; [done|]. intros ->. by destruct allowEmpty.
    + intros (elements & Hv & He). exists s.
      rewrite (ValidateArray_run _ _ _ _ Hv) by done. simpl.
      destruct elements; simpl; [|done]. by rewrite He.
  - intros v Hv Hn Ho. by rewrite (ValidateArray_run _ _ _ _ Hv Hn), Ho.
  - intros Hv. by rewrite !(ValidateArray_run _ _ _ _ Hv).
Qed.

Lemma double_lt_neg_infinity x : double_lt x (S754_infinity true) = false.
Proof. by destruct x as [[]|[]| |[] ? ?]. Qed.

(** ValidateNumber reports a value that is present, not null and not a
    number as InvalidRequestParameterType, whatever the bounds.  With the
    bounds minus and plus infinity every number passes, and a NaN passes
    every range,
    since it is neither below the minimum nor above the maximum. *)
Theorem ValidateNumber_type_and_unbounded k minValue maxValue s :
  (∀ v, json_at (RequestData this) k = Some v → is_null v = false →
        is_number v = false →
        ValidateNumber k minValue maxValue s
        = Some (false, with_slots InvalidRequestParameterType
                         ("The parameter `" +:+ k +:+ "` must be a number.") s)) ∧
  (∀ v, json_at (RequestData this) k = Some v → is_number v = true →
        ValidateNumber k (S754_infinity true) INFINITY s = Some (true, s)) ∧
  (json_at (RequestData this) k = Some (Jnumber_float NAN) →
     ValidateNumber k minValue maxValue s = Some (true, s)).
Proof.
  split_and!.
  - intros v Hv Hn Hnum. rewrite (ValidateNumber_run _ _ _ _ _ Hv Hn).
    by destruct v.
  - intros v Hv Hnum.
    rewrite (ValidateNumber_run _ _ _ _ _ Hv) by (by destruct v).
    destruct (get_double v) as [x|] eqn:Hx; [|by destruct v].
    by rewrite double_lt_neg_infinity, double_gt_INFINITY.
  - intros Hv. by rewrite (ValidateNumber_run _ _ _ _ _ Hv).
Qed.

Lemma settles_same_outcome (m : exec bool) :
  (∃ rep, ∀ s, m s = Some (settle_bool rep s)) → ∀ s t, same_outcome m s t.
Proof.
  intros [[[c msg]|] H] s t; [right; exists c, msg|left]; by rewrite !H.
Qed.

(** The presence check and the typed checks look at the request only:
    in any two states, whatever the slots and libobs hold, a check gives
    the same verdict and the same report, and it never changes libobs. *)
Theorem typed_checks_ignore_state k minValue maxValue allowEmpty s t :
  same_outcome (ValidateBasic k) s t ∧
  same_outcome (ValidateNumber k minValue maxValue) s t ∧
  same_outcome (ValidateString k allowEmpty) s t ∧
  same_outcome (ValidateBoolean k) s t ∧
  same_outcome (ValidateObject k allowEmpty) s t ∧
  same_outcome (ValidateArray k allowEmpty) s t.
Proof.
  split_and!; apply settles_same_outcome.
  - apply ValidateBasic_settles.
  - apply ValidateNumber_settles.
  - apply ValidateString_settles.
  - apply ValidateBoolean_settles.
  - apply ValidateObject_settles.
  - apply ValidateArray_settles.
Qed.

Ltac in_codes := repeat first [ apply list_elem_of_here | apply list_elem_of_further ].

Lemma ValidateBasic_fail_code k s s' :
  ValidateBasic k s = Some (false, s') →
  statusCode s' = MissingRequestData ∨ statusCode s' = MissingRequestParameter.
Proof.
  intros H. destruct (ValidateBasic_cases k s) as [Hb|[Hb|(v & _ & _ & Hb)]];
    rewrite Hb in H; simplify_eq; auto.
Qed.

(** What went wrong in a typed check that failed after the presence
    check passed: the status code written is [c]. *)
Lemma typed_fail_code (cont : exec bool) k s s' (codes : list RequestStatus) :
  (ok ← ValidateBasic k; if negb ok then mret false else cont) s = Some (false, s') →
  MissingRequestData ∈ codes → MissingRequestParameter ∈ codes →
  (∀ v, json_at (RequestData this) k = Some v → is_null v = false →
        cont s = Some (false, s') → statusCode s' ∈ codes) →
  statusCode s' ∈ codes.
Proof.
  intros H H1 H2 Hc.
  destruct (ValidateBasic_cases k s) as [Hb|[Hb|(v & Hv & Hn & Hb)]].
  - rewrite (after_basic_fail _ _ _ _ Hb) in H. by simplify_eq.
  - rewrite (after_basic_fail _ _ _ _ Hb) in H. by simplify_eq.
  - rewrite (after_basic_pass _ _ _ Hb) in H. by eapply Hc.
Qed.

Lemma ValidateNumber_fail_code k a b s s' :
  ValidateNumber k a b s = Some (false, s') →
  statusCode s' ∈ [MissingRequestData; MissingRequestParameter;
                   InvalidRequestParameterType; RequestParameterOutOfRange].
Proof.
  intros H. eapply typed_fail_code; [exact H|in_codes..|].
  intros v Hv Hn. unfold RequestData_at. rewrite Hv. exec_unfold.
  repeat case_match; intros; simplify_eq; simpl; in_codes.
Qed.

Lemma ValidateString_fail_code k ae s s' :
  ValidateString k ae s = Some (false, s') →
  statusCode s' ∈ [MissingRequestData; MissingRequestParameter;
                   InvalidRequestParameterType; RequestParameterEmpty].
Proof.
  intros H. eapply typed_fail_code; [exact H|in_codes..|].
  intros v Hv Hn. unfold RequestData_at. rewrite Hv. exec_unfold.
  repeat case_match; intros; simplify_eq; simpl; in_codes.
Qed.

Lemma ValidateBoolean_fail_code k s s' :
  ValidateBoolean k s = Some (false, s') →
  statusCode s' ∈ [MissingRequestData; MissingRequestParameter;
                   InvalidRequestParameterType].
Proof.
  intros H. eapply typed_fail_code; [exact H|in_codes..|].
  intros v Hv Hn. unfold RequestData_at. rewrite Hv. exec_unfold.
  repeat case_match; intros; simplify_eq; simpl; in_codes.
Qed.

Lemma ValidateObject_fail_code k ae s s' :
  ValidateObject k ae s = Some (false, s') →
  statusCode s' ∈ [MissingRequestData; MissingRequestParameter;
                   InvalidRequestParameterType; RequestParameterEmpty].
Proof.
  intros H. eapply typed_fail_code; [exact H|in_codes..|].
  intros v Hv Hn. unfold RequestData_at. rewrite Hv. exec_unfold.
  repeat case_match; intros; simplify_eq; simpl; in_codes.
Qed.

Lemma ValidateArray_fail_code k ae s s' :
  ValidateArray k ae s = Some (false, s') →
  statusCode s' ∈ [MissingRequestData; MissingRequestParameter;
                   InvalidRequestParameterType; RequestParameterEmpty].
Proof.
  intros H. eapply typed_fail_code; [exact H|in_codes..|].
  intros v Hv Hn. unfold RequestData_at. rewrite Hv. exec_unfold.
  repeat case_match; intros; simplify_eq; simpl; in_codes.
Qed.

Lemma ValidateBasic_fail_code_data k s s' :
  HasRequestData this = true →
  ValidateBasic k s = Some (false, s') →
  statusCode s' = MissingRequestParameter.
Proof.
  intros Hd H. destruct (json_at (RequestData this) k) as [v|] eqn:Hv.
  - destruct (is_null v) eqn:Hn.
    + destruct v; try discriminate.
      rewrite (ValidateBasic_null _ _ Hv) in H. by simplify_eq.
    + rewrite (ValidateBasic_present _ _ _ Hv Hn) in H. discriminate.
  - rewrite (ValidateBasic_absent _ _ Hd Hv) in H. by simplify_eq.
Qed.

Lemma ValidateNumber_fail_code_data k a b s s' :
  HasRequestData this = true →
  ValidateNumber k a b s = Some (false, s') →
  statusCode s' ∈ [MissingRequestParameter; InvalidRequestParameterType;
                   RequestParameterOutOfRange].
Proof.
  intros Hd H.
  destruct (ValidateBasic_settles k) as [[[c msg]|] Hr].
  - pose proof (ValidateBasic_fail_code_data _ _ _ Hd (Hr s)) as Hc.
    unfold ValidateNumber in H. rewrite (after_basic_fail _ _ _ _ (Hr s)) in H.
    simplify_eq. simpl in *. subst. in_codes.
  - destruct (ValidateBasic_true k s s) as [_ (v & Hv & Hn)]; [by rewrite Hr|].
    rewrite (ValidateNumber_run _ _ _ _ _ Hv Hn) in H.
    repeat case_match; simplify_eq; simpl; in_codes.
Qed.

Lemma ValidateSource_fail_code k s s' :
  ValidateSource k s = Some (None, s') →
  statusCode s' ∈ [MissingRequestData; MissingRequestParameter;
                   InvalidRequestParameterType; RequestParameterEmpty;
                   ResourceNotFound].
Proof.
  intros H. pose proof (ValidateSource_inv _ _ _ _ H) as Hi.
  destruct Hi as [[_ Hs]|(name & _ & _ & Hm)].
  - pose proof (ValidateString_fail_code _ _ _ _ Hs) as Hc.
    revert Hc. generalize (statusCode s'). intros c Hc.
    repeat (apply elem_of_cons in Hc as [->|Hc]; [in_codes|]).
    by apply elem_of_nil in Hc.
  - destruct (find_source (sources (obs s)) (c_str name)); destruct Hm as [? ->];
      [done|]. simpl. in_codes.
Qed.

Lemma ValidateScene_fail_code k filter s s' :
  ValidateScene k filter s = Some (None, s') →
  statusCode s' ∈ [MissingRequestData; MissingRequestParameter;
                   InvalidRequestParameterType; RequestParameterEmpty;
                   ResourceNotFound; InvalidResourceType].
Proof.
  intros H. pose proof (ValidateScene_inv _ _ _ _ _ H) as Hi.
  destruct Hi as [[_ Hs]|(p & s1 & src & _ & _ & Hm)].
  - pose proof (ValidateSource_fail_code _ _ _ Hs) as Hc.
    revert Hc. generalize (statusCode s'). intros c Hc.
    repeat (apply elem_of_cons in Hc as [->|Hc]; [in_codes|]).
    by apply elem_of_nil in Hc.
  - repeat case_match; simplify_eq; simpl; in_codes.
Qed.

Lemma ValidateInput_fail_code k s s' :
  ValidateInput k s = Some (None, s') →
  statusCode s' ∈ [MissingRequestData; MissingRequestParameter;
                   InvalidRequestParameterType; RequestParameterEmpty;
                   ResourceNotFound; InvalidResourceType].
Proof.
  intros H. pose proof (ValidateInput_inv _ _ _ _ H) as Hi.
  destruct Hi as [[_ Hs]|(p & s1 & src & _ & _ & Hm)].
  - pose proof (ValidateSource_fail_code _ _ _ Hs) as Hc.
    revert Hc. generalize (statusCode s'). intros c Hc.
    repeat (apply elem_of_cons in Hc as [->|Hc]; [in_codes|]).
    by apply elem_of_nil in Hc.
  - repeat case_match; simplify_eq; simpl; in_codes.
Qed.

(** Each validator fails with one of a few status codes only.  The
    typed checks never report a resource error, ValidateNumber never
    reports RequestParameterEmpty and the other typed checks never
    RequestParameterOutOfRange; ValidateSource never reports
    RequestParameterOutOfRange or InvalidResourceType; and once the scene
    is resolved, ValidateSceneItem fails with MissingRequestParameter,
    InvalidRequestParameterType, RequestParameterOutOfRange or
    ResourceNotFound. *)
Theorem failure_status_codes k k2 minValue maxValue allowEmpty filter s s' :
  (ValidateBasic k s = Some (false, s') →
     statusCode s' ∈ [MissingRequestData; MissingRequestParameter]) ∧
  (ValidateNumber k minValue maxValue s = Some (false, s') →
     statusCode s' ∈ [MissingRequestData; MissingRequestParameter;
                      InvalidRequestParameterType; RequestParameterOutOfRange]) ∧
  (ValidateString k allowEmpty s = Some (false, s') →
     statusCode s' ∈ [MissingRequestData; MissingRequestParameter;
                      InvalidRequestParameterType; RequestParameterEmpty]) ∧
  (ValidateBoolean k s = Some (false, s') →
     statusCode s' ∈ [MissingRequestData; MissingRequestParameter;
                      InvalidRequestParameterType]) ∧
  (ValidateObject k allowEmpty s = Some (false, s') →
     statusCode s' ∈ [MissingRequestData; MissingRequestParameter;
                      InvalidRequestParameterType; RequestParameterEmpty]) ∧
  (ValidateArray k allowEmpty s = Some (false, s') →
     statusCode s' ∈ [MissingRequestData; MissingRequestParameter;
                      InvalidRequestParameterType; RequestParameterEmpty]) ∧
  (ValidateSource k s = Some (None, s') →
     statusCode s' ∈ [MissingRequestData; MissingRequestParameter;
                      InvalidRequestParameterType; RequestParameterEmpty;
                      ResourceNotFound]) ∧
  (ValidateScene k filter s = Some (None, s') ∨
   ValidateInput k s = Some (None, s') →
     statusCode s' ∈ [MissingRequestData; MissingRequestParameter;
                      InvalidRequestParameterType; RequestParameterEmpty;
                      ResourceNotFound; InvalidResourceType]) ∧
  (∀ p s1, ValidateScene k filter s = Some (Some p, s1) →
     ValidateSceneItem k k2 filter s = Some (None, s') →
     statusCode s' ∈ [MissingRequestParameter; InvalidRequestParameterType;
                      RequestParameterOutOfRange; ResourceNotFound]).
Proof.
  split_and!.
  - intros H. destruct (ValidateBasic_fail_code _ _ _ H) as [-> | ->]; in_codes.
  - apply ValidateNumber_fail_code.
  - apply ValidateString_fail_code.
  - apply ValidateBoolean_fail_code.
  - apply ValidateObject_fail_code.
  - apply ValidateArray_fail_code.
  - apply ValidateSource_fail_code.
  - intros [H|H]; [by eapply ValidateScene_fail_code|by eapply ValidateInput_fail_code].
  - intros p s1 Hs H. pose proof (ValidateSceneItem_inv _ _ _ _ _ _ H) as Hi.
    destruct Hi as [[_ Hs']|(p' & s1' & Hs' & _ & Hcase)]; [congruence|].
    destruct (ValidateScene_some _ _ _ _ _ Hs') as (_ & src & _ & (name & Hname & _) & _).
    pose proof (json_at_HasRequestData _ _ Hname) as Hd.
    destruct Hcase as [[_ (s3 & Hn & Hc & _)]
                      |(_ & src' & idv & id & name' & _ & _ & _ & _ & _ & Hslots)].
    + pose proof (ValidateNumber_fail_code_data _ _ _ _ _ Hd Hn) as Hin.
      rewrite <- Hc in Hin.
      revert Hin. generalize (statusCode s'). intros c Hin.
      repeat (apply elem_of_cons in Hin as [->|Hin]; [in_codes|]).
      by apply elem_of_nil in Hin.
    + destruct Hslots as [-> _]. in_codes.
Qed.

Lemma find_source_first l name p :
  find_source l name = Some p →
  ∀ j x, (j < p)%nat → l !! j = Some x → source_name x ≠ name.
Proof.
  revert p. induction l as [|y l IH]; intros p; simpl; [done|].
  destruct (String.eqb (source_name y) name) eqn:E.
  - intros [= <-] j x Hj. lia.
  - destruct (find_source l name) as [q|]; simpl; [|done].
    intros [= <-] [|j] x Hj; simpl.
    + intros [= <-]. by apply String.eqb_neq.
    + apply (IH q eq_refl). lia.
Qed.

Lemma find_source_none l name :
  find_source l name = None → ∀ x, x ∈ l → source_name x ≠ name.
Proof.
  induction l as [|y l IH]; simpl; [by intros _ x ?%elem_of_nil|].
  destruct (String.eqb (source_name y) name) eqn:E; [done|].
  destruct (find_source l name) as [q|]; simpl; [done|].
  intros _ x [->|Hx]%elem_of_cons; [by apply String.eqb_neq|by apply IH].
Qed.

Lemma find_item_first l id i :
  find_item l id = Some i →
  ∀ j, (j < i)%nat → l !! j ≠ Some id.
Proof.
  revert i. induction l as [|y l IH]; intros i; simpl; [done|].
  destruct (y =? id) eqn:E.
  - intros [= <-] j Hj. lia.
  - destruct (find_item l id) as [q|]; simpl; [|done].
    intros [= <-] [|j] Hj; simpl.
    + intros [= ->]. by rewrite Z.eqb_refl in E.
    + apply (IH q eq_refl). lia.
Qed.

Lemma find_item_none l id : find_item l id = None → id ∉ l.
Proof.
  induction l as [|y l IH]; simpl; [by intros _ ?%elem_of_nil|].
  destruct (y =? id) eqn:E; [done|].
  destruct (find_item l id) as [q|]; simpl; [done|].
  intros _ [->|Hx]%elem_of_cons; [by rewrite Z.eqb_refl in E|by apply IH].
Qed.

(** ValidateSource returns a source exactly when the key holds a string
    that is not empty and libobs has a source whose name is that string
    read as a C string; the source returned is the first one of that
    name.  The empty string is reported as RequestParameterEmpty, and a
    name that no source has as ResourceNotFound, with the whole string in
    the comment; neither changes libobs. *)
Theorem ValidateSource_resolves k s :
  (∀ p, (∃ s', ValidateSource k s = Some (Some p, s')) ↔
        ∃ name, json_at (RequestData this) k = Some (Jstring name) ∧ name ≠ "" ∧
                find_source (sources (obs s)) (c_str name) = Some p) ∧
  (∀ p s', ValidateSource k s = Some (Some p, s') →
     ∃ src name,
       sources (obs s) !! p = Some src ∧
       json_at (RequestData this) k = Some (Jstring name) ∧
       source_name src = c_str name ∧
       ∀ j x, (j < p)%nat → sources (obs s) !! j = Some x →
              source_name x ≠ c_str name) ∧
  (json_at (RequestData this) k = Some (Jstring "") →
     ValidateSource k s
     = Some (None, with_slots RequestParameterEmpty
                     ("The parameter `" +:+ k +:+ "` must not be empty.") s)) ∧
  (∀ name, json_at (RequestData this) k = Some (Jstring name) → name ≠ "" →
     (∀ x, x ∈ sources (obs s) → source_name x ≠ c_str name) →
     ValidateSource k s = Some (None, with_slots ResourceNotFound (not_found name) s) ∧
     mentions (not_found name) name).
Proof.
  split_and!.
  - intros p. split.
    + intros [s' H]. pose proof (ValidateSource_inv _ _ _ _ H) as Hi.
      destruct Hi as [[? _]|(name & Hv & Hne & Hm)]; [done|].
      exists name. split_and!; [done..|].
      destruct (find_source (sources (obs s)) (c_str name)); destruct Hm; congruence.
    + intros (name & Hv & Hne & Hf). rewrite (ValidateSource_run _ _ _ Hv Hne), Hf.
      eauto.
  - intros p s' H. pose proof (ValidateSource_inv _ _ _ _ H) as Hi.
    destruct Hi as [[? _]|(name & Hv & Hne & Hm)]; [done|].
    destruct (find_source (sources (obs s)) (c_str name)) as [q|] eqn:Hf;
      [|by destruct Hm].
    destruct Hm as [[= ->] _].
    destruct (find_source_lookup _ _ _ Hf) as (src & Hl & Hsrc).
    exists src, name. split_and!; [done..|].
    by apply find_source_first.
  - intros Hv. apply ValidateSource_string_fail.
    by rewrite (ValidateString_run _ _ _ _ Hv).
  - intros name Hv Hne Hnone. split; [|apply mentions_middle].
    rewrite (ValidateSource_run _ _ _ Hv Hne).
    destruct (find_source (sources (obs s)) (c_str name)) as [p|] eqn:Hf; [|done].
    destruct (find_source_lookup _ _ _ Hf) as (src & Hl & Hsrc).
    destruct (Hnone src); [|done]. by eapply list_elem_of_lookup_2.
Qed.

(** Once the key resolves to a source, ValidateInput returns it exactly
    when it is of the input type; a source of any other type is given
    back to libobs and reported as InvalidResourceType. *)
Theorem ValidateInput_kind k s p s1 src :
  ValidateSource k s = Some (Some p, s1) →
  sources (obs s1) !! p = Some src →
  (source_type src = OBS_SOURCE_TYPE_INPUT →
     ValidateInput k s = Some (Some p, s1)) ∧
  (source_type src ≠ OBS_SOURCE_TYPE_INPUT →
     ∃ s', ValidateInput k s = Some (None, s') ∧
           statusCode s' = InvalidResourceType ∧
           comment s' = "The specified source is not an input." ∧
           same_refs (obs s) (obs s')).
Proof.
  intros Hs Hl. rewrite (ValidateInput_run _ _ _ _ _ Hs Hl). split.
  - intros Ht. by rewrite bool_decide_eq_true_2.
  - intros Ht. rewrite bool_decide_eq_false_2 by done. simpl.
    eexists. split_and!; [done..|]. simpl.
    destruct (ValidateSource_some _ _ _ _ Hs) as [-> _]. simpl.
    apply same_refs_source_add_release.
Qed.

(** A key never passes both ValidateScene and ValidateInput, and never
    both the scene-only and the group-only filter; the filter that
    admits both returns a scene exactly when one of the two does. *)
Theorem scene_filters_partition k s :
  (∀ filter p q s1 s2,
     ValidateScene k filter s = Some (Some p, s1) →
     ValidateInput k s = Some (Some q, s2) → False) ∧
  (∀ p q s1 s2,
     ValidateScene k OBS_WEBSOCKET_SCENE_FILTER_SCENE_ONLY s = Some (Some p, s1) →
     ValidateScene k OBS_WEBSOCKET_SCENE_FILTER_GROUP_ONLY s = Some (Some q, s2) →
     False) ∧
  (∀ p s1,
     ValidateScene k OBS_WEBSOCKET_SCENE_FILTER_SCENE_OR_GROUP s = Some (Some p, s1) ↔
     ValidateScene k OBS_WEBSOCKET_SCENE_FILTER_SCENE_ONLY s = Some (Some p, s1) ∨
     ValidateScene k OBS_WEBSOCKET_SCENE_FILTER_GROUP_ONLY s = Some (Some p, s1)).
Proof.
  split_and!.
  - intros filter p q s1 s2 H1 H2.
    destruct (ValidateScene_some _ _ _ _ _ H1) as (_ & src1 & Hl1 & _ & Hf1 & Ht1 & _).
    destruct (ValidateInput_some _ _ _ _ H2) as (_ & src2 & Hl2 & (n2 & Hv2 & Hn2) & Hf2 & Ht2).
    pose proof (ValidateScene_inv _ _ _ _ _ H1) as Hi1.
    destruct Hi1 as [[? _]|(p1 & t1 & src1' & Hs1 & _ & _)]; [done|].
    pose proof (ValidateInput_inv _ _ _ _ H2) as Hi2.
    destruct Hi2 as [[? _]|(p2 & t2 & src2' & Hs2 & _ & _)]; [done|].
    assert (p1 = p) as ->.
    { destruct (ValidateSource_some _ _ _ _ Hs1) as (-> & _).
      pose proof (ValidateScene_some _ _ _ _ _ H1) as [E _].
      destruct (ValidateScene_inv _ _ _ _ _ H1) as [[? _]|(p' & t' & src' & Hs' & _ & Hm)];
        [done|].
      assert (p' = p1) as -> by congruence.
      repeat case_match; simplify_eq; done. }
    assert (p2 = q) as ->.
    { destruct (ValidateInput_inv _ _ _ _ H2) as [[? _]|(p' & t' & src' & Hs' & _ & Hm)];
        [done|].
      assert (p' = p2) as -> by congruence.
      repeat case_match; simplify_eq; done. }
    assert (p = q) as -> by congruence.
    congruence.
  - intros p q s1 s2 H1 H2.
    destruct (ValidateScene_some _ _ _ _ _ H1) as (_ & src1 & Hl1 & _ & _ & _ & Hg1 & _).
    destruct (ValidateScene_some _ _ _ _ _ H2) as (_ & src2 & Hl2 & _ & _ & _ & _ & Hg2).
    pose proof (ValidateScene_inv _ _ _ _ _ H1) as Hi1.
    destruct Hi1 as [[? _]|(p1 & t1 & src1' & Hs1 & _ & Hm1)]; [done|].
    pose proof (ValidateScene_inv _ _ _ _ _ H2) as Hi2.
    destruct Hi2 as [[? _]|(p2 & t2 & src2' & Hs2 & _ & Hm2)]; [done|].
    assert (p1 = p) as -> by (repeat case_match; simplify_eq; done).
    assert (p2 = q) as -> by (repeat case_match; simplify_eq; done).
    assert (p = q) as -> by congruence.
    assert (src1 = src2) as -> by congruence.
    specialize (Hg1 eq_refl). specialize (Hg2 eq_refl). congruence.
  - intros p s1. split.
    + intros H.
      destruct (ValidateScene_some _ _ _ _ _ H)
        as (-> & src & Hl & (name & Hv & Hn) & Hf & Ht & _).
      pose proof (ValidateScene_inv _ _ _ _ _ H) as Hi.
      destruct Hi as [[? _]|(p1 & t1 & src1 & Hs1 & Hl1 & _)]; [done|].
      destruct (ValidateSource_some _ _ _ _ Hs1) as (E & _).
      destruct (source_is_group src) eqn:Hg; [right|left].
      all: rewrite (ValidateScene_run _ _ _ _ _ _ Hs1 Hl1).
      all: pose proof (ValidateScene_run _ OBS_WEBSOCKET_SCENE_FILTER_SCENE_OR_GROUP
                         _ _ _ _ Hs1 Hl1) as Hrun; rewrite H in Hrun.
      all: destruct (bool_decide (source_type src1 = OBS_SOURCE_TYPE_SCENE));
             simpl in *; [|discriminate].
      all: injection Hrun as -> Hrun; subst t1.
      all: assert (src1 = src) as -> by (simpl in Hl1; congruence).
      all: by rewrite Hg.
    + intros [H|H].
      all: pose proof (ValidateScene_inv _ _ _ _ _ H) as Hi.
      all: destruct Hi as [[? _]|(p1 & t1 & src1 & Hs1 & Hl1 & Hm)]; [done|].
      all: rewrite (ValidateScene_run _ _ _ _ _ _ Hs1 Hl1).
      all: destruct (bool_decide (source_type src1 = OBS_SOURCE_TYPE_SCENE));
             simpl in *; [|discriminate].
      all: repeat case_match; simplify_eq; done.
Qed.

Lemma find_item_not_elem l id : id ∉ l → find_item l id = None.
Proof.
  intros Hn. destruct (find_item l id) as [i|] eqn:Hf; [|done].
  destruct Hn. eapply list_elem_of_lookup_2. by apply find_item_lookup.
Qed.

(** When the scene is resolved and the item id passes the number check,
    but the scene holds no item with the converted id, or the source
    gives no scene to search, ValidateSceneItem fails with
    ResourceNotFound; the comment holds the scene name as sent and the
    id, and no reference is kept. *)
Theorem ValidateSceneItem_not_found k k2 filter s p s1 src name idv id :
  ValidateScene k filter s = Some (Some p, s1) →
  sources (obs s) !! p = Some src →
  json_at (RequestData this) k = Some (Jstring name) →
  json_at (RequestData this) k2 = Some idv →
  is_number idv = true → ¬ json_negative idv →
  get_int64 idv = Some id →
  (∀ items, source_scene src = Some items → id ∉ items) →
  ∃ s', ValidateSceneItem k k2 filter s = Some (None, s') ∧
        statusCode s' = ResourceNotFound ∧
        comment s' = no_scene_item name id ∧
        mentions (no_scene_item name id) name ∧
        mentions (no_scene_item name id) (to_string_int64 id) ∧
        same_refs (obs s) (obs s').
Proof.
  intros Hs Hl Hname Hid Hnum Hneg Hget Hitems.
  assert (is_null idv = false) as Hn by (by destruct idv).
  destruct (get_double idv) as [x|] eqn:Hx; [|by destruct idv].
  assert (ValidateNumber k2 double_zero default_maxValue s1 = Some (true, s1)) as Hpass.
  { rewrite (ValidateNumber_run _ _ _ _ _ Hid Hn), Hx.
    by rewrite (json_not_negative_lt _ _ Hx Hneg), double_gt_INFINITY. }
  destruct (ValidateScene_some _ _ _ _ _ Hs) as (E & _).
  assert (sources (obs s1) !! p = Some src) as Hl1 by (by rewrite E).
  destruct (ValidateSceneItem_lookup _ _ _ _ _ _ _ _ _ _
              Hs Hpass Hl1 Hid Hget Hname) as (s' & Hrun & _ & Hslots).
  assert (source_scene src ≫= (λ items, find_item items id) = None) as Hnone.
  { destruct (source_scene src) as [items|]; [|done]. simpl.
    apply find_item_not_elem. by apply Hitems. }
  rewrite Hnone in Hrun, Hslots. simpl in Hrun. destruct Hslots as [Hc Hm].
  exists s'. split_and!; [done..| | |].
  - apply mentions_middle.
  - unfold no_scene_item.
    exists ("No scene items were found in scene `" +:+ name +:+ "` with the ID `"), "`.".
    by rewrite !append_assoc.
  - destruct (ValidateSceneItem_refs _ _ _ _ _ _ Hrun) as (H1 & H2 & H3).
    split_and!; [done..|]. intros j. rewrite H3. case_decide; [done|lia].
Qed.

(** The item ValidateSceneItem returns lies in the scene that the scene
    key resolves to, a source of the scene type that the filter admits
    and whose name is the string sent, read as a C string.  The item is
    the first one of that scene whose id is the item id sent, converted
    to a 64-bit signed integer, and the value sent is a number that is
    not negative. *)
Theorem ValidateSceneItem_returns_item k k2 filter s p i s' :
  ValidateSceneItem k k2 filter s = Some (Some (p, i), s') →
  ∃ src items name idv id,
    sources (obs s) !! p = Some src ∧
    source_type src = OBS_SOURCE_TYPE_SCENE ∧
    filter_admits filter (source_is_group src) ∧
    json_at (RequestData this) k = Some (Jstring name) ∧
    source_name src = c_str name ∧
    source_scene src = Some items ∧
    json_at (RequestData this) k2 = Some idv ∧
    is_number idv = true ∧ ¬ json_negative idv ∧
    get_int64 idv = Some id ∧
    items !! i = Some id ∧
    ∀ j, (j < i)%nat → items !! j ≠ Some id.
Proof.
  intros H. pose proof (ValidateSceneItem_inv _ _ _ _ _ _ H) as Hi.
  destruct Hi as [[? _]|(p' & s1 & Hs & _ & [[? _]|(Hn & src & idv & id & name
                          & Hl & Hid & Hget & Hname & Hr & _)])]; try done.
  destruct (ValidateScene_some _ _ _ _ _ Hs)
    as (E & src' & Hl' & (name' & Hname' & Hc) & _ & Ht & Ha1 & Ha2).
  assert (src' = src) as -> by (rewrite E in Hl; simpl in Hl; congruence).
  assert (name' = name) as -> by congruence.
  destruct (source_scene src) as [items|] eqn:Hsc; [|done]. simpl in Hr.
  destruct (find_item items id) as [i'|] eqn:Hf; [|done].
  injection Hr as -> ->.
  destruct (ValidateNumber_true _ _ _ _ _ Hn) as (_ & v & x & Hv & _ & Hx & Hlt & _).
  assert (v = idv) as -> by congruence.
  exists src, items, name, idv, id. split_and!; try done.
  - by eapply get_double_is_number.
  - intros Hneg. by rewrite (json_negative_lt _ _ Hx Hneg) in Hlt.
  - by apply find_item_lookup.
  - by apply find_item_first.
Qed.

(** ValidateSceneItem has no defined behaviour in one case only: the
    scene is resolved and the item id is a float that is not below zero
    and whose conversion to a 64-bit signed integer is undefined (a NaN,
    an infinity, or a value of 2^63 or more).  With an integer as item id
    it always returns. *)
Theorem ValidateSceneItem_undefined_iff k k2 filter s :
  (ValidateSceneItem k k2 filter s = None ↔
     ∃ p s1 f, ValidateScene k filter s = Some (Some p, s1) ∧
               json_at (RequestData this) k2 = Some (Jnumber_float f) ∧
               double_lt f double_zero = false ∧
               int64_of_double f = None) ∧
  (∀ z, json_at (RequestData this) k2 = Some (Jnumber_integer z) ∨
        json_at (RequestData this) k2 = Some (Jnumber_unsigned z) →
        ∃ r s', ValidateSceneItem k k2 filter s = Some (r, s')).
Proof.
  assert (ValidateSceneItem k k2 filter s = None →
     ∃ p s1 f, ValidateScene k filter s = Some (Some p, s1) ∧
               json_at (RequestData this) k2 = Some (Jnumber_float f) ∧
               double_lt f double_zero = false ∧
               int64_of_double f = None) as Hforward.
  { intros H. destruct (ValidateScene_total k filter s) as ([p|] & s1 & Hs).
    - destruct (ValidateNumber_total k2 double_zero default_maxValue s1)
        as ([|] & s3 & Hn).
      + destruct (ValidateNumber_true _ _ _ _ _ Hn)
          as (-> & idv & x & Hid & _ & Hx & Hlt & _).
        destruct (ValidateScene_some _ _ _ _ _ Hs)
          as (E & src & Hl & (name & Hname & _) & _).
        assert (sources (obs s1) !! p = Some src) as Hl1 by (by rewrite E).
        destruct (get_int64 idv) as [id|] eqn:Hget.
        * destruct (ValidateSceneItem_lookup _ _ _ _ _ _ _ _ _ _
                      Hs Hn Hl1 Hid Hget Hname) as (s'' & Hrun & _).
          congruence.
        * destruct idv; try discriminate. simpl in Hx, Hget.
          injection Hx as ->. by exists p, s1, x.
      + destruct (ValidateSceneItem_number_fail _ _ _ _ _ _ _ Hs Hn)
          as (s'' & Hrun & _). congruence.
    - rewrite (ValidateSceneItem_scene_fail _ _ _ _ _ Hs) in H. discriminate. }
  split.
  - split; [done|].
    intros (p & s1 & f & Hs & Hid & Hlt & Hcast).
    eapply ValidateSceneItem_undefined; [done| |done|done].
    rewrite (ValidateNumber_run _ _ _ _ _ Hid) by done. simpl.
    by rewrite Hlt, double_gt_INFINITY.
  - intros z Hz.
    destruct (ValidateSceneItem k k2 filter s) as [[r s']|] eqn:H; [eauto|].
    destruct (Hforward eq_refl) as (p & s1 & f & _ & Hid & _).
    destruct Hz; congruence.
Qed.

(** An unsigned item id of 2^63 or more passes the number check, and the
    id looked up in the scene is the id less 2^64, a negative number. *)
Theorem ValidateSceneItem_unsigned_wraps k k2 filter s p s1 z :
  ValidateScene k filter s = Some (Some p, s1) →
  json_at (RequestData this) k2 = Some (Jnumber_unsigned z) →
  2 ^ 63 ≤ z →
  ∃ src s', sources (obs s1) !! p = Some src ∧
    ValidateSceneItem k k2 filter s
    = Some (pair p <$> (source_scene src ≫= λ items, find_item items (z - 2 ^ 64)), s').
Proof.
  intros Hs Hid Hz.
  assert (ValidateNumber k2 double_zero default_maxValue s1 = Some (true, s1)) as Hpass.
  { rewrite (ValidateNumber_run _ _ _ _ _ Hid) by done. simpl.
    rewrite double_of_Z_nonnegative, double_gt_INFINITY; [done|lia]. }
  destruct (ValidateScene_some _ _ _ _ _ Hs) as (E & src & Hl & (name & Hname & _) & _).
  assert (sources (obs s1) !! p = Some src) as Hl1 by (by rewrite E).
  assert (get_int64 (Jnumber_unsigned z) = Some (z - 2 ^ 64)) as Hget.
  { simpl. unfold int64_of_uint64. by rewrite (proj2 (Z.ltb_ge _ _) Hz). }
  destruct (ValidateSceneItem_lookup _ _ _ _ _ _ _ _ _ _
              Hs Hpass Hl1 Hid Hget Hname) as (s' & Hrun & _).
  by exists src, s'.
Qed.

Lemma after_basic_true k (cont : exec bool) s s' :
  (ok ← ValidateBasic k; if negb ok then mret false else cont) s = Some (true, s') →
  ValidateBasic k s = Some (true, s).
Proof.
  intros H. destruct (ValidateBasic_cases k s) as [Hb|[Hb|(v & _ & _ & Hb)]]; [| |done].
  all: rewrite (after_basic_fail _ _ _ _ Hb) in H; discriminate.
Qed.

(** A validator succeeds only if the validators it builds on succeed in
    the same state: a typed check only if ValidateBasic does,
    ValidateSource only if ValidateString with empty strings disallowed
    does, ValidateScene and ValidateInput only if ValidateSource returns
    the same source, and ValidateSceneItem only if ValidateScene returns
    the scene of the item and ValidateNumber accepts the item id from
    zero upwards. *)
Theorem success_chain k k2 minValue maxValue allowEmpty filter s s' :
  (ValidateNumber k minValue maxValue s = Some (true, s') ∨
   ValidateString k allowEmpty s = Some (true, s') ∨
   ValidateBoolean k s = Some (true, s') ∨
   ValidateObject k allowEmpty s = Some (true, s') ∨
   ValidateArray k allowEmpty s = Some (true, s') →
     ValidateBasic k s = Some (true, s)) ∧
  (∀ p, ValidateSource k s = Some (Some p, s') →
     ValidateString k default_allowEmpty s = Some (true, s)) ∧
  (∀ p, ValidateScene k filter s = Some (Some p, s') ∨
        ValidateInput k s = Some (Some p, s') →
     ValidateSource k s = Some (Some p, s')) ∧
  (∀ p i, ValidateSceneItem k k2 filter s = Some (Some (p, i), s') →
     (∃ s1, ValidateScene k filter s = Some (Some p, s1)) ∧
     ValidateNumber k2 double_zero default_maxValue s = Some (true, s)).
Proof.
  split_and!.
  - intros [H|[H|[H|[H|H]]]]; by eapply after_basic_true.
  - intros p H. pose proof (ValidateSource_inv _ _ _ _ H) as Hi.
    destruct Hi as [[? _]|(name & Hv & Hne & _)]; [done|].
    rewrite (ValidateString_run _ _ _ _ Hv) by done. simpl.
    by rewrite bool_decide_eq_false_2.
  - intros p [H|H].
    + destruct (ValidateScene_some _ _ _ _ _ H) as (-> & src & Hl & (name & Hv & Hc) & Hf & _).
      pose proof (ValidateScene_inv _ _ _ _ _ H) as Hi.
      destruct Hi as [[? _]|(p1 & s1 & src1 & Hs & _ & Hm)]; [done|].
      assert (p1 = p) as -> by (repeat case_match; simplify_eq; done).
      by destruct (ValidateSource_some _ _ _ _ Hs) as (<- & _).
    + destruct (ValidateInput_some _ _ _ _ H) as (-> & _).
      pose proof (ValidateInput_inv _ _ _ _ H) as Hi.
      destruct Hi as [[? _]|(p1 & s1 & src1 & Hs & _ & Hm)]; [done|].
      assert (p1 = p) as -> by (repeat case_match; simplify_eq; done).
      by destruct (ValidateSource_some _ _ _ _ Hs) as (<- & _).
  - intros p i H. pose proof (ValidateSceneItem_inv _ _ _ _ _ _ H) as Hi.
    destruct Hi as [[? _]|(p' & s1 & Hs & _ & [[? _]|(Hn & src & idv & id & name
                            & _ & _ & _ & _ & Hr & _)])]; try done.
    assert (p' = p) as ->.
    { destruct (source_scene src ≫= λ items, find_item items id); [|done].
      by injection Hr as -> _. }
    split; [by exists s1|]. by eapply ValidateNumber_pass_any.
Qed.

Lemma ValidateSceneItem_result_any_slots k k2 filter s r s' c0 msg0 :
  ValidateSceneItem k k2 filter s = Some (r, s') →
  ∃ s0', ValidateSceneItem k k2 filter (with_slots c0 msg0 s) = Some (r, s0').
Proof.
  intros H. pose proof (ValidateSceneItem_inv _ _ _ _ _ _ H) as Hi.
  destruct (settles_slots _ (ValidateScene_settles k filter) s s') as [_ Hnone].
  destruct Hi as [[-> Hs]|(p & s1 & Hs & _ & Hcase)].
  - exists s'. apply ValidateSceneItem_scene_fail. by apply Hnone.
  - destruct (ValidateScene_settles k filter (obs s)) as (v & o' & Hv).
    pose proof (Hv s eq_refl) as E. rewrite Hs in E. injection E as E.
    symmetry in E. destruct (settle_some _ _ _ _ _ E) as [-> ->].
    pose proof (Hv (with_slots c0 msg0 s) eq_refl) as Hs0. simpl in Hs0.
    destruct Hcase as [[-> (s3 & Hn & _)]
                      |(Hn & src & idv & id & name & Hl & Hid & Hget & Hname & -> & _)].
    + pose proof (ValidateNumber_fail_any _ _ _ _ _
                    (CallState c0 msg0 o') Hn) as Hn0.
      destruct (ValidateSceneItem_number_fail _ _ _ _ _ _ _ Hs0 Hn0)
        as (s0' & Hrun & _).
      by exists s0'.
    + pose proof (ValidateNumber_pass_any _ _ _ _ _
                    (CallState c0 msg0 o') Hn) as Hn0.
      destruct (ValidateSceneItem_lookup _ _ _ _ _ _ _ _ _ _
                  Hs0 Hn0 Hl Hid Hget Hname) as (s0' & Hrun & _).
      by exists s0'.
Qed.

(** The resource validators never read the slots of the caller: whether
    a handle is returned, and which one, is the same whatever the status
    code and the comment hold on entry, so a caller may pass them
    uninitialised. *)
Theorem resource_checks_ignore_slots k k2 filter s c0 msg0 :
  fst <$> ValidateSource k (with_slots c0 msg0 s) = fst <$> ValidateSource k s ∧
  fst <$> ValidateScene k filter (with_slots c0 msg0 s)
    = fst <$> ValidateScene k filter s ∧
  fst <$> ValidateInput k (with_slots c0 msg0 s) = fst <$> ValidateInput k s ∧
  fst <$> ValidateSceneItem k k2 filter (with_slots c0 msg0 s)
    = fst <$> ValidateSceneItem k k2 filter s.
Proof.
  split_and!.
  - destruct (ValidateSource_settles k (obs s)) as (v & o' & H).
    rewrite (H s eq_refl), (H (with_slots c0 msg0 s) eq_refl). by destruct v.
  - destruct (ValidateScene_settles k filter (obs s)) as (v & o' & H).
    rewrite (H s eq_refl), (H (with_slots c0 msg0 s) eq_refl). by destruct v.
  - destruct (ValidateInput_settles k (obs s)) as (v & o' & H).
    rewrite (H s eq_refl), (H (with_slots c0 msg0 s) eq_refl). by destruct v.
  - destruct (ValidateSceneItem k k2 filter s) as [[r s']|] eqn:H.
    + destruct (ValidateSceneItem_result_any_slots _ _ _ _ _ _ c0 msg0 H) as (s0' & ->).
      done.
    + destruct (ValidateSceneItem k k2 filter (with_slots c0 msg0 s))
        as [[r s']|] eqn:H0; [|done].
      destruct (ValidateSceneItem_result_any_slots _ _ _ _ _ _
                  (statusCode s) (comment s) H0) as (s0' & H1).
      unfold with_slots in H1. simpl in H1. rewrite call_state_eta in H1. congruence.
Qed.

(** ** Integers below 2^53 convert exactly *)

Lemma iter_xO_value p k : Z.pos (Pos.iter xO p k) = Z.pos p * 2 ^ Z.pos k.
Proof.
  induction k as [|k IH] using Pos.peano_ind.
  - simpl. lia.
  - rewrite Pos.iter_succ, Pos2Z.inj_xO, IH, Pos2Z.inj_succ, Z.pow_succ_r by lia. lia.
Qed.

Lemma iter_xO_digits p k :
  Z.pos (digits2_pos (Pos.iter xO p k)) = Z.pos (digits2_pos p) + Z.pos k.
Proof.
  induction k as [|k IH] using Pos.peano_ind.
  - simpl. lia.
  - rewrite Pos.iter_succ. simpl digits2_pos. rewrite Pos2Z.inj_succ, IH. lia.
Qed.

Lemma binary_round_aux_exact s m e :
  Z.pos (digits2_pos m) = 53 → -1074 ≤ e ≤ 971 →
  binary_round_aux prec emax s (Z.pos m) e loc_Exact = S754_finite s m e.
Proof.
  intros Hd He. unfold binary_round_aux, shr_fexp, shr.
  assert (fexp prec emax (Zdigits2 (Z.pos m) + e) - e = 0) as ->.
  { simpl Zdigits2. unfold fexp, SpecFloat.emin, prec, emax. lia. }
  simpl.
  assert (fexp prec emax (Z.pos (digits2_pos m) + e) - e = 0) as ->.
  { unfold fexp, SpecFloat.emin, prec, emax. lia. }
  simpl. unfold emax, prec. by rewrite (proj2 (Z.leb_le _ _)) by lia.
Qed.

(** A positive integer below 2^53 becomes the float with the same value
    and a mantissa of 53 bits. *)
Lemma binary_round_integer s p :
  Z.pos p < 2 ^ 53 →
  ∃ m, binary_round prec emax s p 0
       = S754_finite s m (Z.pos (digits2_pos p) - 53) ∧
       Z.pos m * 2 ^ Z.pos (digits2_pos p) = Z.pos p * 2 ^ 53.
Proof.
  intros Hp. pose proof (digits2_pos_bounds p) as [Hlo Hhi].
  assert (Z.pos (digits2_pos p) ≤ 53) as Hd.
  { destruct (Z.le_gt_cases (Z.pos (digits2_pos p)) 53) as [|Hgt]; [done|].
    assert (2 ^ 53 ≤ 2 ^ (Z.pos (digits2_pos p) - 1))
      by (apply Z.pow_le_mono_r; lia). lia. }
  unfold binary_round, shl_align.
  assert (fexp prec emax (Z.pos (digits2_pos p) + 0) = Z.pos (digits2_pos p) - 53) as ->
    by (unfold fexp, SpecFloat.emin, prec, emax; lia).
  destruct (Z.pos (digits2_pos p) - 53 - 0) as [|k|k] eqn:Hk; [|lia|].
  - exists p. assert (Z.pos (digits2_pos p) = 53) as E by lia.
    rewrite binary_round_aux_exact by (done || lia).
    rewrite E. split; [done|lia].
  - exists (Pos.iter xO p k).
    rewrite binary_round_aux_exact; [|rewrite iter_xO_digits; lia|lia].
    split; [done|]. rewrite iter_xO_value.
    rewrite <- Z.mul_assoc, <- Z.pow_add_r by lia. do 2 f_equal. lia.
Qed.

Lemma compare_positive_floats p1 p2 m1 m2 :
  Z.pos m1 * 2 ^ Z.pos (digits2_pos p1) = Z.pos p1 * 2 ^ 53 →
  Z.pos m2 * 2 ^ Z.pos (digits2_pos p2) = Z.pos p2 * 2 ^ 53 →
  match Z.pos (digits2_pos p1) - 53 ?= Z.pos (digits2_pos p2) - 53 with
  | Lt => Lt
  | Gt => Gt
  | Eq => Pos.compare_cont Eq m1 m2
  end = (Z.pos p1 ?= Z.pos p2).
Proof.
  intros H1 H2.
  pose proof (digits2_pos_bounds p1) as [Hlo1 Hhi1].
  pose proof (digits2_pos_bounds p2) as [Hlo2 Hhi2].
  set (d1 := Z.pos (digits2_pos p1)) in *. set (d2 := Z.pos (digits2_pos p2)) in *.
  destruct (Z.compare_spec (d1 - 53) (d2 - 53)) as [E|E|E].
  - assert (d1 = d2) as Ed by lia. rewrite Ed in H1.
    assert (0 < 2 ^ d2) by (apply Z.pow_pos_nonneg; lia).
    change (Pos.compare_cont Eq m1 m2) with (Z.pos m1 ?= Z.pos m2).
    destruct (Z.compare_spec (Z.pos p1) (Z.pos p2)) as [E'|E'|E'].
    + apply Z.compare_eq_iff. nia.
    + apply Z.compare_lt_iff. nia.
    + apply Z.compare_gt_iff. nia.
  - symmetry. apply Z.compare_lt_iff.
    assert (2 ^ d1 ≤ 2 ^ (d2 - 1)) by (apply Z.pow_le_mono_r; lia). lia.
  - symmetry. apply Z.compare_gt_iff.
    assert (2 ^ d2 ≤ 2 ^ (d1 - 1)) by (apply Z.pow_le_mono_r; lia). lia.
Qed.

(** Integers of magnitude below 2^53 compare as floats the way they
    compare as integers. *)
Lemma double_of_Z_compare a b :
  Z.abs a < 2 ^ 53 → Z.abs b < 2 ^ 53 →
  SFcompare (double_of_Z a) (double_of_Z b) = Some (a ?= b).
Proof.
  intros Ha Hb. unfold double_of_Z, binary_normalize.
  destruct a as [|p|p], b as [|q|q]; try done.
  all: repeat match goal with
       | |- context [binary_round prec emax ?s ?x 0] =>
           let m := fresh "m" in let E := fresh "E" in let V := fresh "V" in
           destruct (binary_round_integer s x ltac:(lia)) as (m & E & V);
           rewrite E; clear E
       end; simpl SFcompare; try done.
  - f_equal. by apply compare_positive_floats.
  - f_equal. change (Z.neg p ?= Z.neg q) with (CompOpp (Z.pos p ?= Z.pos q)).
    rewrite <- (compare_positive_floats p q m m0) by done.
    by destruct (_ ?= _).
Qed.


Lemma double_lt_of_Z a b :
  Z.abs a < 2 ^ 53 → Z.abs b < 2 ^ 53 →
  double_lt (double_of_Z a) (double_of_Z b) = bool_decide (a < b).
Proof.
  intros Ha Hb. unfold double_lt, SFltb. rewrite double_of_Z_compare by done.
  destruct (Z.compare_spec a b); case_bool_decide; (done || lia).
Qed.

Lemma double_gt_of_Z a b :
  Z.abs a < 2 ^ 53 → Z.abs b < 2 ^ 53 →
  double_gt (double_of_Z a) (double_of_Z b) = bool_decide (b < a).
Proof.
  intros Ha Hb. unfold double_gt. rewrite double_of_Z_compare by done.
  destruct (Z.compare_spec a b); case_bool_decide; (done || lia).
Qed.

(** For an integer value and integer bounds, all of magnitude below
    2^53, ValidateNumber decides the range as the integers compare: it
    succeeds exactly when [a <= z <= b], reports a value below [a] as
    below the minimum and a value from [a] upwards that exceeds [b] as
    above the maximum. *)
Theorem ValidateNumber_integer_range k a b z v s :
  json_at (RequestData this) k = Some v →
  v = Jnumber_integer z ∨ v = Jnumber_unsigned z →
  Z.abs z < 2 ^ 53 → Z.abs a < 2 ^ 53 → Z.abs b < 2 ^ 53 →
  (ValidateNumber k (double_of_Z a) (double_of_Z b) s = Some (true, s) ↔ a ≤ z ≤ b) ∧
  (z < a →
     ValidateNumber k (double_of_Z a) (double_of_Z b) s
     = Some (false, with_slots RequestParameterOutOfRange
                      (below_minimum k (to_string_double (double_of_Z a))) s)) ∧
  (a ≤ z → b < z →
     ValidateNumber k (double_of_Z a) (double_of_Z b) s
     = Some (false, with_slots RequestParameterOutOfRange
                      (above_maximum k (to_string_double (double_of_Z b))) s)).
Proof.
  intros Hv Hz Hzr Har Hbr.
  assert (is_null v = false) as Hn by (by destruct Hz as [-> | ->]).
  assert (get_double v = Some (double_of_Z z)) as Hx by (by destruct Hz as [-> | ->]).
  rewrite (ValidateNumber_run _ _ _ _ _ Hv Hn), Hx.
  rewrite double_lt_of_Z, double_gt_of_Z by done.
  split_and!.
  - repeat case_bool_decide; split; (done || lia).
  - intros H. by rewrite bool_decide_eq_true_2.
  - intros H1 H2. rewrite bool_decide_eq_false_2 by lia.
    by rewrite bool_decide_eq_true_2.
Qed.

(** Normalising the payload changes no lookup: every key is contained
    in, and found with the same value in, the normalised data exactly as
    in the payload.  Normalising twice is normalising once, so a request
    built from normalised data is the request built from the payload. *)
Theorem GetDefaultJsonObject_idempotent session requestType j k :
  GetDefaultJsonObject (GetDefaultJsonObject j) = GetDefaultJsonObject j ∧
  contains (GetDefaultJsonObject j) k = contains j k ∧
  json_at (GetDefaultJsonObject j) k = json_at j k ∧
  Request_new session requestType (GetDefaultJsonObject j)
    = Request_new session requestType j.
Proof.
  assert (GetDefaultJsonObject (GetDefaultJsonObject j) = GetDefaultJsonObject j) as H
    by (by destruct j).
  split_and!; [done|by destruct j..|].
  unfold Request_new. by rewrite H.
Qed.

Lemma ValidateInput_resolves k s name p src :
  json_at (RequestData this) k = Some (Jstring name) → name ≠ "" →
  find_source (sources (obs s)) (c_str name) = Some p →
  sources (obs s) !! p = Some src →
  source_type src = OBS_SOURCE_TYPE_INPUT →
  ValidateInput k s
  = Some (Some p, CallState (statusCode s) (comment s) (source_refs_add 1 p (obs s))).
Proof.
  intros Hv Hne Hf Hl Ht.
  pose proof (ValidateSource_run _ _ s Hv Hne) as Hs. rewrite Hf in Hs.
  rewrite (ValidateInput_run _ _ _ _ src Hs) by done.
  by rewrite bool_decide_eq_true_2.
Qed.

Lemma ValidateSource_some_name k s p s' :
  ValidateSource k s = Some (Some p, s') →
  ∃ name, json_at (RequestData this) k = Some (Jstring name) ∧ name ≠ "" ∧
          find_source (sources (obs s)) (c_str name) = Some p.
Proof.
  intros H. pose proof (ValidateSource_inv _ _ _ _ H) as Hi.
  destruct Hi as [[? _]|(name & Hv & Hne & Hm)]; [done|].
  exists name. split_and!; [done..|].
  destruct (find_source (sources (obs s)) (c_str name)); destruct Hm; congruence.
Qed.

(** ValidateScene returns a source exactly when the key holds a string
    that is not empty, the first source of that name is of the scene
    type and the filter admits it; ValidateInput exactly when the first
    source of that name is of the input type. *)
Theorem scene_and_input_resolve k filter s p :
  ((∃ s', ValidateScene k filter s = Some (Some p, s')) ↔
     ∃ name src,
       json_at (RequestData this) k = Some (Jstring name) ∧ name ≠ "" ∧
       find_source (sources (obs s)) (c_str name) = Some p ∧
       sources (obs s) !! p = Some src ∧
       source_type src = OBS_SOURCE_TYPE_SCENE ∧
       filter_admits filter (source_is_group src)) ∧
  ((∃ s', ValidateInput k s = Some (Some p, s')) ↔
     ∃ name src,
       json_at (RequestData this) k = Some (Jstring name) ∧ name ≠ "" ∧
       find_source (sources (obs s)) (c_str name) = Some p ∧
       sources (obs s) !! p = Some src ∧
       source_type src = OBS_SOURCE_TYPE_INPUT).
Proof.
  split; split.
  - intros [s' H].
    destruct (ValidateScene_some _ _ _ _ _ H) as (_ & src & Hl & _ & _ & Ht & Ha).
    pose proof (ValidateScene_inv _ _ _ _ _ H) as Hi.
    destruct Hi as [[? _]|(p1 & s1 & src1 & Hs & _ & Hm)]; [done|].
    assert (p1 = p) as -> by (repeat case_match; simplify_eq; done).
    destruct (ValidateSource_some_name _ _ _ _ Hs) as (name & Hv & Hne & Hf).
    by exists name, src.
  - intros (name & src & Hv & Hne & Hf & Hl & Ht & Ha).
    rewrite (ValidateScene_resolves _ filter s _ _ _ Hv Hne Hf Hl Ht Ha). eauto.
  - intros [s' H].
    destruct (ValidateInput_some _ _ _ _ H) as (_ & src & Hl & _ & _ & Ht).
    pose proof (ValidateInput_inv _ _ _ _ H) as Hi.
    destruct Hi as [[? _]|(p1 & s1 & src1 & Hs & _ & Hm)]; [done|].
    assert (p1 = p) as -> by (repeat case_match; simplify_eq; done).
    destruct (ValidateSource_some_name _ _ _ _ Hs) as (name & Hv & Hne & Hf).
    by exists name, src.
  - intros (name & src & Hv & Hne & Hf & Hl & Ht).
    rewrite (ValidateInput_resolves _ s _ _ _ Hv Hne Hf Hl Ht). eauto.
Qed.

(** ValidateSceneItem returns the item at position [i] of the scene [p]
    exactly when ValidateScene resolves the scene key to [p], the item id
    is a number that is not negative and converts to a 64-bit signed
    integer, and the first item of the scene with the converted id is at
    position [i]. *)
Theorem ValidateSceneItem_succeeds_iff k k2 filter s p i :
  (∃ s', ValidateSceneItem k k2 filter s = Some (Some (p, i), s')) ↔
  ∃ s1 src items idv id,
    ValidateScene k filter s = Some (Some p, s1) ∧
    sources (obs s) !! p = Some src ∧
    source_scene src = Some items ∧
    json_at (RequestData this) k2 = Some idv ∧
    is_number idv = true ∧ ¬ json_negative idv ∧
    get_int64 idv = Some id ∧
    find_item items id = Some i.
Proof.
  split.
  - intros [s' H]. pose proof (ValidateSceneItem_inv _ _ _ _ _ _ H) as Hi.
    destruct Hi as [[? _]|(p' & s1 & Hs & _ & [[? _]|(Hn & src & idv & id & name
                            & Hl & Hid & Hget & Hname & Hr & _)])]; try done.
    destruct (ValidateScene_some _ _ _ _ _ Hs) as (E & _).
    destruct (source_scene src) as [items|] eqn:Hsc; [|done]. simpl in Hr.
    destruct (find_item items id) as [i'|] eqn:Hf; [|done].
    injection Hr as -> ->.
    destruct (ValidateNumber_true _ _ _ _ _ Hn) as (_ & v & x & Hv & _ & Hx & Hlt & _).
    assert (v = idv) as -> by congruence.
    exists s1, src, items, idv, id. split_and!; try done.
    + rewrite E in Hl. done.
    + by eapply get_double_is_number.
    + intros Hneg. by rewrite (json_negative_lt _ _ Hx Hneg) in Hlt.
  - intros (s1 & src & items & idv & id & Hs & Hl & Hsc & Hid & Hnum & Hneg & Hget & Hf).
    assert (is_null idv = false) as Hn by (by destruct idv).
    destruct (get_double idv) as [x|] eqn:Hx; [|by destruct idv].
    assert (ValidateNumber k2 double_zero default_maxValue s1 = Some (true, s1)) as Hpass.
    { rewrite (ValidateNumber_run _ _ _ _ _ Hid Hn), Hx.
      by rewrite (json_not_negative_lt _ _ Hx Hneg), double_gt_INFINITY. }
    destruct (ValidateScene_some _ _ _ _ _ Hs) as (E & src' & Hl' & (name & Hname & _) & _).
    assert (sources (obs s1) !! p = Some src) as Hl1 by (by rewrite E).
    destruct (ValidateSceneItem_lookup _ _ _ _ _ _ _ _ _ _
                Hs Hpass Hl1 Hid Hget Hname) as (s' & Hrun & _).
    rewrite Hsc in Hrun. simpl in Hrun. rewrite Hf in Hrun. by exists s'.
Qed.

End Validators.

(** * Constructed requests and worked examples *)

(** C3. The request data of a constructed request is the payload when
    the payload is an object and the empty object otherwise, so it is
    always an object.  ValidateBasic on a constructed request either
    succeeds or fails with MissingRequestParameter, never with
    MissingRequestData; on the empty object, and on every payload that is
    not an object, it fails with MissingRequestParameter. *)
Theorem Request_new_data_is_mapping session requestType raw k s :
  RequestData (Request_new session requestType raw)
    = (if is_object raw then raw else Jobject []) ∧
  is_object (RequestData (Request_new session requestType raw)) = true ∧
  (ValidateBasic (Request_new session requestType raw) k s = Some (true, s) ∨
   ValidateBasic (Request_new session requestType raw) k s
   = Some (false, with_slots MissingRequestParameter (missing_parameter k) s)) ∧
  ValidateBasic (Request_new session requestType (Jobject [])) k s
    = Some (false, with_slots MissingRequestParameter (missing_parameter k) s) ∧
  (if is_object raw then True
   else ValidateBasic (Request_new session requestType raw) k s
        = Some (false, with_slots MissingRequestParameter (missing_parameter k) s)).
Proof.
  assert (is_object (RequestData (Request_new session requestType raw)) = true) as Hobj.
  { simpl. unfold GetDefaultJsonObject. by destruct raw. }
  split_and!.
  - simpl. unfold GetDefaultJsonObject. by destruct (is_object raw).
  - done.
  - set (r := Request_new session requestType raw) in *.
    destruct (json_at (RequestData r) k) as [v|] eqn:Hv.
    + destruct (is_null v) eqn:Hn.
      * right. destruct v; try discriminate. by apply ValidateBasic_null.
      * left. by eapply ValidateBasic_present.
    + right. by apply ValidateBasic_absent.
  - by apply ValidateBasic_absent.
  - destruct (is_object raw) eqn:E; [done|].
    apply ValidateBasic_absent; [done|].
    simpl. unfold GetDefaultJsonObject. by rewrite E.
Qed.

(** C4. For the request data {"sceneName": "Scene 1", "sceneItemId": 5}:
    when the source found under "Scene 1" is a scene the filter admits
    and its scene holds an item with id 5, ValidateSceneItem returns that
    item and leaves the slots alone; when no source is named "Scene 1" it
    fails with ResourceNotFound and a comment that mentions "Scene 1",
    also when the item id is -1, so the scene is resolved first; with the
    item id -1 and the scene resolved it fails with
    RequestParameterOutOfRange, below the minimum 0, whatever the scene
    holds, so the number is checked before the item is looked up. *)
Theorem ValidateSceneItem_end_to_end to_string_double session requestType filter s :
  (∀ p src items i,
     find_source (sources (obs s)) "Scene 1" = Some p →
     sources (obs s) !! p = Some src →
     source_type src = OBS_SOURCE_TYPE_SCENE →
     filter_admits filter (source_is_group src) →
     source_scene src = Some items →
     find_item items 5 = Some i →
     ∃ s', ValidateSceneItem to_string_double
             (Request_new session requestType ex_data)
             "sceneName" "sceneItemId" filter s = Some (Some (p, i), s') ∧
           items !! i = Some 5 ∧
           statusCode s' = statusCode s ∧ comment s' = comment s) ∧
  (find_source (sources (obs s)) "Scene 1" = None →
     ValidateSceneItem to_string_double (Request_new session requestType ex_data)
       "sceneName" "sceneItemId" filter s
     = Some (None, with_slots ResourceNotFound (not_found "Scene 1") s) ∧
     ValidateSceneItem to_string_double
       (Request_new session requestType ex_data_negative)
       "sceneName" "sceneItemId" filter s
     = Some (None, with_slots ResourceNotFound (not_found "Scene 1") s) ∧
     mentions (not_found "Scene 1") "Scene 1") ∧
  (∀ p src,
     find_source (sources (obs s)) "Scene 1" = Some p →
     sources (obs s) !! p = Some src →
     source_type src = OBS_SOURCE_TYPE_SCENE →
     filter_admits filter (source_is_group src) →
     ∃ s', ValidateSceneItem to_string_double
             (Request_new session requestType ex_data_negative)
             "sceneName" "sceneItemId" filter s = Some (None, s') ∧
           statusCode s' = RequestParameterOutOfRange ∧
           comment s' = below_minimum "sceneItemId" (to_string_double double_zero)).
Proof.
  split_and!.
  - intros p src items i Hf Hl Ht Ha Hsc Hi.
    set (r := Request_new session requestType ex_data).
    assert (json_at (RequestData r) "sceneName" = Some (Jstring "Scene 1")) as Hname by done.
    assert (json_at (RequestData r) "sceneItemId" = Some (Jnumber_unsigned 5)) as Hid by done.
    pose proof (ValidateScene_resolves r _ filter s _ _ _ Hname ltac:(done) Hf Hl Ht Ha)
      as Hs.
    set (s1 := CallState (statusCode s) (comment s) (source_refs_add 1 p (obs s))) in Hs.
    assert (ValidateNumber to_string_double r "sceneItemId" double_zero
              default_maxValue s1 = Some (true, s1)) as Hn.
    { by rewrite (ValidateNumber_run to_string_double r _ _ _ _ s1 Hid). }
    destruct (ValidateSceneItem_lookup to_string_double r _ _ _ _ _ _ src _ 5 _
                Hs Hn ltac:(done) Hid ltac:(done) Hname) as (s' & Hrun & _ & Hslots).
    rewrite Hsc in Hrun, Hslots. simpl in Hrun, Hslots. rewrite Hi in Hrun, Hslots.
    exists s'. split_and!; [done|by apply find_item_lookup|apply Hslots..].
  - intros Hf. split_and!.
    + apply ValidateSceneItem_scene_fail.
      by apply ValidateScene_not_found.
    + apply ValidateSceneItem_scene_fail.
      by apply ValidateScene_not_found.
    + by exists "No source was found by the name of `", "`.".
  - intros p src Hf Hl Ht Ha.
    set (r := Request_new session requestType ex_data_negative).
    assert (json_at (RequestData r) "sceneName" = Some (Jstring "Scene 1")) as Hname by done.
    assert (json_at (RequestData r) "sceneItemId" = Some (Jnumber_integer (-1))) as Hid by done.
    pose proof (ValidateScene_resolves r _ filter s _ _ _ Hname ltac:(done) Hf Hl Ht Ha)
      as Hs.
    set (s1 := CallState (statusCode s) (comment s) (source_refs_add 1 p (obs s))) in Hs.
    assert (ValidateNumber to_string_double r "sceneItemId" double_zero
              default_maxValue s1
            = Some (false, with_slots RequestParameterOutOfRange
                             (below_minimum "sceneItemId" (to_string_double double_zero)) s1))
      as Hn.
    { by rewrite (ValidateNumber_run to_string_double r _ _ _ _ s1 Hid). }
    destruct (ValidateSceneItem_number_fail to_string_double r _ _ _ _ _ _ _ Hs Hn)
      as (s' & Hrun & Hc & Hm & _).
    by exists s'.
Qed.

(** ** The statements at work *)

(** C1, as stated, fails on a NaN bound: with [minValue] a NaN the item
    id 5 is accepted, while [minValue <= 5] is false. *)
Lemma ValidateNumber_nan_bound_counterexample :
  ¬ ((∃ s', ValidateNumber to_string_f ex_request "sceneItemId" NAN INFINITY ex_state
            = Some (true, s')) ↔
     ValidateBasic ex_request "sceneItemId" ex_state = Some (true, ex_state) ∧
     number_in_range ex_request "sceneItemId" NAN INFINITY).
Proof.
  intros [H _].
  destruct H as [_ (v & x & Hv & _ & Hx & Hr)]; [by exists ex_state|].
  injection Hv as <-. injection Hx as <-. discriminate Hr.
Qed.

Lemma ValidateNumber_range_witness :
  is_nan double_zero = false ∧ is_nan INFINITY = false ∧
  json_at (RequestData ex_request) "sceneItemId" ≠ Some (Jnumber_float NAN) ∧
  ((∃ s', ValidateNumber to_string_f ex_request "sceneItemId" double_zero INFINITY
            ex_state = Some (true, s')) ↔
     ValidateBasic ex_request "sceneItemId" ex_state = Some (true, ex_state) ∧
     number_in_range ex_request "sceneItemId" double_zero INFINITY).
Proof.
  assert (is_nan double_zero = false) as H1 by reflexivity.
  assert (is_nan INFINITY = false) as H2 by reflexivity.
  assert (json_at (RequestData ex_request) "sceneItemId" ≠ Some (Jnumber_float NAN))
    as H3 by discriminate.
  split; [exact H1|]. split; [exact H2|]. split; [exact H3|].
  exact (proj1 (ValidateNumber_range to_string_f ex_request "sceneItemId"
                  double_zero INFINITY ex_state H1 H2 H3)).
Defined.

Lemma ValidateBasic_missing_parameter_witness :
  HasRequestData ex_request = true ∧
  ((∃ s', ValidateBasic ex_request "sceneUuid" ex_state = Some (false, s')) ↔
     contains (RequestData ex_request) "sceneUuid" = false ∨
     json_at (RequestData ex_request) "sceneUuid" = Some Jnull).
Proof.
  assert (HasRequestData ex_request = true) as H by reflexivity.
  split; [exact H|].
  exact (proj1 (ValidateBasic_missing_parameter ex_request "sceneUuid" ex_state H)).
Defined.

Lemma ValidateSceneItem_end_to_end_witness :
  (∃ s', ValidateSceneItem to_string_f ex_request "sceneName" "sceneItemId"
           scene_only ex_state = Some (Some (1%nat, 1%nat), s') ∧
         [1; 5; 7] !! 1%nat = Some 5 ∧
         statusCode s' = statusCode ex_state ∧ comment s' = comment ex_state) ∧
  ValidateSceneItem to_string_f ex_request "sceneName" "sceneItemId"
    scene_only ex_state_no_scene
  = Some (None, with_slots ResourceNotFound (not_found "Scene 1") ex_state_no_scene) ∧
  (∃ s', ValidateSceneItem to_string_f ex_request_negative "sceneName" "sceneItemId"
           scene_only ex_state = Some (None, s') ∧
         statusCode s' = RequestParameterOutOfRange ∧
         comment s' = below_minimum "sceneItemId" (to_string_f double_zero)).
Proof.
  destruct (ValidateSceneItem_end_to_end to_string_f ex_session
              "GetSceneItemTransform" scene_only ex_state) as (H1 & _ & H3).
  destruct (ValidateSceneItem_end_to_end to_string_f ex_session
              "GetSceneItemTransform" scene_only ex_state_no_scene) as (_ & H2 & _).
  split; [|split].
  - refine (H1 1%nat _ [1; 5; 7] 1%nat eq_refl eq_refl eq_refl _ eq_refl eq_refl).
    split; [reflexivity|discriminate].
  - exact (proj1 (H2 eq_refl)).
  - refine (H3 1%nat _ eq_refl eq_refl eq_refl _).
    split; [reflexivity|discriminate].
Defined.

(** C5, as stated, fails on a float with a fraction: the item id 5.5 is
    validated, and the item looked up and returned is the one with id 5,
    which is not the value of the parameter.  It fails again on a float too
    large for a 64-bit signed integer: 2^100 is validated as well, its
    conversion is undefined, and no id equal to the parameter is looked
    up. *)
Lemma ValidateSceneItem_fractional_id_counterexample :
  json_at (RequestData ex_request_fractional) "sceneItemId"
    = Some (Jnumber_float five_and_a_half) ∧
  double_valid five_and_a_half = true ∧
  double_lt (double_of_Z 5) five_and_a_half = true ∧
  double_lt five_and_a_half (double_of_Z 6) = true ∧
  ValidateNumber to_string_f ex_request_fractional "sceneItemId" double_zero
    default_maxValue ex_state = Some (true, ex_state) ∧
  (∃ s', ValidateSceneItem to_string_f ex_request_fractional "sceneName" "sceneItemId"
           scene_only ex_state = Some (Some (1%nat, 1%nat), s')) ∧
  (sources ex_core !! 1%nat) ≫= source_scene = Some [1; 5; 7] ∧
  [1; 5; 7] !! 1%nat = Some 5 ∧
  double_eq (double_of_Z 5) five_and_a_half = false ∧
  json_at (RequestData ex_request_huge) "sceneItemId"
    = Some (Jnumber_float two_to_the_100) ∧
  double_valid two_to_the_100 = true ∧
  truncated_toward_zero two_to_the_100 (2 ^ 100) ∧
  INT64_MAX < 2 ^ 100 ∧
  ValidateNumber to_string_f ex_request_huge "sceneItemId" double_zero
    default_maxValue ex_state = Some (true, ex_state) ∧
  get_int64 (Jnumber_float two_to_the_100) = None ∧
  ValidateSceneItem to_string_f ex_request_huge "sceneName" "sceneItemId"
    scene_only ex_state = None.
Proof.
  split_and!; try reflexivity.
  - eexists. vm_compute. reflexivity.
  - simpl. split; [done|]. vm_compute. split; [by intros [=]|done].
Qed.

Lemma ValidateSceneItem_item_id_witness :
  ValidateScene ex_request "sceneName" scene_only ex_state
    = Some (Some 1%nat, ex_state_resolved) ∧
  json_at (RequestData ex_request) "sceneItemId" = Some (Jnumber_unsigned 5) ∧
  is_number (Jnumber_unsigned 5) = true ∧
  ¬ json_negative (Jnumber_unsigned 5) ∧
  get_int64 (Jnumber_unsigned 5) = Some 5 ∧
  ∃ src s', sources (obs ex_state_resolved) !! 1%nat = Some src ∧
    ValidateSceneItem to_string_f ex_request "sceneName" "sceneItemId" scene_only ex_state
    = Some (pair 1%nat <$> (source_scene src ≫= λ items, find_item items 5), s').
Proof.
  assert (¬ json_negative (Jnumber_unsigned 5)) as Hneg by (simpl; lia).
  split; [reflexivity|]. split; [reflexivity|]. split; [reflexivity|].
  split; [exact Hneg|]. split; [reflexivity|].
  destruct (ValidateSceneItem_item_id to_string_f ex_request "sceneName" "sceneItemId"
              scene_only ex_state 1%nat ex_state_resolved (Jnumber_unsigned 5)
              eq_refl eq_refl eq_refl) as (_ & _ & _ & H & _).
  exact (H 5 Hneg eq_refl).
Defined.


Lemma ValidateScene_filter_witness :
  ValidateSource ex_request "sceneName" ex_state_group
    = Some (Some 1%nat, CallState MissingRequestData ""
                          (source_refs_add 1 1%nat ex_core_group)) ∧
  ∃ s', ValidateScene ex_request "sceneName" scene_only ex_state_group = Some (None, s') ∧
        statusCode s' = InvalidResourceType ∧
        comment s' = "The specified source is not a scene.".
Proof.
  split; [reflexivity|].
  destruct (ValidateScene_filter ex_request "sceneName" scene_only ex_state_group 1%nat
              (CallState MissingRequestData "" (source_refs_add 1 1%nat ex_core_group))
              {| source_name := "Scene 1"; source_type := OBS_SOURCE_TYPE_SCENE;
                 source_is_group := true; source_scene := None |}
              eq_refl eq_refl) as (_ & H).
  exact (proj1 (H eq_refl) eq_refl eq_refl).
Defined.

Lemma failure_propagation_witness :
  ValidateBasic ex_request_null "sceneName" ex_state
    = Some (false, with_slots MissingRequestParameter
                     (missing_parameter "sceneName") ex_state) ∧
  ValidateNumber to_string_f ex_request_null "sceneName" double_zero INFINITY ex_state
    = Some (false, with_slots MissingRequestParameter
                     (missing_parameter "sceneName") ex_state) ∧
  ValidateSceneItem to_string_f ex_request_null "sceneName" "sceneItemId" scene_only
    ex_state
    = Some (None, with_slots MissingRequestParameter
                    (missing_parameter "sceneName") ex_state) ∧
  ∃ s'', ValidateSceneItem to_string_f ex_request_negative "sceneName" "sceneItemId"
           scene_only ex_state = Some (None, s'') ∧
         statusCode s'' = RequestParameterOutOfRange ∧
         comment s'' = below_minimum "sceneItemId" (to_string_f double_zero).
Proof.
  pose proof (failure_propagation to_string_f ex_request_null "sceneName" "sceneItemId"
                double_zero INFINITY false scene_only ex_state
                (with_slots MissingRequestParameter (missing_parameter "sceneName")
                   ex_state)) as (H1 & H2 & H3 & H4 & _).
  pose proof (failure_propagation to_string_f ex_request_negative "sceneName"
                "sceneItemId" double_zero INFINITY false scene_only ex_state
                (with_slots RequestParameterOutOfRange
                   (below_minimum "sceneItemId" (to_string_f double_zero))
                   ex_state_resolved)) as (_ & _ & _ & _ & H5).
  split; [reflexivity|]. split; [exact (proj1 (H1 eq_refl))|].
  split; [exact (H4 (proj1 (H3 (H2 (proj1 (proj2 (H1 eq_refl))))))) |].
  exact (H5 1%nat ex_state_resolved ex_state_resolved eq_refl eq_refl).
Defined.

Lemma success_leaves_slots_witness :
  ValidateNumber to_string_f ex_request "sceneItemId" double_zero INFINITY ex_state
    = Some (true, ex_state) ∧
  ValidateScene ex_request "sceneName" scene_only ex_state
    = Some (Some 1%nat, ex_state_resolved) ∧
  statusCode ex_state_resolved = statusCode ex_state ∧
  comment ex_state_resolved = comment ex_state.
Proof.
  pose proof (success_leaves_slots to_string_f ex_request "sceneName" "sceneItemId"
                double_zero INFINITY false scene_only ex_state ex_state_resolved)
    as (_ & _ & _ & _ & _ & _ & _ & H & _).
  split; [reflexivity|]. split; [reflexivity|].
  exact (H 1%nat eq_refl).
Defined.

Lemma handle_is_success_witness :
  ValidateSceneItem to_string_f ex_request "sceneName" "sceneItemId" scene_only
    ex_state_no_scene
    = Some (None, with_slots ResourceNotFound (not_found "Scene 1") ex_state_no_scene) ∧
  ∃ s0', ValidateSceneItem to_string_f ex_request "sceneName" "sceneItemId" scene_only
           (with_slots InvalidResourceType "stale" ex_state_no_scene) = Some (None, s0') ∧
         statusCode s0' = ResourceNotFound ∧ comment s0' = not_found "Scene 1".
Proof.
  pose proof (handle_is_success to_string_f ex_request "sceneName" "sceneItemId"
                scene_only ex_state_no_scene
                (with_slots ResourceNotFound (not_found "Scene 1") ex_state_no_scene))
    as (_ & _ & _ & _ & _ & H).
  split; [reflexivity|].
  exact (H eq_refl InvalidResourceType "stale").
Defined.

(** ** The further properties at work *)

Lemma ValidateString_accepts_witness :
  (∃ str, json_at (RequestData ex_request_typed) "sceneName" = Some (Jstring str) ∧
          (str = "" → false = true)) ∧
  (∃ s', ValidateString ex_request_typed "sceneName" false ex_state = Some (true, s')) ∧
  json_at (RequestData ex_request_typed) "filterName" = Some (Jstring "") ∧
  ValidateString ex_request_typed "filterName" false ex_state
  = Some (false, with_slots RequestParameterEmpty
                   "The parameter `filterName` must not be empty." ex_state) ∧
  ValidateString ex_request_typed "filterName" true ex_state = Some (true, ex_state).
Proof.
  assert (∃ str, json_at (RequestData ex_request_typed) "sceneName" = Some (Jstring str) ∧
                 (str = "" → false = true)) as H.
  { exists "Scene 1". split; [reflexivity|discriminate]. }
  split; [exact H|].
  split; [exact (proj2 (proj1 (ValidateString_accepts ex_request_typed "sceneName"
                                 false ex_state)) H)|].
  split; [reflexivity|].
  exact (proj2 (proj2 (ValidateString_accepts ex_request_typed "filterName"
                         false ex_state)) eq_refl).
Defined.

Lemma ValidateBoolean_accepts_witness :
  json_at (RequestData ex_request_typed) "sceneName" = Some (Jstring "Scene 1") ∧
  is_null (Jstring "Scene 1") = false ∧ is_boolean (Jstring "Scene 1") = false ∧
  ValidateBoolean ex_request_typed "sceneName" ex_state
  = Some (false, with_slots InvalidRequestParameterType
                   "The parameter `sceneName` must be boolean." ex_state) ∧
  (∃ b, json_at (RequestData ex_request_typed) "overlay" = Some (Jboolean b)) ∧
  ∃ s', ValidateBoolean ex_request_typed "overlay" ex_state = Some (true, s').
Proof.
  split; [reflexivity|]. split; [reflexivity|]. split; [reflexivity|].
  split.
  { exact (proj2 (ValidateBoolean_accepts ex_request_typed "sceneName" ex_state)
             (Jstring "Scene 1") eq_refl eq_refl eq_refl). }
  assert (∃ b, json_at (RequestData ex_request_typed) "overlay" = Some (Jboolean b)) as H
    by (exists true; reflexivity).
  split; [exact H|].
  exact (proj2 (proj1 (ValidateBoolean_accepts ex_request_typed "overlay" ex_state)) H).
Defined.

Lemma ValidateObject_accepts_witness :
  json_at (RequestData ex_request_typed) "keyModifiers" = Some (Jobject []) ∧
  ValidateObject ex_request_typed "keyModifiers" false ex_state
  = Some (false, with_slots RequestParameterEmpty
                   "The parameter `keyModifiers` must not be empty." ex_state) ∧
  ValidateObject ex_request_typed "keyModifiers" true ex_state = Some (true, ex_state) ∧
  is_object (Jarray [Jstring "Sleep"]) = false ∧
  ValidateObject ex_request_typed "requests" false ex_state
  = Some (false, with_slots InvalidRequestParameterType
                   "The parameter `requests` must be an object." ex_state).
Proof.
  split; [reflexivity|].
  destruct (proj2 (proj2 (ValidateObject_accepts ex_request_typed "keyModifiers"
                            false ex_state)) eq_refl) as [H1 H2].
  split; [exact H1|]. split; [exact H2|]. split; [reflexivity|].
  exact (proj1 (proj2 (ValidateObject_accepts ex_request_typed "requests" false ex_state))
           (Jarray [Jstring "Sleep"]) eq_refl eq_refl eq_refl).
Defined.

Lemma ValidateArray_accepts_witness :
  json_at (RequestData ex_request_typed) "frames" = Some (Jarray []) ∧
  ValidateArray ex_request_typed "frames" false ex_state
  = Some (false, with_slots RequestParameterEmpty
                   "The parameter `frames` must not be empty." ex_state) ∧
  ValidateArray ex_request_typed "frames" true ex_state = Some (true, ex_state) ∧
  is_array (Jobject []) = false ∧
  ValidateArray ex_request_typed "keyModifiers" true ex_state
  = Some (false, with_slots InvalidRequestParameterType
                   "The parameter `keyModifiers` must be an array." ex_state).
Proof.
  split; [reflexivity|].
  destruct (proj2 (proj2 (ValidateArray_accepts ex_request_typed "frames"
                            false ex_state)) eq_refl) as [H1 H2].
  split; [exact H1|]. split; [exact H2|]. split; [reflexivity|].
  exact (proj1 (proj2 (ValidateArray_accepts ex_request_typed "keyModifiers" true ex_state))
           (Jobject []) eq_refl eq_refl eq_refl).
Defined.

Lemma ValidateNumber_type_and_unbounded_witness :
  json_at (RequestData ex_request) "sceneName" = Some (Jstring "Scene 1") ∧
  is_number (Jstring "Scene 1") = false ∧
  ValidateNumber to_string_f ex_request "sceneName" double_zero INFINITY ex_state
  = Some (false, with_slots InvalidRequestParameterType
                   "The parameter `sceneName` must be a number." ex_state) ∧
  json_at (RequestData ex_request_negative) "sceneItemId" = Some (Jnumber_integer (-1)) ∧
  ValidateNumber to_string_f ex_request_negative "sceneItemId"
    (S754_infinity true) INFINITY ex_state = Some (true, ex_state).
Proof.
  split; [reflexivity|]. split; [reflexivity|].
  split.
  { exact (proj1 (ValidateNumber_type_and_unbounded to_string_f ex_request "sceneName"
                    double_zero INFINITY ex_state)
             (Jstring "Scene 1") eq_refl eq_refl eq_refl). }
  split; [reflexivity|].
  exact (proj1 (proj2 (ValidateNumber_type_and_unbounded to_string_f ex_request_negative
                         "sceneItemId" double_zero INFINITY ex_state))
           (Jnumber_integer (-1)) eq_refl eq_refl).
Defined.

Lemma failure_status_codes_witness :
  ValidateNumber to_string_f ex_request "sceneName" double_zero INFINITY ex_state
  = Some (false, with_slots InvalidRequestParameterType
                   "The parameter `sceneName` must be a number." ex_state) ∧
  InvalidRequestParameterType
    ∈ [MissingRequestData; MissingRequestParameter;
       InvalidRequestParameterType; RequestParameterOutOfRange].
Proof.
  split; [reflexivity|].
  exact (proj1 (proj2 (failure_status_codes to_string_f ex_request "sceneName"
                         "sceneItemId" double_zero INFINITY false scene_only ex_state
                         (with_slots InvalidRequestParameterType
                            "The parameter `sceneName` must be a number." ex_state)))
           eq_refl).
Defined.

Lemma ValidateSource_resolves_witness :
  (∃ name, json_at (RequestData ex_request_typed) "inputName" = Some (Jstring name) ∧
           name ≠ "" ∧ find_source (sources (obs ex_state)) (c_str name) = Some 0%nat) ∧
  (∃ s', ValidateSource ex_request_typed "inputName" ex_state = Some (Some 0%nat, s')) ∧
  json_at (RequestData ex_request_typed) "filterName" = Some (Jstring "") ∧
  ValidateSource ex_request_typed "filterName" ex_state
  = Some (None, with_slots RequestParameterEmpty
                  "The parameter `filterName` must not be empty." ex_state).
Proof.
  assert (∃ name, json_at (RequestData ex_request_typed) "inputName" = Some (Jstring name) ∧
            name ≠ "" ∧ find_source (sources (obs ex_state)) (c_str name) = Some 0%nat)
    as H.
  { exists "Mic". split; [reflexivity|]. split; [discriminate|reflexivity]. }
  split; [exact H|].
  split.
  { exact (proj2 (proj1 (ValidateSource_resolves ex_request_typed "inputName" ex_state)
                    0%nat) H). }
  split; [reflexivity|].
  exact (proj1 (proj2 (proj2 (ValidateSource_resolves ex_request_typed "filterName"
                                ex_state))) eq_refl).
Defined.

Lemma ValidateInput_kind_witness :
  ValidateSource ex_request_typed "inputName" ex_state
  = Some (Some 0%nat, CallState MissingRequestData "" (source_refs_add 1 0%nat ex_core)) ∧
  ValidateInput ex_request_typed "inputName" ex_state
  = Some (Some 0%nat, CallState MissingRequestData "" (source_refs_add 1 0%nat ex_core)) ∧
  ValidateSource ex_request_typed "sceneName" ex_state
  = Some (Some 1%nat, ex_state_resolved) ∧
  ∃ s', ValidateInput ex_request_typed "sceneName" ex_state = Some (None, s') ∧
        statusCode s' = InvalidResourceType ∧
        comment s' = "The specified source is not an input." ∧
        same_refs (obs ex_state) (obs s').
Proof.
  split; [reflexivity|].
  split.
  { exact (proj1 (ValidateInput_kind ex_request_typed "inputName" ex_state 0%nat
                    (CallState MissingRequestData "" (source_refs_add 1 0%nat ex_core))
                    {| source_name := "Mic"; source_type := OBS_SOURCE_TYPE_INPUT;
                       source_is_group := false; source_scene := None |}
                    eq_refl eq_refl) eq_refl). }
  split; [reflexivity|].
  refine (proj2 (ValidateInput_kind ex_request_typed "sceneName" ex_state 1%nat
                   ex_state_resolved
                   {| source_name := "Scene 1"; source_type := OBS_SOURCE_TYPE_SCENE;
                      source_is_group := false; source_scene := Some [1; 5; 7] |}
                   eq_refl eq_refl) _).
  discriminate.
Defined.

Lemma scene_filters_partition_witness :
  ValidateScene ex_request "sceneName" scene_only ex_state
  = Some (Some 1%nat, ex_state_resolved) ∧
  ValidateScene ex_request "sceneName" OBS_WEBSOCKET_SCENE_FILTER_SCENE_OR_GROUP ex_state
  = Some (Some 1%nat, ex_state_resolved).
Proof.
  split; [reflexivity|].
  exact (proj2 (proj2 (proj2 (scene_filters_partition ex_request "sceneName" ex_state))
                  1%nat ex_state_resolved) (or_introl eq_refl)).
Defined.

Lemma ValidateSceneItem_not_found_witness :
  ValidateScene ex_request_absent_item "sceneName" scene_only ex_state
  = Some (Some 1%nat, ex_state_resolved) ∧
  json_at (RequestData ex_request_absent_item) "sceneItemId" = Some (Jnumber_unsigned 9) ∧
  ¬ json_negative (Jnumber_unsigned 9) ∧
  (9 ∉ [1; 5; 7]) ∧
  ∃ s', ValidateSceneItem to_string_f ex_request_absent_item "sceneName" "sceneItemId"
          scene_only ex_state = Some (None, s') ∧
        statusCode s' = ResourceNotFound ∧
        comment s' = no_scene_item "Scene 1" 9 ∧
        mentions (no_scene_item "Scene 1" 9) "Scene 1" ∧
        mentions (no_scene_item "Scene 1" 9) (to_string_int64 9) ∧
        same_refs (obs ex_state) (obs s').
Proof.
  assert (¬ json_negative (Jnumber_unsigned 9)) as Hneg by (simpl; lia).
  assert (9 ∉ [1; 5; 7]) as Hnot.
  { intros H. repeat (apply elem_of_cons in H as [H|H]; [discriminate|]).
    by apply elem_of_nil in H. }
  split; [reflexivity|]. split; [reflexivity|]. split; [exact Hneg|].
  split; [exact Hnot|].
  refine (ValidateSceneItem_not_found to_string_f ex_request_absent_item "sceneName"
            "sceneItemId" scene_only ex_state 1%nat ex_state_resolved
            {| source_name := "Scene 1"; source_type := OBS_SOURCE_TYPE_SCENE;
               source_is_group := false; source_scene := Some [1; 5; 7] |}
            "Scene 1" (Jnumber_unsigned 9) 9
            eq_refl eq_refl eq_refl eq_refl eq_refl Hneg eq_refl _).
  intros items Hitems. injection Hitems as <-. exact Hnot.
Defined.

Lemma ValidateSceneItem_returns_item_witness :
  ValidateSceneItem to_string_f ex_request "sceneName" "sceneItemId" scene_only ex_state
  = Some (Some (1%nat, 1%nat), ex_state_item_held) ∧
  ∃ src items name idv id,
    sources (obs ex_state) !! 1%nat = Some src ∧
    source_type src = OBS_SOURCE_TYPE_SCENE ∧
    filter_admits scene_only (source_is_group src) ∧
    json_at (RequestData ex_request) "sceneName" = Some (Jstring name) ∧
    source_name src = c_str name ∧
    source_scene src = Some items ∧
    json_at (RequestData ex_request) "sceneItemId" = Some idv ∧
    is_number idv = true ∧ ¬ json_negative idv ∧
    get_int64 idv = Some id ∧
    items !! 1%nat = Some id ∧
    ∀ j, (j < 1)%nat → items !! j ≠ Some id.
Proof.
  split; [reflexivity|].
  exact (ValidateSceneItem_returns_item to_string_f ex_request "sceneName" "sceneItemId"
           scene_only ex_state 1%nat 1%nat ex_state_item_held eq_refl).
Defined.

Lemma ValidateSceneItem_undefined_iff_witness :
  (∃ p s1 f,
     ValidateScene ex_request_huge "sceneName" scene_only ex_state = Some (Some p, s1) ∧
     json_at (RequestData ex_request_huge) "sceneItemId" = Some (Jnumber_float f) ∧
     double_lt f double_zero = false ∧ int64_of_double f = None) ∧
  ValidateSceneItem to_string_f ex_request_huge "sceneName" "sceneItemId" scene_only
    ex_state = None ∧
  ∃ r s', ValidateSceneItem to_string_f ex_request "sceneName" "sceneItemId" scene_only
            ex_state = Some (r, s').
Proof.
  assert (∃ p s1 f,
     ValidateScene ex_request_huge "sceneName" scene_only ex_state = Some (Some p, s1) ∧
     json_at (RequestData ex_request_huge) "sceneItemId" = Some (Jnumber_float f) ∧
     double_lt f double_zero = false ∧ int64_of_double f = None) as H.
  { exists 1%nat, ex_state_resolved, two_to_the_100. repeat split; reflexivity. }
  split; [exact H|].
  split.
  { exact (proj2 (proj1 (ValidateSceneItem_undefined_iff to_string_f ex_request_huge
                           "sceneName" "sceneItemId" scene_only ex_state)) H). }
  exact (proj2 (ValidateSceneItem_undefined_iff to_string_f ex_request
                  "sceneName" "sceneItemId" scene_only ex_state) 5 (or_intror eq_refl)).
Defined.

Lemma ValidateSceneItem_unsigned_wraps_witness :
  ValidateScene ex_request_wrap "sceneName" scene_only ex_state
  = Some (Some 1%nat, ex_state_resolved) ∧
  json_at (RequestData ex_request_wrap) "sceneItemId"
  = Some (Jnumber_unsigned (2 ^ 64 - 1)) ∧
  2 ^ 63 ≤ 2 ^ 64 - 1 ∧
  ∃ src s', sources (obs ex_state_resolved) !! 1%nat = Some src ∧
    ValidateSceneItem to_string_f ex_request_wrap "sceneName" "sceneItemId" scene_only
      ex_state
    = Some (pair 1%nat <$> (source_scene src ≫=
                              λ items, find_item items (2 ^ 64 - 1 - 2 ^ 64)), s').
Proof.
  assert (2 ^ 63 ≤ 2 ^ 64 - 1) as H by lia.
  split; [reflexivity|]. split; [reflexivity|]. split; [exact H|].
  exact (ValidateSceneItem_unsigned_wraps to_string_f ex_request_wrap "sceneName"
           "sceneItemId" scene_only ex_state 1%nat ex_state_resolved (2 ^ 64 - 1)
           eq_refl eq_refl H).
Defined.

Lemma success_chain_witness :
  ValidateSceneItem to_string_f ex_request "sceneName" "sceneItemId" scene_only ex_state
  = Some (Some (1%nat, 1%nat), ex_state_item_held) ∧
  (∃ s1, ValidateScene ex_request "sceneName" scene_only ex_state = Some (Some 1%nat, s1)) ∧
  ValidateNumber to_string_f ex_request "sceneItemId" double_zero default_maxValue ex_state
  = Some (true, ex_state).
Proof.
  split; [reflexivity|].
  exact (proj2 (proj2 (proj2 (success_chain to_string_f ex_request "sceneName"
                                "sceneItemId" double_zero INFINITY false scene_only
                                ex_state ex_state_item_held)))
           1%nat 1%nat eq_refl).
Defined.

Lemma ValidateNumber_integer_range_witness :
  json_at (RequestData ex_request) "sceneItemId" = Some (Jnumber_unsigned 5) ∧
  Z.abs 5 < 2 ^ 53 ∧ Z.abs 0 < 2 ^ 53 ∧ Z.abs 10 < 2 ^ 53 ∧
  (ValidateNumber to_string_f ex_request "sceneItemId" (double_of_Z 0) (double_of_Z 10)
     ex_state = Some (true, ex_state) ↔ 0 ≤ 5 ≤ 10).
Proof.
  assert (Z.abs 5 < 2 ^ 53) as H1 by reflexivity.
  assert (Z.abs 0 < 2 ^ 53) as H2 by reflexivity.
  assert (Z.abs 10 < 2 ^ 53) as H3 by reflexivity.
  split; [reflexivity|]. split; [exact H1|]. split; [exact H2|]. split; [exact H3|].
  exact (proj1 (ValidateNumber_integer_range to_string_f ex_request "sceneItemId"
                  0 10 5 (Jnumber_unsigned 5) ex_state eq_refl (or_intror eq_refl)
                  H1 H2 H3)).
Defined.

Lemma scene_and_input_resolve_witness :
  (∃ s', ValidateScene ex_request "sceneName" scene_only ex_state = Some (Some 1%nat, s')) ∧
  ∃ name src,
    json_at (RequestData ex_request) "sceneName" = Some (Jstring name) ∧ name ≠ "" ∧
    find_source (sources (obs ex_state)) (c_str name) = Some 1%nat ∧
    sources (obs ex_state) !! 1%nat = Some src ∧
    source_type src = OBS_SOURCE_TYPE_SCENE ∧
    filter_admits scene_only (source_is_group src).
Proof.
  assert (∃ s', ValidateScene ex_request "sceneName" scene_only ex_state
                = Some (Some 1%nat, s')) as H
    by (exists ex_state_resolved; reflexivity).
  split; [exact H|].
  exact (proj1 (proj1 (scene_and_input_resolve ex_request "sceneName" scene_only
                         ex_state 1%nat)) H).
Defined.

Lemma ValidateSceneItem_succeeds_iff_witness :
  (∃ s', ValidateSceneItem to_string_f ex_request "sceneName" "sceneItemId" scene_only
           ex_state = Some (Some (1%nat, 1%nat), s')) ∧
  ∃ s1 src items idv id,
    ValidateScene ex_request "sceneName" scene_only ex_state = Some (Some 1%nat, s1) ∧
    sources (obs ex_state) !! 1%nat = Some src ∧
    source_scene src = Some items ∧
    json_at (RequestData ex_request) "sceneItemId" = Some idv ∧
    is_number idv = true ∧ ¬ json_negative idv ∧
    get_int64 idv = Some id ∧
    find_item items id = Some 1%nat.
Proof.
  assert (∃ s', ValidateSceneItem to_string_f ex_request "sceneName" "sceneItemId"
                  scene_only ex_state = Some (Some (1%nat, 1%nat), s')) as H
    by (exists ex_state_item_held; reflexivity).
  split; [exact H|].
  exact (proj1 (ValidateSceneItem_succeeds_iff to_string_f ex_request "sceneName"
                  "sceneItemId" scene_only ex_state 1%nat 1%nat) H).
Defined.
